(** * bi_counter: the binary-search file counter and its approval workflow

    A shallow embedding of [main.py] (class [BinarySearchFileCounter]):
    the cutoff counter, the per-device scan, the tier state machine and
    the approval workflow, followed by the properties of the design
    document that concern them.

    Conventions of the embedding.
    - Instants ([st_mtime], [datetime.timestamp()]) are points of a
      totally ordered discrete time line, represented by [Z]; only their
      order is ever used by the program.
    - Python integers are [Z]; list indices and lengths are [nat].
    - A JSON object with a fixed set of keys read by the program is a
      record; an object used as a dictionary is a [gmap] (or, for the
      [devices] section of the configuration whose iteration order
      matters, an association list).
    - What the program reads from its environment during one call (the
      clock, the directory listing, the generated identifier) is passed
      in explicitly.
    - A Python exception is the [Err] result. Where an exception leaves
      a method after the object has been changed, [Err] carries the
      object as the method leaves it.
    - The attribute [pending_approvals] is written to its file by every
      method that changes it, right after the change
      ([create_approval_request], [process_approval_decision]), so the
      attribute stands for the document. [state.json] and the
      configuration are written at definite points of [run_scan] and
      [process_approval_decision]; what an invocation leaves on disk
      when it raises before or after those points is part of the model.

    Left out: the text of the log, the e-mail notification and the JSON
    encoding of the documents (a log line whose evaluation can raise is
    kept). A scan environment carries the files that the filter has
    accepted; the filter and the enumeration themselves are modelled
    apart, over the three string functions of the standard library that
    the filter calls. The configuration is taken to carry the keys that
    the code indexes without a default, and the file writes themselves
    are taken to succeed. *)

From stdpp Require Import gmap strings list fin_maps sorting.

Local Open Scope Z_scope.

(** ** Results of fallible code *)

Inductive exn := KeyError | TypeError | ZeroDivisionError.

(** A value returned, or what an exception carries out of the call. *)
Inductive result (E A : Type) :=
| Ok (a : A)
| Err (e : E).
Arguments Ok {E A} a.
Arguments Err {E A} e.

Global Instance result_bind {E : Type} : MBind (result E) := λ A B k m,
  match m with
  | Ok a => k a
  | Err e => Err e
  end.

(** Code that raises before it has changed anything. *)
Abbreviation res := (result exn).

(** ** [bisect.bisect_left] of the Python standard library

    [while lo < hi: mid = (lo + hi) // 2;
       if a[mid] < x: lo = mid + 1 else: hi = mid]
    The loop is bounded by [fuel]; [bisect_left] supplies [len(a)], which
    is shown below to be enough. *)

Fixpoint bisect_loop (fuel : nat) (a : list Z) (x : Z) (lo hi : nat) : nat :=
  match fuel with
  | O => lo
  | S fuel' =>
      if decide (lo < hi)%nat then
        let mid := ((lo + hi) / 2)%nat in
        match a !! mid with
        | Some v =>
            if decide (v < x) then bisect_loop fuel' a x (mid + 1)%nat hi
            else bisect_loop fuel' a x lo mid
        | None => lo
        end
      else lo
  end.

Definition bisect_left (a : list Z) (x : Z) : nat :=
  bisect_loop (length a) a x 0%nat (length a).

(** ** The cutoff counter *)

(** The dictionary [{"total_files", "historical_files", "new_files"}]. *)
Record file_counts := FileCounts {
  total_files : Z;
  historical_files : Z;
  new_files : Z
}.

Definition zero_counts : file_counts := FileCounts 0 0 0.

(** A collected file: [(st_mtime, name)]. *)
Abbreviation entry := (Z * string)%type.

Definition binary_search_file_count
    (timestamps : list entry) (cutoff_timestamp : Z) : file_counts :=
  match timestamps with
  | [] => zero_counts
  | _ =>
      let total := Z.of_nat (length timestamps) in
      let cutoff_index := bisect_left (timestamps.*1) cutoff_timestamp in
      let historical := Z.of_nat cutoff_index in
      let new := total - historical in
      FileCounts total historical new
  end.

(** The counts split the sorted sequence by position: the entries before
    the insertion index are the historical ones, the others are new. *)
Definition classified_historical (fc : file_counts) (i : nat) : Prop :=
  Z.of_nat i < historical_files fc.

Definition classified_new (fc : file_counts) (i : nat) : Prop :=
  historical_files fc ≤ Z.of_nat i < total_files fc.

(** Ascending order of the timestamps of a listing. *)
Definition ascending (timestamps : list entry) : Prop :=
  Sorted Z.le (timestamps.*1).

(** Number of timestamps strictly below, and at or below, a cutoff. *)
Definition count_lt (cutoff : Z) (ts : list Z) : nat :=
  length (filter (λ t, t < cutoff) ts).

Definition count_le (cutoff : Z) (ts : list Z) : nat :=
  length (filter (λ t, t ≤ cutoff) ts).

(** [r] separates [a] at [x]: everything before position [r] is below
    [x], everything from [r] on is not. *)
Definition separates (a : list Z) (x : Z) (r : nat) : Prop :=
  (∀ i v, (i < r)%nat → a !! i = Some v → v < x) ∧
  (∀ i v, (r ≤ i)%nat → a !! i = Some v → x ≤ v).

(** ** Configuration ([config.json])

    Only the keys read by the counting and approval code are kept. An
    absent key, or a date string that [datetime.fromisoformat] rejects,
    is [None]. *)

Record device_config := DeviceConfig {
  enabled : bool;
  cfg_current_tier : option string;
  cfg_production_start_date : option Z
}.

Record tier_requirements := TierRequirements {
  req_24h_to_12h : Z;
  req_12h_to_6h : Z;
  req_6h_to_3h : Z;
  req_3h_to_2h : Z
}.

Record app_config := AppConfig {
  cfg_devices : list (string * device_config);
  cfg_tier_requirements : tier_requirements;
  cfg_excluded_tiers : list string;
  cfg_bootstrap_mode : option bool;
  cfg_bootstrap_used_on_deployment : option bool;
  cfg_global_production_start_date : option Z
}.

(** [devices_config[device_name]] and [devices.get(device_name, {})]. *)
Fixpoint lookup_device (devs : list (string * device_config)) (name : string)
    : option device_config :=
  match devs with
  | [] => None
  | (n, dc) :: rest => if decide (n = name) then Some dc else lookup_device rest name
  end.

(** ** Persistent state ([state.json], [pending_approvals.json]) *)

Record device_state := DeviceState {
  current_tier : string;
  count : Z;
  tier_start_date : Z;
  approval_status : string;
  dev_total_files : Z;
  dev_historical_files : Z;
  deployment_date : Z;
  device_production_start_date : Z;
  pending_approval_id : option string
}.

Record scan_state := ScanState {
  last_scan : option Z;
  bootstrap_completed : bool;
  devices : gmap string device_state
}.

Record approval_request := ApprovalRequest {
  approval_id : string;
  device_name : string;
  req_current_tier : string;
  proposed_tier : string;
  unit_count : Z;
  request_date : Z;
  status : string;
  req_production_start_date : Z;
  decision_date : option Z;
  approver : option string
}.

Record approvals := Approvals {
  pending : gmap string approval_request;
  history : list approval_request
}.

(** The object [BinarySearchFileCounter]: the attributes that the scan and
    the approval workflow read or write. *)
Record counter := Counter {
  config : app_config;
  bootstrap_mode : bool;
  state : scan_state;
  pending_approvals : approvals
}.

(** What one scan reads from outside the process. *)
Record scan_env := ScanEnv {
  (** [datetime.now()] at the entry of [run_scan] *)
  start_time : Z;
  (** [datetime.now()] while the named device is handled *)
  now : string → Z;
  (** [biu_path.exists()] *)
  biu_exists : string → bool;
  (** the files of the device's BIU folder that the enumeration yields and
      the filter accepts, in enumeration order; empty when the
      enumeration fails *)
  dir_entries : string → list entry;
  (** [str(uuid.uuid4())[:8]] drawn for a request of the named device *)
  fresh_id : string → string;
  (** [datetime.now()] at the entry of [scan_all_devices] *)
  scan_start : Z;
  (** [datetime.now()] after the loop of [scan_all_devices] *)
  scan_end : Z;
  (** [datetime.now()] after the report has been generated *)
  end_time : Z
}.

(** An exception that leaves a method of the object: the exception, the
    object as the method leaves it, and whether [save_state] (with the
    rewrite of the configuration that precedes it) had run by then. *)
Record failure := Failure {
  exception : exn;
  object : counter;
  state_saved : bool
}.

(** An exception raised by code that has not changed the object [c]. *)
Definition within {A : Type} (c : counter) (m : res A) : result failure A :=
  match m with
  | Ok a => Ok a
  | Err e => Err (Failure e c false)
  end.

(** Field updates of the mutable records. *)
Definition set_files (total historical : Z) (d : device_state) : device_state :=
  DeviceState (current_tier d) (count d) (tier_start_date d) (approval_status d)
    total historical (deployment_date d) (device_production_start_date d)
    (pending_approval_id d).

Definition set_production_start (t : Z) (d : device_state) : device_state :=
  DeviceState (current_tier d) (count d) (tier_start_date d) (approval_status d)
    (dev_total_files d) (dev_historical_files d) (deployment_date d) t
    (pending_approval_id d).

Definition set_count (n : Z) (d : device_state) : device_state :=
  DeviceState (current_tier d) n (tier_start_date d) (approval_status d)
    (dev_total_files d) (dev_historical_files d) (deployment_date d)
    (device_production_start_date d) (pending_approval_id d).

Definition set_approval (st : string) (id : option string) (d : device_state)
    : device_state :=
  DeviceState (current_tier d) (count d) (tier_start_date d) st
    (dev_total_files d) (dev_historical_files d) (deployment_date d)
    (device_production_start_date d) id.

Definition set_tier (tier : string) (since : Z) (d : device_state) : device_state :=
  DeviceState tier (count d) since (approval_status d)
    (dev_total_files d) (dev_historical_files d) (deployment_date d)
    (device_production_start_date d) (pending_approval_id d).

Definition set_devices (ds : gmap string device_state) (c : counter) : counter :=
  Counter (config c) (bootstrap_mode c)
    (ScanState (last_scan (state c)) (bootstrap_completed (state c)) ds)
    (pending_approvals c).

Definition set_pending_approvals (a : approvals) (c : counter) : counter :=
  Counter (config c) (bootstrap_mode c) (state c) a.

(** [create_initial_state] and the default of [load_pending_approvals]. *)
Definition create_initial_state : scan_state := ScanState None false ∅.

Definition no_approvals : approvals := Approvals ∅ [].

(** ** Timestamp collection

    [timestamps.sort(key=lambda x: x[0])]: a stable sort by timestamp,
    here by insertion (the result of a stable sort is unique). *)

Fixpoint insert_entry (e : entry) (l : list entry) : list entry :=
  match l with
  | [] => [e]
  | e' :: l' => if decide (e'.1 < e.1) then e' :: insert_entry e l' else e :: l
  end.

Definition sort_by_timestamp (l : list entry) : list entry :=
  foldr insert_entry [] l.

Definition bulk_collect_file_timestamps (env : scan_env) (name : string)
    : list entry :=
  if biu_exists env name then sort_by_timestamp (dir_entries env name) else [].

(** ** Per-device scan *)

Definition get_device_production_start_date
    (c : counter) (env : scan_env) (name : string) : Z :=
  match lookup_device (cfg_devices (config c)) name ≫= cfg_production_start_date with
  | Some t => t
  | None =>
      match cfg_global_production_start_date (config c) with
      | Some t => t
      | None => now env name
      end
  end.

Definition all_historical (timestamps : list entry) : file_counts :=
  FileCounts (Z.of_nat (length timestamps)) (Z.of_nat (length timestamps)) 0.

Definition is_pending_approval (d : option device_state) : bool :=
  bool_decide (approval_status <$> d = Some "PENDING_APPROVAL"%string).

Definition scan_device_optimized
    (c : counter) (env : scan_env) (name : string) (dc : device_config)
    : res file_counts :=
  if negb (enabled dc) then Ok zero_counts
  else if negb (biu_exists env name) then Ok zero_counts
  else
    let timestamps := bulk_collect_file_timestamps env name in
    match timestamps with
    | [] => Ok zero_counts
    | _ =>
        if is_pending_approval (devices (state c) !! name) then
          Ok (all_historical timestamps)
        else if negb (bootstrap_completed (state c)) then
          let cutoff_timestamp := get_device_production_start_date c env name in
          if bootstrap_mode c then Ok (all_historical timestamps)
          else Ok (binary_search_file_count timestamps cutoff_timestamp)
        else
          match last_scan (state c) with
          | None => Err TypeError
          | Some cutoff_timestamp =>
              Ok (binary_search_file_count timestamps cutoff_timestamp)
          end
    end.

(** ** Tier state machine and approval requests *)

Definition store_device (name : string) (d : device_state) (c : counter)
    : counter :=
  set_devices (<[name := d]> (devices (state c))) c.

Definition create_approval_request
    (c : counter) (env : scan_env) (name current new_tier : string) (cnt : Z)
    : string * counter :=
  let id := fresh_id env name in
  let approval_request :=
    ApprovalRequest id name current new_tier cnt (now env name) "PENDING"
      (get_device_production_start_date c env name) None None in
  (id,
   set_pending_approvals
     (Approvals (<[id := approval_request]> (pending (pending_approvals c)))
        (history (pending_approvals c))) c).

(** The [if]/[elif] chain of [check_and_handle_tier_advancement]. *)
Definition eligible_tier (requirements : tier_requirements)
    (tier : string) (cnt : Z) : option string :=
  if bool_decide (tier = "24h"%string)
     && bool_decide (req_24h_to_12h requirements ≤ cnt) then Some "12h"%string
  else if bool_decide (tier = "12h"%string)
     && bool_decide (req_12h_to_6h requirements ≤ cnt) then Some "6h"%string
  else if bool_decide (tier = "6h"%string)
     && bool_decide (req_6h_to_3h requirements ≤ cnt) then Some "3h"%string
  else if bool_decide (tier = "3h"%string)
     && bool_decide (req_3h_to_2h requirements ≤ cnt) then Some "2h"%string
  else None.

(** [d] is the record stored for [name] in [c] (the Python code mutates
    it in place); sending the e-mail changes nothing of the state. *)
Definition check_and_handle_tier_advancement
    (c : counter) (env : scan_env) (name : string) (d : device_state)
    : counter :=
  if bool_decide (current_tier d ∈ cfg_excluded_tiers (config c)) then c
  else
    match eligible_tier (cfg_tier_requirements (config c))
            (current_tier d) (count d) with
    | Some tier =>
        if bool_decide (tier ≠ current_tier d) then
          let '(id, c1) :=
            create_approval_request c env name (current_tier d) tier (count d) in
          store_device name
            (set_approval "PENDING_APPROVAL" (Some id) d) c1
        else c
    | None => c
    end.

Definition initialize_device_state
    (c : counter) (env : scan_env) (name : string) : res device_state :=
  match lookup_device (cfg_devices (config c)) name with
  | None => Err KeyError
  | Some dc =>
      Ok (DeviceState (default "24h"%string (cfg_current_tier dc)) 0
            (now env name) "NONE" 0 0 (now env name)
            (get_device_production_start_date c env name) None)
  end.

Definition update_device_state
    (c : counter) (env : scan_env) (name : string) (fc : file_counts)
    : res counter :=
  d0 ← match devices (state c) !! name with
       | Some d => Ok d
       | None => initialize_device_state c env name
       end;
  let d1 :=
    set_production_start (get_device_production_start_date c env name)
      (set_files (total_files fc) (historical_files fc) d0) in
  if bool_decide (approval_status d1 = "PENDING_APPROVAL"%string) then
    Ok (store_device name d1 c)
  else
    let d2 := set_count (count d1 + new_files fc) d1 in
    Ok (check_and_handle_tier_advancement (store_device name d2 c) env name d2).

(** The loop of [scan_all_devices] over the enabled device names. An
    exception stops it with the object as the devices handled so far
    have left it. *)
Fixpoint scan_devices_loop
    (names : list string) (env : scan_env)
    (device_results : list (string * file_counts)) (c : counter)
    : result failure (list (string * file_counts) * counter) :=
  match names with
  | [] => Ok (device_results, c)
  | name :: rest =>
      match lookup_device (cfg_devices (config c)) name with
      | None => Err (Failure KeyError c false)
      | Some dc =>
          fc ← within c (scan_device_optimized c env name dc);
          c' ← within c (update_device_state c env name fc);
          scan_devices_loop rest env (device_results ++ [(name, fc)]) c'
      end
  end.

Definition enabled_devices (cfg : app_config) : list string :=
  (filter (λ p, enabled p.2 = true) (cfg_devices cfg)).*1.

(** The division of a number of files by a duration in seconds, inside
    a log line: [ZeroDivisionError] when the two readings of the clock
    that give the duration are equal. *)
Definition files_per_second (c : counter) (saved : bool) (since until : Z)
    : result failure () :=
  if decide (until = since) then Err (Failure ZeroDivisionError c saved)
  else Ok ().

(** After the loop the summary line is logged; its text divides the
    number of files by [total_duration] whatever that is. *)
Definition scan_all_devices (c : counter) (env : scan_env)
    : result failure (list (string * file_counts) * counter) :=
  '(device_results, c1) ← scan_devices_loop (enabled_devices (config c)) env [] c;
  _ ← files_per_second c1 false (scan_start env) (scan_end env);
  Ok (device_results, c1).

(** ** Resolution of an approval request *)

Definition decide_request (decision approver : string) (t : Z)
    (r : approval_request) : approval_request :=
  ApprovalRequest (approval_id r) (device_name r) (req_current_tier r)
    (proposed_tier r) (unit_count r) (request_date r) decision
    (req_production_start_date r) (Some t) (Some approver).

(** [t] is the reading of [datetime.now()] during the call. *)
Definition process_approval_decision
    (c : counter) (id decision approver : string) (t : Z)
    : res (bool * counter) :=
  match pending (pending_approvals c) !! id with
  | None => Ok (false, c)
  | Some approval_request =>
      let name := device_name approval_request in
      match devices (state c) !! name with
      | None => Err KeyError
      | Some d =>
          let d1 :=
            if bool_decide (decision = "APPROVE"%string) then
              set_approval "APPROVED" (pending_approval_id d)
                (set_tier (proposed_tier approval_request) t (set_count 0 d))
            else if bool_decide (decision = "REJECT"%string) then
              set_approval "REJECTED" (pending_approval_id d)
                (set_tier (current_tier d) t (set_count 0 d))
            else d in
          let moved := decide_request decision approver t approval_request in
          let approvals' :=
            Approvals (delete id (pending (pending_approvals c)))
              (history (pending_approvals c) ++ [moved]) in
          let d2 := set_approval (approval_status d1) None d1 in
          Ok (true, set_pending_approvals approvals' (store_device name d2 c))
      end
  end.

(** ** The scan cycle *)

(** The part of the report that is copied from the state (the report
    also carries the scan time, constant labels and a tier histogram). *)
Record device_report := DeviceReport {
  rep_current_tier : string;
  rep_count : Z;
  rep_total_files : Z;
  rep_historical_files : Z;
  rep_approval_status : string
}.

Record report := Report {
  rep_bootstrap_completed : bool;
  rep_devices_scanned : nat;
  rep_pending_approvals : nat;
  rep_devices : gmap string device_report
}.

Definition generate_report (c : counter) : report :=
  Report (bootstrap_completed (state c))
    (size (devices (state c)))
    (size (pending (pending_approvals c)))
    ((λ d, DeviceReport (current_tier d) (count d) (dev_total_files d)
             (dev_historical_files d) (approval_status d))
       <$> devices (state c)).

(** [del config["production_settings"]["bootstrap_mode"]], the value being
    kept under [bootstrap_used_on_deployment]. *)
Definition clear_bootstrap_mode (cfg : app_config) : app_config :=
  match cfg_bootstrap_mode cfg with
  | Some used =>
      AppConfig (cfg_devices cfg) (cfg_tier_requirements cfg)
        (cfg_excluded_tiers cfg) None (Some used)
        (cfg_global_production_start_date cfg)
  | None => cfg
  end.

Definition complete_bootstrap (c : counter) : counter :=
  if bootstrap_completed (state c) then c
  else
    Counter (clear_bootstrap_mode (config c)) (bootstrap_mode c)
      (ScanState (last_scan (state c)) true (devices (state c)))
      (pending_approvals c).

Definition set_last_scan (t : Z) (c : counter) : counter :=
  Counter (config c) (bootstrap_mode c)
    (ScanState (Some t) (bootstrap_completed (state c)) (devices (state c)))
    (pending_approvals c).

(** [c2] is the object that [save_state] writes; the performance line
    logged after the report divides by [scan_duration]. *)
Definition run_scan (c : counter) (env : scan_env)
    : result failure (option report * counter) :=
  '(device_results, c1) ← scan_all_devices c env;
  match device_results with
  | [] => Ok (None, c1)
  | _ =>
      let c2 := set_last_scan (start_time env) (complete_bootstrap c1) in
      _ ← files_per_second c2 true (start_time env) (end_time env);
      Ok (Some (generate_report c2), c2)
  end.

(** ** Successive invocations

    Each invocation of the scanner or of the approval surface builds a
    fresh [BinarySearchFileCounter] from the three documents on disk;
    between invocations the configuration may be edited. An invocation
    that returns has written the documents of its object. One that
    raises leaves the documents written up to then. *)

Record world := World {
  w_config : app_config;
  w_state : scan_state;
  w_approvals : approvals
}.

(** [__init__]: the attribute [bootstrap_mode] is read from the
    configuration, [False] when the key is absent. *)
Definition load (w : world) : counter :=
  Counter (w_config w) (default false (cfg_bootstrap_mode (w_config w)))
    (w_state w) (w_approvals w).

Definition persist (c : counter) : world :=
  World (config c) (state c) (pending_approvals c).

Inductive event :=
| Scan (env : scan_env)
| Resolve (id decision approver : string) (t : Z)
| Reconfigure (cfg : app_config).

(** The documents after an exception has left a method called on the
    object loaded from [w]: the approvals of the object and, when
    [save_state] had run, its state and configuration. *)
Definition left_on_disk (w : world) (f : failure) : world :=
  if state_saved f then persist (object f)
  else World (w_config w) (w_state w) (pending_approvals (object f)).

(** One invocation: the documents it leaves when it returns, or the
    exception that ends it with the documents it leaves then. *)
Definition apply_event (w : world) (e : event) : result (exn * world) world :=
  match e with
  | Scan env =>
      match run_scan (load w) env with
      | Ok (_, c) => Ok (persist c)
      | Err f => Err (exception f, left_on_disk w f)
      end
  | Resolve id decision approver t =>
      match process_approval_decision (load w) id decision approver t with
      | Ok (_, c) => Ok (persist c)
      | Err e => Err (e, w)
      end
  | Reconfigure cfg => Ok (World cfg (w_state w) (w_approvals w))
  end.

(** Successive invocations that all return. *)
Fixpoint run (w : world) (es : list event) : result (exn * world) world :=
  match es with
  | [] => Ok w
  | e :: es' => w' ← apply_event w e; run w' es'
  end.

Definition initial_world (cfg : app_config) : world :=
  World cfg create_initial_state no_approvals.

(** The states reached from a fresh deployment by invocations that all
    returned. *)
Definition reachable (w : world) : Prop :=
  ∃ cfg es, run (initial_world cfg) es = Ok w.

(** The documents that an invocation leaves, whether it returns or
    raises, and those left by successive invocations. *)
Definition leaves (w : world) (e : event) : world :=
  match apply_event w e with
  | Ok w' => w'
  | Err (_, w') => w'
  end.

Definition documents_after (w : world) (es : list event) : world :=
  foldl leaves w es.

(** The states that the documents of a deployment can be in: any
    invocation may have raised. *)
Definition attainable (w : world) : Prop :=
  ∃ cfg es, documents_after (initial_world cfg) es = w.

(** No reading of the clock repeats during the scan, so that its two
    durations are not zero. *)
Definition clock_advances (env : scan_env) : Prop :=
  scan_end env ≠ scan_start env ∧ end_time env ≠ start_time env.

Definition clock_advances_in (e : event) : Prop :=
  match e with
  | Scan env => clock_advances env
  | _ => True
  end.

(** ** The fixed tier sequence of the design document *)

Definition tier_sequence : list string :=
  ["24h"; "12h"; "6h"; "3h"; "2h"]%string.

Fixpoint following (seq : list string) (tier : string) : option string :=
  match seq with
  | a :: (b :: _) as rest =>
      if decide (a = tier) then Some b else following rest tier
  | _ => None
  end.

Definition next_tier (tier : string) : option string :=
  following tier_sequence tier.

(** ** Consistency of the state with the approval store

    The properties that every invocation maintains: an incremental scan
    finds the instant of its predecessor; every open request is backed by
    its device, which is frozen in the tier the request was raised from;
    no device has two open requests; every request proposes the tier that
    follows the one it was raised from. *)

Abbreviation pending_status := "PENDING_APPROVAL"%string.

Definition backed_by (st : scan_state) (r : approval_request) : Prop :=
  ∃ d, devices st !! device_name r = Some d ∧
       approval_status d = pending_status ∧
       current_tier d = req_current_tier r.

Definition proposes_next (r : approval_request) : Prop :=
  next_tier (req_current_tier r) = Some (proposed_tier r).

Record consistent (st : scan_state) (a : approvals) : Prop := Consistent {
  cons_last_scan :
    bootstrap_completed st = true → is_Some (last_scan st);
  cons_pending : ∀ id r, pending a !! id = Some r →
    approval_id r = id ∧ status r = "PENDING"%string ∧
    proposes_next r ∧ backed_by st r;
  cons_unique : ∀ id1 id2 r1 r2,
    pending a !! id1 = Some r1 → pending a !! id2 = Some r2 →
    device_name r1 = device_name r2 → id1 = id2;
  cons_history : ∀ r, r ∈ history a → proposes_next r
}.

Definition consistent_world (w : world) : Prop :=
  consistent (w_state w) (w_approvals w).

Abbreviation consistent_counter c :=
  (consistent (state c) (pending_approvals c)).

(** ** Notions used in the statements *)

(** The counter after a request for [tier] has been raised for [name]:
    the effect of the last branch of [check_and_handle_tier_advancement]. *)
Definition raised (c : counter) (env : scan_env) (name : string)
    (d : device_state) (tier : string) : counter :=
  store_device name
    (set_approval pending_status (Some (fresh_id env name)) d)
    (create_approval_request c env name (current_tier d) tier (count d)).2.

(** The scalar part of a counter, which the handling of a device never
    touches. *)
Definition same_settings (c c' : counter) : Prop :=
  config c' = config c ∧
  bootstrap_mode c' = bootstrap_mode c ∧
  last_scan (state c') = last_scan (state c) ∧
  bootstrap_completed (state c') = bootstrap_completed (state c) ∧
  history (pending_approvals c') = history (pending_approvals c).

(** The record of a device is pending approval with the count and tier
    of [d]. *)
Definition frozen_as (d : device_state) (o : option device_state) : Prop :=
  ∃ d', o = Some d' ∧ approval_status d' = pending_status ∧
        count d' = count d ∧ current_tier d' = current_tier d.

Definition positive_thresholds (requirements : tier_requirements) : Prop :=
  0 < req_24h_to_12h requirements ∧ 0 < req_12h_to_6h requirements ∧
  0 < req_6h_to_3h requirements ∧ 0 < req_3h_to_2h requirements.

Definition counts_zero (c : counter) : Prop :=
  ∀ n d, devices (state c) !! n = Some d → count d = 0.

(** The same counter with another value of the attribute
    [bootstrap_mode]. *)
Definition with_bootstrap_mode (b : bool) (c : counter) : counter :=
  Counter (config c) b (state c) (pending_approvals c).

(** [len(timestamps)] of the listing collected for a device. *)
Definition observed (env : scan_env) (name : string) : Z :=
  Z.of_nat (length (bulk_collect_file_timestamps env name)).

(** Number of timestamps at or after an instant. *)
Definition count_ge (cutoff : Z) (ts : list Z) : nat :=
  length (filter (λ t, cutoff ≤ t) ts).

(** [count] of a device, 0 for a device not yet recorded. *)
Definition recorded_count (o : option device_state) : Z :=
  from_option count 0 o.

(** The total and historical counters recorded for a device. *)
Definition files_of (o : option device_state) : option (Z * Z) :=
  (λ d, (dev_total_files d, dev_historical_files d)) <$> o.

(** A batch of decisions taken on the approval surface. *)
Definition resolutions (l : list (string * string * string * Z)) : list event :=
  (λ '(id, decision, approver, t), Resolve id decision approver t) <$> l.

(** ** Sample deployment

    One enabled device in tier 24h with production start at instant 100,
    advancement thresholds 250/500/1000/2000. *)

Definition demo_requirements : tier_requirements :=
  TierRequirements 250 500 1000 2000.

Definition demo_config (bootstrap : option bool) : app_config :=
  AppConfig [("dev1"%string, DeviceConfig true None (Some 100))]
    demo_requirements [] bootstrap None None.

(** The same configuration once the first scan has cleared the bootstrap
    key. *)
Definition demo_config_used (bootstrap : bool) : app_config :=
  AppConfig [("dev1"%string, DeviceConfig true None (Some 100))]
    demo_requirements [] None (Some bootstrap) None.

(** A scan started at [t] that finds [files] in every inbox and ends
    at [t + 2]. *)
Definition demo_env (t : Z) (files : list entry) : scan_env :=
  ScanEnv t (λ _, t) (λ _, true) (λ _, files) (λ _, "a1b2c3d4"%string)
    t (t + 1) (t + 2).

(** The same scan on a clock that stands still: every reading is [t]. *)
Definition stalled_env (t : Z) (files : list entry) : scan_env :=
  ScanEnv t (λ _, t) (λ _, true) (λ _, files) (λ _, "a1b2c3d4"%string)
    t t t.

(** [n] files, all stamped [t]. *)
Definition unit_files (n : nat) (t : Z) : list entry :=
  replicate n (t, "unit.dat"%string).

Definition sample_listing : list entry :=
  [(1, "a.dat"); (2, "b.dat"); (2, "c.dat"); (5, "d.dat")]%string.

(** The sample device in tier 24h, not pending, first seen at 1000. *)
Definition demo_device (cnt total historical : Z) : device_state :=
  DeviceState "24h" cnt 1000 "NONE" total historical 1000 100 None.

Definition demo_world (bootstrap : bool) (scanned_at : Z) (d : device_state)
    : world :=
  World (demo_config_used bootstrap)
    (ScanState (Some scanned_at) true {[ "dev1"%string := d ]})
    no_approvals.

(** Scenario A of the design document: the first scan, without bootstrap
    mode, finds 300 files stamped after the production start; the
    threshold 250 is reached and a request is raised. *)

Definition scenario_A_events : list event :=
  [Scan (demo_env 1000 (unit_files 300 200))].

Definition scenario_A_request : approval_request :=
  ApprovalRequest "a1b2c3d4" "dev1" "24h" "12h" 300 1000 "PENDING" 100
    None None.

Definition scenario_A_device : device_state :=
  DeviceState "24h" 300 1000 pending_status 300 0 1000 100
    (Some "a1b2c3d4"%string).

Definition scenario_A_world : world :=
  World (demo_config_used false)
    (ScanState (Some 1000) true {[ "dev1"%string := scenario_A_device ]})
    (Approvals {[ "a1b2c3d4"%string := scenario_A_request ]} []).

(** An interrupted first scan. The scan of scenario A runs on a clock
    that stands still: the request is raised and saved, the summary line
    of [scan_all_devices] raises, and [state.json] is never written. *)

Definition interrupted_world : world :=
  World (demo_config (Some false)) create_initial_state
    (Approvals {[ "a1b2c3d4"%string := scenario_A_request ]} []).

(** A later scan, which draws another identifier. *)
Definition second_env (t : Z) (files : list entry) : scan_env :=
  ScanEnv t (λ _, t) (λ _, true) (λ _, files) (λ _, "e5f6a7b8"%string)
    t (t + 1) (t + 2).

Definition second_request : approval_request :=
  ApprovalRequest "e5f6a7b8" "dev1" "24h" "12h" 300 2000 "PENDING" 100
    None None.

(** The documents after the scan that follows the interrupted one. *)
Definition twice_requested_world : world :=
  World (demo_config_used false)
    (ScanState (Some 2000) true
       {[ "dev1"%string :=
            DeviceState "24h" 300 2000 pending_status 300 0 2000 100
              (Some "e5f6a7b8"%string) ]})
    (Approvals {[ "a1b2c3d4"%string := scenario_A_request;
                  "e5f6a7b8"%string := second_request ]} []).

(** ** Directory enumeration and file filter

    [bulk_collect_file_timestamps] in full: the entries that
    [os.scandir] yields, the filter applied to each regular file, and the
    sort. The three string functions of the standard library that the
    filter calls are parameters. *)

(** A [DirEntry]: its name, [is_file()], and [stat()] as
    [(st_size, st_mtime)], [None] when [stat()] raises [OSError]. *)
Record dir_entry := DirEntry {
  de_name : string;
  de_is_file : bool;
  de_stat : option (Z * Z)
}.

(** What the enumeration of a BIU folder gives: the folder is missing,
    the enumeration raises, or it yields entries. *)
Inductive directory :=
| Missing
| Unreadable
| Listing (entries : list dir_entry).

(** The attributes set by [_prepare_file_filters]. *)
Record file_filter := FileFilter {
  include_extensions : gset string;
  exclude_patterns : list string;
  min_file_size : Z
}.

Section file_filter.
Variable suffix : string → string.
Variable lower : string → string.
Variable path_match : string → string → bool.

(** [_prepare_file_filters], from the [file_filtering] section of the
    configuration (absent keys already replaced by their defaults). *)
Definition prepare_file_filters
    (extensions patterns : list string) (min_size : Z) : file_filter :=
  FileFilter (list_to_set (lower <$> extensions)) patterns min_size.

Definition fast_file_filter
    (f : file_filter) (entry_name : string) (entry_size : Z) : bool :=
  if bool_decide (include_extensions f ≠ ∅)
     && bool_decide (lower (suffix entry_name) ∉ include_extensions f)
  then false
  else if existsb (path_match entry_name) (exclude_patterns f) then false
  else if bool_decide (0 < min_file_size f)
          && bool_decide (entry_size < min_file_size f)
  then false
  else true.

(** The loop over the entries: what is appended to [timestamps]. *)
Fixpoint collect_entries (f : file_filter) (entries : list dir_entry)
    : list entry :=
  match entries with
  | [] => []
  | e :: rest =>
      if de_is_file e then
        match de_stat e with
        | Some (size, mtime) =>
            if fast_file_filter f (de_name e) size
            then (mtime, de_name e) :: collect_entries f rest
            else collect_entries f rest
        | None => collect_entries f rest
        end
      else collect_entries f rest
  end.

Definition bulk_collect_directory (f : file_filter) (dir : directory)
    : list entry :=
  match dir with
  | Missing => []
  | Unreadable => []
  | Listing entries => sort_by_timestamp (collect_entries f entries)
  end.

(** The environment of a scan that finds the given folders, on a clock
    that advances between its readings. *)
Definition env_of_directories
    (f : file_filter) (dirs : string → directory)
    (t : Z) (clock : string → Z) (ids : string → string) : scan_env :=
  ScanEnv t clock
    (λ name, match dirs name with Missing => false | _ => true end)
    (λ name, match dirs name with
             | Listing entries => collect_entries f entries
             | _ => []
             end)
    ids t (t + 1) (t + 2).
End file_filter.

(** Scans of sample folders: every file passes the filter, the clock of
    the scan reads [t] and the identifier drawn is always the same. *)
Definition accept_all : file_filter := FileFilter ∅ [] 0.

Definition folder_env (dirs : string → directory) (t : Z) : scan_env :=
  env_of_directories (λ name, name) (λ ext, ext) String.eqb accept_all
    dirs t (λ _, t) (λ _, "a1b2c3d4"%string).

(** [n] regular files of 10 bytes, all stamped [t]. *)
Definition unit_entries (n : nat) (t : Z) : list dir_entry :=
  replicate n (DirEntry "unit.dat" true (Some (10, t))).

(** An entry is collected: a regular file whose [stat()] succeeds and
    which the filter accepts. *)
Definition accepted (suffix lower : string → string)
    (path_match : string → string → bool)
    (f : file_filter) (e : dir_entry) (mtime : Z) : Prop :=
  de_is_file e = true ∧
  ∃ size, de_stat e = Some (size, mtime) ∧
          fast_file_filter suffix lower path_match f (de_name e) size = true.

(** ** Further notions used in the statements *)

(** The threshold that the count of a device in [tier] is compared
    with, as a table. *)
Definition threshold (requirements : tier_requirements) (tier : string)
    : option Z :=
  if decide (tier = "24h"%string) then Some (req_24h_to_12h requirements)
  else if decide (tier = "12h"%string) then Some (req_12h_to_6h requirements)
  else if decide (tier = "6h"%string) then Some (req_6h_to_3h requirements)
  else if decide (tier = "3h"%string) then Some (req_3h_to_2h requirements)
  else None.

(** The record that [update_device_state] starts from: the stored one,
    or a freshly initialised one for a device seen for the first time. *)
Definition starts_from (c : counter) (env : scan_env) (name : string)
    (d0 : device_state) : Prop :=
  devices (state c) !! name = Some d0 ∨
  (devices (state c) !! name = None ∧
   initialize_device_state c env name = Ok d0).

(** The request that [create_approval_request] builds. *)
Definition request_for (c : counter) (env : scan_env) (name : string)
    (tier new_tier : string) (cnt : Z) : approval_request :=
  ApprovalRequest (fresh_id env name) name tier new_tier cnt (now env name)
    "PENDING" (get_device_production_start_date c env name) None None.

(** The back-references between the two documents: the device of an open
    request points back at it, and a device that carries a
    [pending_approval_id] is pending approval. *)
Definition linked (st : scan_state) (a : approvals) : Prop :=
  (∀ id r, pending a !! id = Some r →
     ∃ d, devices st !! device_name r = Some d ∧
          pending_approval_id d = Some id) ∧
  (∀ n d id, devices st !! n = Some d → pending_approval_id d = Some id →
     approval_status d = pending_status).

(** A device that carries a back-reference is pending approval. *)
Definition back_referenced (st : scan_state) : Prop :=
  ∀ n d id, devices st !! n = Some d → pending_approval_id d = Some id →
            approval_status d = pending_status.

(** The record that the handling of a device stores before the
    advancement check. *)
Definition refreshed (c : counter) (env : scan_env) (name : string)
    (fc : file_counts) (d0 : device_state) : device_state :=
  set_production_start (get_device_production_start_date c env name)
    (set_files (total_files fc) (historical_files fc) d0).

(** The record of a device has at least the count of [d], and its tier
    and deployment date. *)
Definition grown_from (d : device_state) (o : option device_state) : Prop :=
  ∃ d', o = Some d' ∧ count d ≤ count d' ∧
        current_tier d' = current_tier d ∧
        deployment_date d' = deployment_date d.

Abbreviation linked_counter c := (linked (state c) (pending_approvals c)).

(** ** The approval surface ([approval_interface.py])

    The two routes that resolve requests. A form field is [None] when
    absent; [user] is [session.get("user")]. Each route builds a fresh
    counter from the documents on disk; what it leaves on disk is the
    result. *)

Inductive flash := flash_success | flash_warning | flash_error.

(** Where a route sends the browser: to the login page, or back to the
    index with a flashed message. *)
Inductive response := to_login | to_index (f : flash).

(** [@require_auth]: without a user in the session the route is not
    entered. *)
Definition require_auth (user : option string) (w : world)
    (route : response * world) : response * world :=
  match user with
  | None => (to_login, w)
  | Some _ => route
  end.

(** Truth value of a form field, as [all([...])] tests it. *)
Definition filled (field : option string) : bool :=
  match field with
  | Some s => bool_decide (s ≠ ""%string)
  | None => false
  end.

Definition is_decision (decision : string) : bool :=
  bool_decide (decision ∈ ["APPROVE"; "REJECT"]%string).

(** [f"{approver} ({current_user})"] *)
Definition full_approver (approver current_user : string) : string :=
  approver +:+ " (" +:+ current_user +:+ ")".

(** An exception of the resolution is caught by the route and flashed. *)
Definition process_approval
    (w : world) (approval_id decision approver user : option string) (t : Z)
    : response * world :=
  require_auth user w
    match approval_id, decision, approver with
    | Some id, Some dec, Some ap =>
        if negb (filled approval_id && filled decision && filled approver)
        then (to_index flash_error, w)
        else if negb (is_decision dec) then (to_index flash_error, w)
        else
          match process_approval_decision (load w) id dec
                  (full_approver ap (default "Unknown"%string user)) t with
          | Ok (true, c) => (to_index flash_success, persist c)
          | Ok (false, _) => (to_index flash_error, w)
          | Err _ => (to_index flash_error, w)
          end
    | _, _, _ => (to_index flash_error, w)
    end.

(** The loop of [bulk_process_approval]: one counter for all the ids, an
    exception on one id being logged and the loop going on. [t id] is the
    clock while [id] is handled. *)
Fixpoint bulk_loop (approval_ids : list string) (decision approver : string)
    (t : string → Z) (success_count : nat) (c : counter) : nat * counter :=
  match approval_ids with
  | [] => (success_count, c)
  | id :: rest =>
      match process_approval_decision c id decision approver (t id) with
      | Ok (true, c') => bulk_loop rest decision approver t (S success_count) c'
      | Ok (false, c') => bulk_loop rest decision approver t success_count c'
      | Err _ => bulk_loop rest decision approver t success_count c
      end
  end.

Definition bulk_process_approval
    (w : world) (approval_ids : list string)
    (decision approver user : option string) (t : string → Z)
    : response * world :=
  require_auth user w
    match decision, approver with
    | Some dec, Some ap =>
        if negb (bool_decide (approval_ids ≠ [])
                 && filled decision && filled approver)
        then (to_index flash_error, w)
        else if negb (is_decision dec) then (to_index flash_error, w)
        else
          let '(success_count, c) :=
            bulk_loop approval_ids dec
              (full_approver ap (default "Unknown"%string user)) t 0%nat
              (load w) in
          let total_count := length approval_ids in
          if bool_decide (success_count = total_count)
          then (to_index flash_success, persist c)
          else if bool_decide (0 < success_count)%nat
          then (to_index flash_warning, persist c)
          else (to_index flash_error, persist c)
    | _, _ => (to_index flash_error, w)
    end.

(** The decisions of a batch as successive invocations. *)
Definition bulk_events (approval_ids : list string) (decision approver : string)
    (t : string → Z) : list event :=
  (λ id, Resolve id decision approver (t id)) <$> approval_ids.

(** A request that a resolution can move to the history: it is pending
    and its device is recorded. *)
Definition resolvable (st : scan_state) (a : approvals) (id : string)
    (r : approval_request) : Prop :=
  pending a !! id = Some r ∧ is_Some (devices st !! device_name r).

(** The entry that the history receives for a request [r] decided at
    [t], field by field. *)
Definition history_entry (r : approval_request) (decision name user : string)
    (t : Z) : approval_request :=
  ApprovalRequest (approval_id r) (device_name r) (req_current_tier r)
    (proposed_tier r) (unit_count r) (request_date r) decision
    (req_production_start_date r) (Some t)
    (Some (name +:+ " (" +:+ user +:+ ")")).

(** ** The tier histogram of the report

    [_calculate_tier_summary]: the five tiers start at 0 and every
    recorded device adds one to the entry of its tier. (The Python loop
    follows the insertion order of the dictionary, [map_fold] the order
    of the keys; the additions commute.) *)

Definition initial_tier_summary : gmap string Z :=
  {[ "24h" := 0; "12h" := 0; "6h" := 0; "3h" := 0; "2h" := 0 ]}%string.

Definition count_tier (d : device_state) (tier_summary : gmap string Z)
    : gmap string Z :=
  <[current_tier d := default 0 (tier_summary !! current_tier d) + 1]>
    tier_summary.

Definition calculate_tier_summary (c : counter) : gmap string Z :=
  map_fold (λ _ d tier_summary, count_tier d tier_summary)
    initial_tier_summary (devices (state c)).

(** Sum of the entries of a histogram. *)
Definition summary_total (tier_summary : gmap string Z) : Z :=
  map_fold (λ _ v acc, v + acc) 0 tier_summary.

(** The devices recorded in a tier. *)
Definition devices_in_tier (c : counter) (tier : string)
    : gmap string device_state :=
  filter (λ kv, current_tier kv.2 = tier) (devices (state c)).

(** ** The progress shown on the dashboard

    [calculate_device_progress], its integer fields: the tier and the
    requirement shown as next, and the units remaining. The percentage
    and the colour, computed in floating point, are left out. *)

Record device_progress := DeviceProgress {
  shown_next_tier : option string;
  shown_next_requirement : option Z;
  shown_remaining : Z
}.

Definition tier_progression (requirements : tier_requirements) (tier : string)
    : option string * option Z :=
  if decide (tier = "24h"%string)
  then (Some "12h"%string, Some (req_24h_to_12h requirements))
  else if decide (tier = "12h"%string)
  then (Some "6h"%string, Some (req_12h_to_6h requirements))
  else if decide (tier = "6h"%string)
  then (Some "3h"%string, Some (req_6h_to_3h requirements))
  else if decide (tier = "3h"%string)
  then (Some "2h"%string, Some (req_3h_to_2h requirements))
  else (None, None).

Definition calculate_device_progress
    (d : device_state) (requirements : tier_requirements) : device_progress :=
  let '(next, next_requirement) :=
    tier_progression requirements (current_tier d) in
  match next, next_requirement with
  | Some _, Some r =>
      if bool_decide (r ≠ 0)
      then DeviceProgress next next_requirement (Z.max 0 (r - count d))
      else DeviceProgress next next_requirement 0
  | _, _ => DeviceProgress next next_requirement 0
  end.

(** * Properties *)

(** ** The ways in which a scan ends *)

Section endings.
Implicit Types (c : counter) (env : scan_env) (f : failure).

(** A scan that returns: the loop has run through, and the scan is
    finished unless no device was handled. *)
Lemma run_scan_returned c env r c' :
  run_scan c env = Ok (r, c') →
  ∃ results c1,
    scan_devices_loop (enabled_devices (config c)) env [] c
    = Ok (results, c1) ∧
    scan_end env ≠ scan_start env ∧
    (r, c') = match results with
              | [] => (None, c1)
              | _ =>
                  let c2 :=
                    set_last_scan (start_time env) (complete_bootstrap c1) in
                  (Some (generate_report c2), c2)
              end.
Proof.
  unfold run_scan, scan_all_devices, files_per_second.
  destruct (scan_devices_loop _ _ _ _) as [[results c1]|]; simpl; [|done].
  destruct (decide (scan_end env = scan_start env)); simpl; [done|].
  intros Hrun. exists results, c1. split_and!; [done..|].
  destruct results; [by injection Hrun as <- <-|].
  destruct (decide (end_time env = start_time env)); simpl in Hrun; [done|].
  by injection Hrun as <- <-.
Qed.

(** The scan returns when the clock advances and the loop runs through. *)
Lemma run_scan_returns c env results c1 :
  clock_advances env →
  scan_devices_loop (enabled_devices (config c)) env [] c = Ok (results, c1) →
  run_scan c env
  = Ok match results with
       | [] => (None, c1)
       | _ =>
           let c2 := set_last_scan (start_time env) (complete_bootstrap c1) in
           (Some (generate_report c2), c2)
       end.
Proof.
  intros [Hscan Hend] Hloop.
  unfold run_scan, scan_all_devices, files_per_second. rewrite Hloop. simpl.
  destruct (decide (scan_end env = scan_start env)); [done|]. simpl.
  destruct results; [done|].
  by destruct (decide (end_time env = start_time env)).
Qed.

Lemma scan_device_optimized_raises c env name dc e :
  scan_device_optimized c env name dc = Err e → e = TypeError.
Proof.
  unfold scan_device_optimized.
  destruct (negb (enabled dc)); [done|].
  destruct (negb (biu_exists env name)); [done|].
  destruct (bulk_collect_file_timestamps env name); [done|].
  destruct (is_pending_approval _); [done|].
  destruct (negb (bootstrap_completed (state c))).
  - by destruct (bootstrap_mode c).
  - destruct (last_scan (state c)); [done|]. by intros [= <-].
Qed.

Lemma update_device_state_raises c env name fc e :
  update_device_state c env name fc = Err e → e = KeyError.
Proof.
  unfold update_device_state, initialize_device_state.
  destruct (devices (state c) !! name); simpl.
  - by destruct (bool_decide _).
  - destruct (lookup_device _ _); simpl; [done|]. by intros [= <-].
Qed.

(** A loop that an exception stops has run through the devices before
    the one that raised; nothing has been saved but the approvals. *)
Lemma scan_devices_loop_raised names env acc c f :
  scan_devices_loop names env acc c = Err f →
  state_saved f = false ∧ exception f ≠ ZeroDivisionError ∧
  ∃ names' results,
    names' `prefix_of` names ∧
    scan_devices_loop names' env acc c = Ok (results, object f).
Proof.
  revert acc c. induction names as [|name names IH]; intros acc c; simpl;
    [done|].
  assert (∀ e, e ≠ ZeroDivisionError →
            state_saved (Failure e c false) = false ∧
            exception (Failure e c false) ≠ ZeroDivisionError ∧
            ∃ names' results,
              names' `prefix_of` name :: names ∧
              scan_devices_loop names' env acc c
              = Ok (results, object (Failure e c false))) as Hhere.
  { intros e He. split_and!; [done..|].
    exists [], acc. split; [apply prefix_nil|done]. }
  destruct (lookup_device _ _) as [dc|] eqn:Hdc;
    [|intros [= <-]; by apply Hhere].
  destruct (scan_device_optimized c env name dc) as [fc|e] eqn:Hscan; simpl.
  2:{ intros [= <-]. apply Hhere.
      by rewrite (scan_device_optimized_raises _ _ _ _ _ Hscan). }
  destruct (update_device_state c env name fc) as [c1|e] eqn:Hup; simpl.
  2:{ intros [= <-]. apply Hhere.
      by rewrite (update_device_state_raises _ _ _ _ _ Hup). }
  intros (Hsaved & Hexn & names' & results & Hpre & Hloop)%IH.
  split_and!; [done..|]. exists (name :: names'), results.
  split; [by apply prefix_cons|]. simpl. rewrite Hdc, Hscan. simpl.
  by rewrite Hup.
Qed.

(** The two ways in which a scan raises: in [scan_all_devices], with
    nothing saved but the approvals, or on the performance line of
    [run_scan], after the state has been saved. *)
Lemma run_scan_raised c env f :
  run_scan c env = Err f →
  (state_saved f = false ∧
   ∃ names' results,
     names' `prefix_of` enabled_devices (config c) ∧
     scan_devices_loop names' env [] c = Ok (results, object f) ∧
     (exception f = ZeroDivisionError →
        names' = enabled_devices (config c) ∧
        scan_end env = scan_start env)) ∨
  (state_saved f = true ∧ exception f = ZeroDivisionError ∧
   scan_end env ≠ scan_start env ∧ end_time env = start_time env ∧
   ∃ results c1,
     scan_devices_loop (enabled_devices (config c)) env [] c
     = Ok (results, c1) ∧
     results ≠ [] ∧
     object f = set_last_scan (start_time env) (complete_bootstrap c1)).
Proof.
  unfold run_scan, scan_all_devices, files_per_second.
  destruct (scan_devices_loop _ _ _ _) as [[results c1]|f0] eqn:Hloop; simpl.
  2:{ intros [= <-]. left.
      destruct (scan_devices_loop_raised _ _ _ _ _ Hloop)
        as (Hsaved & Hexn & names' & results & Hpre & Hloop').
      split; [done|]. by exists names', results. }
  destruct (decide (scan_end env = scan_start env)) as [Hstall|Hgo]; simpl.
  { intros [= <-]. left. split; [done|].
    by exists (enabled_devices (config c)), results. }
  destruct results as [|res0 results]; [done|].
  destruct (decide (end_time env = start_time env)) as [Hstall|]; simpl;
    [|done].
  intros [= <-]. right. split_and!; [done..|].
  by exists (res0 :: results), c1.
Qed.
End endings.

(** ** Binary search: correctness *)

Section bisect.
Implicit Types (a : list Z) (x : Z) (lo hi : nat).

Lemma sorted_lookup_le a i j u v :
  StronglySorted Z.le a → (i ≤ j)%nat →
  a !! i = Some u → a !! j = Some v → u ≤ v.
Proof.
  intros Hs. revert i j. induction Hs as [|y l Hs IH Hall]; intros i j Hij Hi Hj.
  - by rewrite lookup_nil in Hi.
  - destruct i as [|i], j as [|j]; simpl in *; simplify_eq; try lia.
    + rewrite Forall_forall in Hall. apply Hall.
      by eapply list_elem_of_lookup_2.
    + eapply IH; [|done..]. lia.
Qed.

Lemma bisect_loop_separates fuel a x lo hi :
  StronglySorted Z.le a →
  (lo ≤ hi ≤ length a)%nat → (hi - lo ≤ fuel)%nat →
  (∀ i v, (i < lo)%nat → a !! i = Some v → v < x) →
  (∀ i v, (hi ≤ i)%nat → a !! i = Some v → x ≤ v) →
  (bisect_loop fuel a x lo hi ≤ length a)%nat ∧
  separates a x (bisect_loop fuel a x lo hi).
Proof.
  intros Hs. revert lo hi.
  induction fuel as [|fuel IH]; intros lo hi Hb Hf Hlo Hhi; cbn [bisect_loop].
  - assert (lo = hi) as -> by lia. split; [lia|]. by split.
  - case_decide as Hlt; last first.
    { assert (lo = hi) as -> by lia. split; [lia|]. by split. }
    set (mid := ((lo + hi) / 2)%nat).
    assert (lo ≤ mid < hi)%nat as Hmid.
    { subst mid. split.
      - apply Nat.div_le_lower_bound; lia.
      - apply Nat.Div0.div_lt_upper_bound; lia. }
    destruct (a !! mid) as [v|] eqn:Hv; last first.
    { apply lookup_ge_None in Hv. lia. }
    destruct (decide (v < x)) as [Hvx|Hvx].
    + apply IH; [lia|lia| |done].
      intros i u Hi Hu.
      assert (u ≤ v); [|lia].
      eapply (sorted_lookup_le a i mid); [done|lia|done..].
    + apply IH; [lia|lia|done|].
      intros i u Hi Hu.
      assert (v ≤ u); [|lia].
      eapply (sorted_lookup_le a mid i); [done|lia|done..].
Qed.

Lemma bisect_left_separates a x :
  Sorted Z.le a →
  (bisect_left a x ≤ length a)%nat ∧ separates a x (bisect_left a x).
Proof.
  intros Hs. apply bisect_loop_separates.
  - apply Sorted.Sorted_StronglySorted; [intros u v w; apply Z.le_trans | done].
  - lia.
  - lia.
  - intros; lia.
  - intros i v Hi Hv. apply lookup_lt_Some in Hv. lia.
Qed.

Lemma filter_keep_all (P : Z → Prop) `{∀ t, Decision (P t)} a :
  (∀ v, v ∈ a → P v) → filter P a = a.
Proof.
  induction a as [|y a IH]; intros Hall; [done|].
  rewrite filter_cons_True by (apply Hall; left).
  f_equal. apply IH. intros v Hv. apply Hall. by right.
Qed.

Lemma filter_keep_none (P : Z → Prop) `{∀ t, Decision (P t)} a :
  (∀ v, v ∈ a → ¬ P v) → filter P a = [].
Proof.
  induction a as [|y a IH]; intros Hall; [done|].
  rewrite filter_cons_False by (apply Hall; left).
  apply IH. intros v Hv. apply Hall. by right.
Qed.

Lemma separates_count_lt a x r :
  (r ≤ length a)%nat → separates a x r → count_lt x a = r.
Proof.
  intros Hr [Hbelow Habove]. unfold count_lt.
  rewrite <- (take_drop r a) at 1. rewrite filter_app, length_app.
  rewrite filter_keep_all, filter_keep_none.
  - rewrite length_take. simpl. lia.
  - intros v [i Hi]%list_elem_of_lookup_1. rewrite lookup_drop in Hi.
    apply Habove in Hi; lia.
  - intros v [i Hi]%list_elem_of_lookup_1.
    apply lookup_take_Some in Hi as [Hi ?]. by eapply Hbelow.
Qed.

Lemma bisect_left_count_lt a x :
  Sorted Z.le a → bisect_left a x = count_lt x a.
Proof.
  intros Hs. destruct (bisect_left_separates a x Hs) as [Hlen Hsep].
  symmetry. by apply separates_count_lt.
Qed.
End bisect.

(** ** The cutoff counter on ascending sequences *)

Section cutoff_counter.
Implicit Types (timestamps : list entry) (cutoff : Z).

Lemma ascending_strongly timestamps :
  ascending timestamps → StronglySorted Z.le (timestamps.*1).
Proof.
  intros Hs. apply Sorted.Sorted_StronglySorted; [|done].
  intros u v w. apply Z.le_trans.
Qed.

Lemma count_lt_le_length cutoff (ts : list Z) :
  (count_lt cutoff ts ≤ length ts)%nat.
Proof. apply length_filter. Qed.

Lemma binary_search_file_count_eq timestamps cutoff :
  ascending timestamps →
  binary_search_file_count timestamps cutoff =
    FileCounts (Z.of_nat (length timestamps))
      (Z.of_nat (count_lt cutoff (timestamps.*1)))
      (Z.of_nat (length timestamps)
       - Z.of_nat (count_lt cutoff (timestamps.*1))).
Proof.
  intros Hs. destruct timestamps as [|e l]; [done|].
  unfold binary_search_file_count.
  by rewrite (bisect_left_count_lt _ _ Hs).
Qed.

Lemma count_lt_separates timestamps cutoff :
  ascending timestamps →
  separates (timestamps.*1) cutoff (count_lt cutoff (timestamps.*1)).
Proof.
  intros Hs. rewrite <- (bisect_left_count_lt _ _ Hs).
  by apply bisect_left_separates.
Qed.

Lemma count_lt_none cutoff (ts : list Z) :
  (∀ t, t ∈ ts → cutoff ≤ t) → count_lt cutoff ts = 0%nat.
Proof.
  intros Hall. unfold count_lt. rewrite filter_keep_none; [done|].
  intros v Hv. apply Hall in Hv. lia.
Qed.

Lemma count_lt_all cutoff (ts : list Z) :
  (∀ t, t ∈ ts → t < cutoff) → count_lt cutoff ts = length ts.
Proof.
  intros Hall. unfold count_lt. by rewrite filter_keep_all.
Qed.

Lemma ascending_head_least timestamps t0 t :
  ascending timestamps → head (timestamps.*1) = Some t0 →
  t ∈ timestamps.*1 → t0 ≤ t.
Proof.
  intros Hs%ascending_strongly Hh [i Hi]%list_elem_of_lookup_1.
  rewrite head_lookup in Hh.
  eapply sorted_lookup_le; [done| |done..]. lia.
Qed.

Lemma ascending_last_greatest timestamps tn t :
  ascending timestamps → last (timestamps.*1) = Some tn →
  t ∈ timestamps.*1 → t ≤ tn.
Proof.
  intros Hs%ascending_strongly Hl [i Hi]%list_elem_of_lookup_1.
  rewrite last_lookup in Hl.
  eapply sorted_lookup_le; [done| |done..].
  apply lookup_lt_Some in Hi. lia.
Qed.

Lemma equal_timestamp_position timestamps cutoff i name :
  ascending timestamps →
  timestamps !! i = Some (cutoff, name) →
  classified_new (binary_search_file_count timestamps cutoff) i.
Proof.
  intros Hs Hi. rewrite binary_search_file_count_eq by done.
  unfold classified_new; simpl.
  destruct (count_lt_separates timestamps cutoff Hs) as [Hbelow _].
  split.
  - destruct (decide (i < count_lt cutoff (timestamps.*1))%nat) as [Hlt|]; [|lia].
    specialize (Hbelow i cutoff Hlt).
    rewrite list_lookup_fmap, Hi in Hbelow. specialize (Hbelow eq_refl). lia.
  - apply lookup_lt_Some in Hi. lia.
Qed.
End cutoff_counter.

(** C3. On an ascending sequence the cutoff counter returns the length as
    total, historical + new = total, and historical = the number of
    timestamps strictly below the cutoff; an empty sequence gives three
    zeros, a cutoff at or before the earliest timestamp gives
    historical = 0, and a cutoff after the latest gives new = 0. *)
Theorem cutoff_counter_counts (timestamps : list entry) (cutoff : Z) :
  ascending timestamps →
  let fc := binary_search_file_count timestamps cutoff in
  total_files fc = Z.of_nat (length timestamps) ∧
  historical_files fc + new_files fc = total_files fc ∧
  historical_files fc = Z.of_nat (count_lt cutoff (timestamps.*1)) ∧
  (timestamps = [] →
     total_files fc = 0 ∧ historical_files fc = 0 ∧ new_files fc = 0) ∧
  (∀ earliest, head (timestamps.*1) = Some earliest → cutoff ≤ earliest →
     historical_files fc = 0 ∧ new_files fc = total_files fc) ∧
  (∀ latest, last (timestamps.*1) = Some latest → latest < cutoff →
     new_files fc = 0 ∧ historical_files fc = total_files fc).
Proof.
  intros Hs fc. subst fc. rewrite binary_search_file_count_eq by done. simpl.
  split_and!; try lia.
  - by intros ->.
  - intros earliest Hh Hle. rewrite count_lt_none; [lia|].
    intros t Ht. pose proof (ascending_head_least _ _ _ Hs Hh Ht). lia.
  - intros latest Hl Hlt. rewrite count_lt_all.
    + rewrite length_fmap. lia.
    + intros t Ht. pose proof (ascending_last_greatest _ _ _ Hs Hl Ht). lia.
Qed.

(** ** The collected listing is a sorted rearrangement of the directory *)

Section collection.
Implicit Types (e : entry) (l : list entry).

Lemma insert_entry_perm e l : insert_entry e l ≡ₚ e :: l.
Proof.
  induction l as [|e' l IH]; simpl; [done|].
  case_decide; [|done].
  rewrite IH. apply Permutation_swap.
Qed.

Lemma sort_by_timestamp_perm l : sort_by_timestamp l ≡ₚ l.
Proof.
  induction l as [|e l IH]; simpl; [done|].
  by rewrite insert_entry_perm, IH.
Qed.

Lemma insert_entry_sorted e l :
  StronglySorted Z.le (l.*1) → StronglySorted Z.le ((insert_entry e l).*1).
Proof.
  induction l as [|e' l IH]; simpl; intros Hs.
  - repeat constructor.
  - apply StronglySorted_cons in Hs as [Hall Hs].
    case_decide as Hlt; simpl; apply StronglySorted_cons.
    + split; [|by apply IH].
      rewrite insert_entry_perm. simpl. constructor; [lia|done].
    + split.
      * constructor; [lia|].
        eapply Forall_impl; [done|]. simpl. intros; lia.
      * apply StronglySorted_cons. by split.
Qed.

Lemma sort_by_timestamp_ascending l : ascending (sort_by_timestamp l).
Proof.
  apply StronglySorted_Sorted.
  induction l as [|e l IH]; simpl; [constructor|].
  by apply insert_entry_sorted.
Qed.

Lemma bulk_collect_ascending env name :
  ascending (bulk_collect_file_timestamps env name).
Proof.
  unfold bulk_collect_file_timestamps.
  destruct (biu_exists env name); [apply sort_by_timestamp_ascending|].
  constructor.
Qed.
End collection.

(** ** The per-device scan, case by case *)

Section device_scan.
Implicit Types (c : counter) (env : scan_env) (name : string)
  (dc : device_config).

(** Outside the pending and bootstrap cases the scan is the cutoff
    counter applied to the collected listing. *)
Lemma scan_first_run c env name dc :
  enabled dc = true →
  is_pending_approval (devices (state c) !! name) = false →
  bootstrap_completed (state c) = false →
  bootstrap_mode c = false →
  scan_device_optimized c env name dc =
    Ok (binary_search_file_count (bulk_collect_file_timestamps env name)
          (get_device_production_start_date c env name)).
Proof.
  intros He Hp Hb Hm. unfold scan_device_optimized.
  rewrite He, Hp, Hb, Hm. simpl.
  unfold bulk_collect_file_timestamps.
  destruct (biu_exists env name); simpl; [|done].
  by destruct (sort_by_timestamp (dir_entries env name)).
Qed.

Lemma scan_incremental c env name dc cutoff :
  enabled dc = true →
  is_pending_approval (devices (state c) !! name) = false →
  bootstrap_completed (state c) = true →
  last_scan (state c) = Some cutoff →
  scan_device_optimized c env name dc =
    Ok (binary_search_file_count (bulk_collect_file_timestamps env name)
          cutoff).
Proof.
  intros He Hp Hb Hl. unfold scan_device_optimized.
  rewrite He, Hp, Hb, Hl. simpl.
  unfold bulk_collect_file_timestamps.
  destruct (biu_exists env name); simpl; [|done].
  by destruct (sort_by_timestamp (dir_entries env name)).
Qed.
End device_scan.

(** C1, as the code has it. On an ascending sequence the historical count
    is the number of timestamps strictly below the cutoff, so a file whose
    timestamp equals the cutoff lies in the new part; on the first scan
    without bootstrap mode the cutoff is the production start date, and a
    file stamped exactly then is classified new. *)
Theorem equal_timestamp_is_new
    (timestamps : list entry) (cutoff : Z)
    (c : counter) (env : scan_env) (name : string) (dc : device_config) :
  ascending timestamps →
  enabled dc = true →
  is_pending_approval (devices (state c) !! name) = false →
  bootstrap_completed (state c) = false →
  bootstrap_mode c = false →
  (let fc := binary_search_file_count timestamps cutoff in
   historical_files fc = Z.of_nat (count_lt cutoff (timestamps.*1)) ∧
   ∀ i file, timestamps !! i = Some (cutoff, file) → classified_new fc i) ∧
  (∃ fc, scan_device_optimized c env name dc = Ok fc ∧
     ∀ i file,
       bulk_collect_file_timestamps env name !! i
         = Some (get_device_production_start_date c env name, file) →
       classified_new fc i).
Proof.
  intros Hs He Hp Hb Hm. split.
  - split.
    + by rewrite binary_search_file_count_eq.
    + intros i file Hi. by eapply equal_timestamp_position.
  - eexists. split; [by apply scan_first_run|].
    intros i file Hi. eapply equal_timestamp_position; [|done].
    apply bulk_collect_ascending.
Qed.

Lemma equal_timestamp_is_new_witness :
  classified_new (binary_search_file_count sample_listing 2) 1 ∧
  ∃ fc, scan_device_optimized (load (initial_world (demo_config (Some false))))
          (demo_env 1000 (unit_files 3 100)) "dev1"
          (DeviceConfig true None (Some 100)) = Ok fc ∧
        classified_new fc 0.
Proof.
  destruct (equal_timestamp_is_new sample_listing 2
              (load (initial_world (demo_config (Some false))))
              (demo_env 1000 (unit_files 3 100)) "dev1"
              (DeviceConfig true None (Some 100)))
    as [[_ Htie] (fc & Hscan & Hfirst)].
  - unfold ascending; simpl. repeat constructor; lia.
  - reflexivity.
  - reflexivity.
  - reflexivity.
  - reflexivity.
  - split.
    + apply (Htie 1%nat "b.dat"%string). reflexivity.
    + exists fc. split; [exact Hscan|].
      apply (Hfirst 0%nat "unit.dat"%string). reflexivity.
Defined.

(** C1 as stated fails: with one file stamped exactly at the cutoff the
    counter reports 0 historical files although one timestamp is at or
    before the cutoff, and the first scan of a device classifies a file
    stamped at the production start date as new. *)
Lemma equal_timestamp_historical_counterexample :
  ascending (unit_files 1 100) ∧
  historical_files (binary_search_file_count (unit_files 1 100) 100) = 0 ∧
  Z.of_nat (count_le 100 ((unit_files 1 100).*1)) = 1 ∧
  get_device_production_start_date
    (load (initial_world (demo_config (Some false))))
    (demo_env 1000 (unit_files 1 100)) "dev1" = 100 ∧
  scan_device_optimized (load (initial_world (demo_config (Some false))))
    (demo_env 1000 (unit_files 1 100)) "dev1"
    (DeviceConfig true None (Some 100)) = Ok (FileCounts 1 0 1).
Proof.
  split_and!; try reflexivity.
  unfold ascending; simpl. repeat constructor.
Qed.

Lemma cutoff_counter_counts_witness :
  ascending sample_listing ∧
  historical_files (binary_search_file_count sample_listing 2) = 1 ∧
  historical_files (binary_search_file_count sample_listing 2)
  + new_files (binary_search_file_count sample_listing 2) = 4.
Proof.
  assert (ascending sample_listing) as Hs.
  { unfold ascending; simpl. repeat constructor; lia. }
  split; [exact Hs|].
  destruct (cutoff_counter_counts sample_listing 2 Hs)
    as (Htotal & Hsum & Hhist & _).
  split.
  - rewrite Hhist. reflexivity.
  - rewrite Hsum, Htotal. reflexivity.
Defined.

(** ** The tier state machine *)

Section tiers.
Implicit Types (tier : string) (cnt : Z).

Lemma eligible_tier_next requirements tier cnt tier' :
  eligible_tier requirements tier cnt = Some tier' →
  next_tier tier = Some tier' ∧ tier' ≠ tier.
Proof.
  unfold eligible_tier.
  repeat (case_bool_decide; simpl; try case_bool_decide; simpl);
    intros; simplify_eq; done.
Qed.

Lemma next_tier_differs tier tier' : next_tier tier = Some tier' → tier' ≠ tier.
Proof.
  unfold next_tier, tier_sequence. simpl.
  repeat (case_decide; [intros; simplify_eq; done|]). done.
Qed.

Lemma next_tier_terminal : next_tier "2h" = None.
Proof. reflexivity. Qed.

Lemma eligible_tier_below requirements tier cnt :
  cnt < req_24h_to_12h requirements → cnt < req_12h_to_6h requirements →
  cnt < req_6h_to_3h requirements → cnt < req_3h_to_2h requirements →
  eligible_tier requirements tier cnt = None.
Proof.
  intros. unfold eligible_tier.
  rewrite !(bool_decide_eq_false_2 (_ ≤ cnt)) by lia.
  by rewrite !andb_false_r.
Qed.
End tiers.

(** ** Consistency is maintained by every operation *)

Section consistency.
Implicit Types (c : counter) (env : scan_env) (name : string)
  (d : device_state) (fc : file_counts).

Lemma check_and_handle_cases c env name d :
  check_and_handle_tier_advancement c env name d = c ∨
  ∃ tier,
    eligible_tier (cfg_tier_requirements (config c))
      (current_tier d) (count d) = Some tier ∧
    check_and_handle_tier_advancement c env name d = raised c env name d tier.
Proof.
  unfold check_and_handle_tier_advancement.
  case_bool_decide; [by left|].
  destruct (eligible_tier _ _ _) as [tier|] eqn:Hel; [|by left].
  case_bool_decide; [|by left].
  right. by exists tier.
Qed.

Lemma store_device_consistent c name d' :
  consistent_counter c →
  (∀ d, devices (state c) !! name = Some d →
        approval_status d = pending_status →
        approval_status d' = pending_status ∧
        current_tier d' = current_tier d) →
  consistent_counter (store_device name d' c).
Proof.
  intros [Hls Hp Hu Hh] Hd. split; simpl; [done| |done|done].
  intros id r Hr. destruct (Hp id r Hr) as (? & ? & ? & d & Hdev & Hst & Ht).
  split_and!; [done..|]. unfold backed_by; simpl.
  destruct (decide (name = device_name r)) as [Heq|Hne].
  - rewrite <- Heq in *. rewrite lookup_insert_eq.
    destruct (Hd d Hdev Hst) as [? ?].
    exists d'. split_and!; [done|done|congruence].
  - rewrite lookup_insert_ne by done. by exists d.
Qed.

Lemma raised_consistent c env name d tier :
  consistent_counter c →
  devices (state c) !! name = Some d →
  approval_status d ≠ pending_status →
  next_tier (current_tier d) = Some tier →
  consistent_counter (raised c env name d tier).
Proof.
  intros [Hls Hp Hu Hh] Hdev Hnp Hnext.
  assert (∀ id r, pending (pending_approvals c) !! id = Some r →
                  device_name r ≠ name) as Hother.
  { intros id r Hr <-. destruct (Hp id r Hr) as (_ & _ & _ & d' & Hd' & ? & _).
    congruence. }
  split; simpl; [done| | |done].
  - intros id r. rewrite lookup_insert. case_decide as Hid.
    + intros [= <-]. simpl. split_and!; [done..|].
      unfold backed_by; simpl. rewrite lookup_insert_eq. by eexists.
    + intros Hr. destruct (Hp id r Hr) as (? & ? & ? & d' & Hd' & ? & ?).
      split_and!; [done..|]. unfold backed_by; simpl.
      rewrite lookup_insert_ne by (symmetry; by eapply Hother).
      by exists d'.
  - intros id1 id2 r1 r2. rewrite !lookup_insert.
    repeat case_decide; intros H1 H2 Heq; simplify_eq/=; [done| | |by eapply Hu].
    + by apply Hother in H2.
    + by apply Hother in H1.
Qed.

Lemma check_and_handle_consistent c env name d :
  consistent_counter c →
  devices (state c) !! name = Some d →
  approval_status d ≠ pending_status →
  consistent_counter (check_and_handle_tier_advancement c env name d).
Proof.
  intros Hc Hdev Hnp.
  destruct (check_and_handle_cases c env name d) as [->|(tier & Hel & ->)];
    [done|].
  apply raised_consistent; [done..|].
  by apply eligible_tier_next in Hel as [? _].
Qed.

Lemma update_device_state_consistent c env name fc c' :
  consistent_counter c →
  update_device_state c env name fc = Ok c' →
  consistent_counter c'.
Proof.
  intros Hc. unfold update_device_state.
  destruct (devices (state c) !! name) as [d|] eqn:Hdev; simpl.
  - case_bool_decide as Hst; intros [= <-].
    + apply store_device_consistent; [done|].
      intros d' Hd' _. by simplify_eq.
    + apply check_and_handle_consistent.
      * apply store_device_consistent; [done|].
        intros d' Hd' Hpd. by simplify_eq.
      * simpl. by rewrite lookup_insert_eq.
      * done.
  - unfold initialize_device_state.
    destruct (lookup_device _ _) as [dc|]; simpl; [|done].
    intros [= <-].
    apply check_and_handle_consistent.
    + apply store_device_consistent; [done|]. intros d'. by rewrite Hdev.
    + simpl. by rewrite lookup_insert_eq.
    + done.
Qed.

Lemma scan_devices_loop_consistent names env acc c results c' :
  consistent_counter c →
  scan_devices_loop names env acc c = Ok (results, c') →
  consistent_counter c'.
Proof.
  revert acc c. induction names as [|name names IH]; intros acc c Hc; simpl.
  - by intros [= _ <-].
  - destruct (lookup_device _ _) as [dc|]; [|done].
    destruct (scan_device_optimized c env name dc) as [fc|]; simpl; [|done].
    destruct (update_device_state c env name fc) as [c1|] eqn:Hup; simpl;
      [|done].
    apply IH. by eapply update_device_state_consistent.
Qed.

Lemma run_scan_consistent c env r c' :
  consistent_counter c →
  run_scan c env = Ok (r, c') →
  consistent_counter c'.
Proof.
  intros Hc (results & c1 & Hloop & _ & Hrc)%run_scan_returned.
  apply scan_devices_loop_consistent in Hloop as [Hls Hp Hu Hh]; [|done].
  destruct results; injection Hrc as _ ->; [done|].
  unfold complete_bootstrap.
  destruct (bootstrap_completed (state c1)); split; simpl; eauto.
Qed.

Lemma process_approval_decision_consistent c id decision approver t b c' :
  consistent_counter c →
  process_approval_decision c id decision approver t = Ok (b, c') →
  consistent_counter c'.
Proof.
  intros [Hls Hp Hu Hh]. unfold process_approval_decision.
  destruct (pending (pending_approvals c) !! id) as [r|] eqn:Hr;
    [|by intros [= _ <-]].
  destruct (devices (state c) !! device_name r) as [d|] eqn:Hdev; [|done].
  intros [= _ <-].
  destruct (Hp id r Hr) as (_ & _ & Hnext & _).
  split; simpl; [done| | |].
  - intros id' r'. rewrite lookup_delete. case_decide as Hid; [done|].
    intros Hr'. destruct (Hp id' r' Hr') as (? & ? & ? & d' & Hd' & ? & ?).
    split_and!; [done..|]. unfold backed_by; simpl.
    rewrite lookup_insert_ne; [by exists d'|].
    intros Heq. apply Hid. by eapply Hu.
  - intros id1 id2 r1 r2. rewrite !lookup_delete.
    repeat case_decide; try done. apply Hu.
  - intros r'. rewrite elem_of_app, list_elem_of_singleton.
    intros [?| ->]; [by apply Hh|]. done.
Qed.
End consistency.

(** ** What the handling of one device leaves alone *)

Section frame.
Implicit Types (c : counter) (env : scan_env) (name : string)
  (d : device_state) (fc : file_counts).

Lemma same_settings_refl c : same_settings c c.
Proof. by repeat split. Qed.

Lemma same_settings_trans c1 c2 c3 :
  same_settings c1 c2 → same_settings c2 c3 → same_settings c1 c3.
Proof.
  intros (? & ? & ? & ? & ?) (? & ? & ? & ? & ?).
  repeat split; congruence.
Qed.

Lemma check_and_handle_settings c env name d :
  same_settings c (check_and_handle_tier_advancement c env name d).
Proof.
  destruct (check_and_handle_cases c env name d) as [->|(tier & _ & ->)];
    by repeat split.
Qed.

Lemma check_and_handle_other c env name d n :
  n ≠ name →
  devices (state (check_and_handle_tier_advancement c env name d)) !! n
  = devices (state c) !! n.
Proof.
  intros Hne.
  destruct (check_and_handle_cases c env name d) as [->|(tier & _ & ->)];
    [done|].
  simpl. by rewrite lookup_insert_ne.
Qed.

Lemma update_device_state_settings c env name fc c' :
  update_device_state c env name fc = Ok c' → same_settings c c'.
Proof.
  unfold update_device_state.
  destruct (match devices (state c) !! name with
            | Some d => Ok d
            | None => initialize_device_state c env name
            end) as [d0|]; simpl; [|done].
  case_bool_decide; intros [= <-]; [by repeat split|].
  eapply same_settings_trans; [|apply check_and_handle_settings].
  by repeat split.
Qed.

Lemma update_device_state_other c env name fc c' n :
  n ≠ name →
  update_device_state c env name fc = Ok c' →
  devices (state c') !! n = devices (state c) !! n.
Proof.
  intros Hne. unfold update_device_state.
  destruct (match devices (state c) !! name with
            | Some d => Ok d
            | None => initialize_device_state c env name
            end) as [d0|]; simpl; [|done].
  case_bool_decide; intros [= <-].
  - simpl. by rewrite lookup_insert_ne.
  - rewrite check_and_handle_other by done.
    simpl. by rewrite lookup_insert_ne.
Qed.

Lemma scan_devices_loop_settings names env acc c results c' :
  scan_devices_loop names env acc c = Ok (results, c') → same_settings c c'.
Proof.
  revert acc c. induction names as [|name names IH]; intros acc c; simpl.
  - intros [= _ <-]. apply same_settings_refl.
  - destruct (lookup_device _ _) as [dc|]; [|done].
    destruct (scan_device_optimized c env name dc) as [fc|]; simpl; [|done].
    destruct (update_device_state c env name fc) as [c1|] eqn:Hup; simpl;
      [|done].
    intros Hloop. eapply same_settings_trans; [|by eapply IH].
    by eapply update_device_state_settings.
Qed.

Lemma scan_devices_loop_other names env acc c results c' n :
  n ∉ names →
  scan_devices_loop names env acc c = Ok (results, c') →
  devices (state c') !! n = devices (state c) !! n.
Proof.
  revert acc c. induction names as [|name names IH]; intros acc c Hn; simpl.
  - by intros [= _ <-].
  - apply not_elem_of_cons in Hn as [Hne Hn].
    destruct (lookup_device _ _) as [dc|]; [|done].
    destruct (scan_device_optimized c env name dc) as [fc|]; simpl; [|done].
    destruct (update_device_state c env name fc) as [c1|] eqn:Hup; simpl;
      [|done].
    intros Hloop. erewrite IH; [|done..].
    by eapply update_device_state_other.
Qed.

(** The result list grows by one entry per name. *)
Lemma scan_devices_loop_results names env acc c results c' :
  scan_devices_loop names env acc c = Ok (results, c') →
  length results = (length acc + length names)%nat.
Proof.
  revert acc c. induction names as [|name names IH]; intros acc c; simpl.
  - intros [= <- _]. lia.
  - destruct (lookup_device _ _) as [dc|]; [|done].
    destruct (scan_device_optimized c env name dc) as [fc|]; simpl; [|done].
    destruct (update_device_state c env name fc) as [c1|]; simpl; [|done].
    intros Hloop%IH. rewrite length_app in Hloop. simpl in Hloop. lia.
Qed.
End frame.

(** ** No operation fails on a consistent state *)

Section totality.
Implicit Types (c : counter) (env : scan_env) (name : string).

Lemma lookup_device_elem devs name dc :
  (name, dc) ∈ devs → is_Some (lookup_device devs name).
Proof.
  induction devs as [|[n dc'] devs IH]; simpl.
  - by intros ?%elem_of_nil.
  - intros [?|?]%elem_of_cons; case_decide; simplify_eq; eauto.
Qed.

Lemma enabled_devices_lookup cfg name :
  name ∈ enabled_devices cfg → is_Some (lookup_device (cfg_devices cfg) name).
Proof.
  unfold enabled_devices.
  intros ([n dc] & -> & [_ Hin]%list_elem_of_filter)%list_elem_of_fmap.
  by eapply lookup_device_elem.
Qed.

Lemma lookup_device_enabled cfg name dc :
  lookup_device (cfg_devices cfg) name = Some dc → enabled dc = true →
  name ∈ enabled_devices cfg.
Proof.
  unfold enabled_devices. intros Hl He.
  apply list_elem_of_fmap. exists (name, dc). split; [done|].
  apply list_elem_of_filter. split; [done|].
  induction (cfg_devices cfg) as [|[n dc'] devs IH]; simpl in *; [done|].
  case_decide; simplify_eq; [left|right; by apply IH].
Qed.

Lemma scan_device_optimized_total c env name dc :
  (bootstrap_completed (state c) = true → is_Some (last_scan (state c))) →
  ∃ fc, scan_device_optimized c env name dc = Ok fc.
Proof.
  intros Hls. unfold scan_device_optimized.
  destruct (negb (enabled dc)); [by eexists|].
  destruct (negb (biu_exists env name)); [by eexists|].
  destruct (bulk_collect_file_timestamps env name); [by eexists|].
  destruct (is_pending_approval _); [by eexists|].
  destruct (bootstrap_completed (state c)); simpl.
  - destruct Hls as [s ->]; [done|]. by eexists.
  - destruct (bootstrap_mode c); by eexists.
Qed.

Lemma update_device_state_total c env name fc :
  is_Some (lookup_device (cfg_devices (config c)) name) →
  ∃ c', update_device_state c env name fc = Ok c'.
Proof.
  intros [dc Hdc]. unfold update_device_state, initialize_device_state.
  rewrite Hdc.
  destruct (devices (state c) !! name); simpl;
    [destruct (bool_decide _)|]; by eexists.
Qed.

Lemma scan_devices_loop_total names env acc c :
  (bootstrap_completed (state c) = true → is_Some (last_scan (state c))) →
  (∀ name, name ∈ names →
           is_Some (lookup_device (cfg_devices (config c)) name)) →
  ∃ results c', scan_devices_loop names env acc c = Ok (results, c').
Proof.
  revert acc c. induction names as [|name names IH]; intros acc c Hls Hin;
    simpl; [by eexists _, _|].
  destruct (Hin name) as [dc Hdc]; [left|]. rewrite Hdc.
  destruct (scan_device_optimized_total c env name dc Hls) as [fc ->]. simpl.
  destruct (update_device_state_total c env name fc) as [c1 Hup]; [by eexists|].
  rewrite Hup. simpl.
  apply update_device_state_settings in Hup as (Hcfg & _ & Hl & Hb & _).
  apply IH.
  - by rewrite Hl, Hb.
  - intros n Hn. rewrite Hcfg. apply Hin. by right.
Qed.

Lemma run_scan_total c env :
  (bootstrap_completed (state c) = true → is_Some (last_scan (state c))) →
  clock_advances env →
  ∃ r c', run_scan c env = Ok (r, c').
Proof.
  intros Hls Hclock.
  destruct (scan_devices_loop_total (enabled_devices (config c)) env [] c Hls)
    as (results & c1 & Hloop).
  { intros name. apply enabled_devices_lookup. }
  rewrite (run_scan_returns c env results c1 Hclock Hloop).
  destruct results; by eexists _, _.
Qed.


Lemma process_approval_decision_total c id decision approver t :
  consistent_counter c →
  ∃ b c', process_approval_decision c id decision approver t = Ok (b, c').
Proof.
  intros [_ Hp _ _]. unfold process_approval_decision.
  destruct (pending (pending_approvals c) !! id) as [r|] eqn:Hr;
    [|by eexists _, _].
  destruct (Hp id r Hr) as (_ & _ & _ & d & -> & _). by eexists _, _.
Qed.
End totality.

(** ** Reachable states are consistent, and every event is accepted *)

Section reachability.
Implicit Types (w : world) (e : event) (es : list event).

Lemma initial_world_consistent cfg : consistent_world (initial_world cfg).
Proof.
  split; simpl; [done| | |].
  - intros id r. by rewrite lookup_empty.
  - intros id1 id2 r1 r2. by rewrite lookup_empty.
  - intros r. by intros ?%elem_of_nil.
Qed.

Lemma apply_event_consistent w e w' :
  consistent_world w → apply_event w e = Ok w' → consistent_world w'.
Proof.
  intros Hc. destruct e as [env|id decision approver t|cfg]; simpl.
  - destruct (run_scan (load w) env) as [[r c]|] eqn:Hrun; simpl; [|done].
    intros [= <-]. by eapply (run_scan_consistent (load w)).
  - destruct (process_approval_decision _ _ _ _ _) as [[b c]|] eqn:Hp; simpl;
      [|done].
    intros [= <-]. by eapply (process_approval_decision_consistent (load w)).
  - by intros [= <-].
Qed.

Lemma run_consistent w es w' :
  consistent_world w → run w es = Ok w' → consistent_world w'.
Proof.
  revert w. induction es as [|e es IH]; intros w Hc; simpl.
  - by intros [= <-].
  - destruct (apply_event w e) as [w1|] eqn:He; simpl; [|done].
    apply IH. by eapply apply_event_consistent.
Qed.

Lemma reachable_consistent w : reachable w → consistent_world w.
Proof.
  intros (cfg & es & Hrun).
  eapply run_consistent; [apply initial_world_consistent|done].
Qed.

Lemma apply_event_total w e :
  consistent_world w → clock_advances_in e → ∃ w', apply_event w e = Ok w'.
Proof.
  intros Hc Hclock. destruct e as [env|id decision approver t|cfg]; simpl.
  - destruct (run_scan_total (load w) env) as (r & c & ->);
      [apply Hc|done|by eexists].
  - destruct (process_approval_decision_total (load w) id decision approver t)
      as (b & c & ->); [done|by eexists].
  - by eexists.
Qed.

Lemma run_app w es1 es2 :
  run w (es1 ++ es2) = w1 ← run w es1; run w1 es2.
Proof.
  revert w. induction es1 as [|e es1 IH]; intros w; simpl; [done|].
  destruct (apply_event w e); simpl; [apply IH|done].
Qed.

Lemma reachable_step w e w' :
  reachable w → apply_event w e = Ok w' → reachable w'.
Proof.
  intros (cfg & es & Hrun) He. exists cfg, (es ++ [e]).
  rewrite run_app, Hrun. simpl. by rewrite He.
Qed.

Lemma scenario_A_reachable : reachable scenario_A_world.
Proof. exists (demo_config (Some false)), scenario_A_events. reflexivity. Qed.

(** Invocations that all return leave the documents that [run] gives. *)
Lemma apply_event_leaves w e w' : apply_event w e = Ok w' → leaves w e = w'.
Proof. unfold leaves. by intros ->. Qed.

Lemma run_documents w es w' : run w es = Ok w' → documents_after w es = w'.
Proof.
  revert w. induction es as [|e es IH]; intros w; simpl; [by intros [= <-]|].
  destruct (apply_event w e) as [w1|] eqn:He; simpl; [|done].
  rewrite (apply_event_leaves _ _ _ He). apply IH.
Qed.

Lemma reachable_attainable w : reachable w → attainable w.
Proof. intros (cfg & es & Hrun). exists cfg, es. by apply run_documents. Qed.

Lemma run_total w es :
  consistent_world w → Forall clock_advances_in es → ∃ w', run w es = Ok w'.
Proof.
  intros Hc Hclock. revert w Hc.
  induction Hclock as [|e es He _ IH]; intros w Hc; simpl; [by eexists|].
  destruct (apply_event_total w e Hc He) as [w1 Hw1]. rewrite Hw1. simpl.
  apply IH. by eapply apply_event_consistent.
Qed.
End reachability.

(** C6. The claim fails on the documents that an interrupted scan
    leaves. The first scan of a fresh deployment finds 300 files against
    a threshold of 250 on a clock that does not advance: the request
    a1b2c3d4 is saved, the summary line of [scan_all_devices] raises
    [ZeroDivisionError], and the state is not written. The next scan
    finds the device unrecorded, counts the 300 files again and raises a
    second request: the device now has two open requests. *)
Theorem interrupted_scan_leaves_two_open_requests :
  apply_event (initial_world (demo_config (Some false)))
    (Scan (stalled_env 1000 (unit_files 300 200)))
  = Err (ZeroDivisionError, interrupted_world) ∧
  apply_event interrupted_world (Scan (second_env 2000 (unit_files 300 200)))
  = Ok twice_requested_world ∧
  ∃ r1 r2,
    pending (w_approvals twice_requested_world) !! "a1b2c3d4"%string = Some r1 ∧
    pending (w_approvals twice_requested_world) !! "e5f6a7b8"%string = Some r2 ∧
    device_name r1 = device_name r2 ∧
    status r1 = "PENDING"%string ∧ status r2 = "PENDING"%string.
Proof.
  split_and!; [reflexivity..|].
  exists scenario_A_request, second_request. split_and!; reflexivity.
Qed.

(** ** Resolution *)

Section resolution.
Implicit Types (c : counter) (id decision approver : string) (t : Z).

Lemma resolved_id_not_pending c0 id decision approver t c :
  process_approval_decision c0 id decision approver t = Ok (true, c) →
  pending (pending_approvals c) !! id = None.
Proof.
  unfold process_approval_decision.
  destruct (pending (pending_approvals c0) !! id); [|done].
  destruct (devices (state c0) !! _); [|done].
  intros [= <-]. simpl. apply lookup_delete_eq.
Qed.
End resolution.

(** C8. Resolving an id that is not in the pending set -- never raised,
    or already resolved and moved to the history by an earlier call --
    returns [False] and leaves the whole counter as it was. *)
Theorem resolve_unknown_id_is_noop
    (c : counter) (id decision approver : string) (t : Z) :
  (pending (pending_approvals c) !! id = None ∨
   ∃ c0 decision0 approver0 t0,
     process_approval_decision c0 id decision0 approver0 t0 = Ok (true, c)) →
  process_approval_decision c id decision approver t = Ok (false, c).
Proof.
  intros Hid.
  assert (pending (pending_approvals c) !! id = None) as Hnone.
  { destruct Hid as [?|(c0 & d0 & a0 & t0 & Hprev)]; [done|].
    by eapply resolved_id_not_pending. }
  unfold process_approval_decision. by rewrite Hnone.
Qed.

Lemma resolve_unknown_id_is_noop_witness :
  ∃ c, process_approval_decision (load scenario_A_world)
         "a1b2c3d4" "REJECT" "bob" 2000 = Ok (true, c) ∧
       process_approval_decision c "a1b2c3d4" "APPROVE" "bob" 2001
       = Ok (false, c).
Proof.
  eexists. split; [reflexivity|].
  apply resolve_unknown_id_is_noop. right.
  exists (load scenario_A_world), "REJECT"%string, "bob"%string, 2000.
  reflexivity.
Defined.

(** C5. The claim fails on the documents that an interrupted scan
    leaves (the scan of C6, ended by the [ZeroDivisionError] of its
    summary line after the request was saved). The request a1b2c3d4 is
    pending and its device is not recorded: resolving it raises
    [KeyError] and resets nothing. After the next scan the device has
    two open requests for the tier 12h: approving the first moves the
    device to 12h, and approving the second leaves the tier as it is,
    although the decision is APPROVE. *)
Theorem resolve_after_interrupted_scan :
  pending (w_approvals interrupted_world) !! "a1b2c3d4"%string
  = Some scenario_A_request ∧
  apply_event interrupted_world (Resolve "a1b2c3d4" "APPROVE" "alice" 1500)
  = Err (KeyError, interrupted_world) ∧
  ∃ w1 w2 d d1 d2,
    devices (w_state twice_requested_world) !! "dev1"%string = Some d ∧
    current_tier d = "24h"%string ∧
    apply_event twice_requested_world
      (Resolve "a1b2c3d4" "APPROVE" "alice" 2500) = Ok w1 ∧
    devices (w_state w1) !! "dev1"%string = Some d1 ∧
    current_tier d1 = "12h"%string ∧
    pending (w_approvals w1) !! "e5f6a7b8"%string = Some second_request ∧
    apply_event w1 (Resolve "e5f6a7b8" "APPROVE" "alice" 2600) = Ok w2 ∧
    devices (w_state w2) !! "dev1"%string = Some d2 ∧
    count d2 = 0 ∧
    current_tier d2 = current_tier d1.
Proof.
  split_and!; [reflexivity..|].
  eexists _, _, _, _, _. split_and!; reflexivity.
Qed.



(** ** A device pending approval is frozen by scans *)

Section freeze.
Implicit Types (c : counter) (env : scan_env) (name n : string)
  (d : device_state).

Lemma update_device_state_frozen c env name fc c' n d :
  approval_status d = pending_status →
  frozen_as d (devices (state c) !! n) →
  update_device_state c env name fc = Ok c' →
  frozen_as d (devices (state c') !! n).
Proof.
  intros Hst (d0 & Hd0 & Hst0 & Hc0 & Ht0) Hup.
  destruct (decide (n = name)) as [->|Hne].
  - revert Hup. unfold update_device_state. rewrite Hd0. simpl.
    rewrite bool_decide_eq_true_2 by done. intros [= <-]. simpl.
    rewrite lookup_insert_eq. by eexists.
  - erewrite update_device_state_other; [|done..]. by exists d0.
Qed.

Lemma scan_devices_loop_frozen names env acc c results c' n d :
  approval_status d = pending_status →
  frozen_as d (devices (state c) !! n) →
  scan_devices_loop names env acc c = Ok (results, c') →
  frozen_as d (devices (state c') !! n).
Proof.
  intros Hst. revert acc c.
  induction names as [|name names IH]; intros acc c Hfr; simpl.
  - by intros [= _ <-].
  - destruct (lookup_device _ _) as [dc|]; [|done].
    destruct (scan_device_optimized c env name dc) as [fc|]; simpl; [|done].
    destruct (update_device_state c env name fc) as [c1|] eqn:Hup; simpl;
      [|done].
    apply IH. by eapply update_device_state_frozen.
Qed.

Lemma run_scan_frozen c env r c' n d :
  approval_status d = pending_status →
  frozen_as d (devices (state c) !! n) →
  run_scan c env = Ok (r, c') →
  frozen_as d (devices (state c') !! n).
Proof.
  intros Hst Hfr (results & c1 & Hloop & _ & Hrc)%run_scan_returned.
  eapply scan_devices_loop_frozen in Hloop; [|done..].
  destruct results; injection Hrc as _ ->; [done|].
  unfold complete_bootstrap.
  by destruct (bootstrap_completed (state c1)).
Qed.

(** A scan that raises has either saved no state, or saved the state of
    the finished scan. *)
Lemma leaves_scan_frozen w env n d :
  approval_status d = pending_status →
  frozen_as d (devices (w_state w) !! n) →
  frozen_as d (devices (w_state (leaves w (Scan env))) !! n).
Proof.
  intros Hst Hfr. unfold leaves. simpl.
  destruct (run_scan (load w) env) as [[r c]|f] eqn:Hrun; simpl.
  { by eapply (run_scan_frozen (load w)). }
  unfold left_on_disk.
  destruct (run_scan_raised _ _ _ Hrun)
    as [[-> _]|(-> & _ & _ & _ & results & c1 & Hloop & _ & ->)]; [done|].
  eapply scan_devices_loop_frozen in Hloop; [|done..]. simpl.
  unfold complete_bootstrap. by destruct (bootstrap_completed (state c1)).
Qed.
End freeze.

(** C4. From a reachable state in which a device is PENDING_APPROVAL, any
    sequence of scan cycles -- those that raise included -- leaves the
    device PENDING_APPROVAL with the count (and tier) it had; and the
    cycles all run to completion when their clocks advance. *)
Theorem pending_count_is_frozen
    (w : world) (envs : list scan_env) (name : string) (d : device_state) :
  reachable w →
  devices (w_state w) !! name = Some d →
  approval_status d = pending_status →
  ∃ w' d',
    documents_after w (Scan <$> envs) = w' ∧
    (Forall clock_advances envs → run w (Scan <$> envs) = Ok w') ∧
    devices (w_state w') !! name = Some d' ∧
    count d' = count d ∧
    approval_status d' = pending_status.
Proof.
  intros Hreach%reachable_consistent Hd Hst.
  assert (frozen_as d (devices (w_state w) !! name)) as Hfr by by exists d.
  assert (frozen_as d
            (devices (w_state (documents_after w (Scan <$> envs))) !! name))
    as (d' & Hd' & Hst' & Hcount & _).
  { clear Hd Hreach. revert w Hfr.
    induction envs as [|env envs IH]; intros w Hfr; simpl; [done|].
    apply IH. by apply leaves_scan_frozen. }
  exists (documents_after w (Scan <$> envs)), d'.
  split_and!; [done| |done..].
  intros Hclock.
  destruct (run_total w (Scan <$> envs) Hreach) as [w' Hrun].
  { by apply Forall_fmap. }
  by rewrite (run_documents _ _ _ Hrun).
Qed.

Lemma pending_count_is_frozen_witness :
  ∃ w' d',
    documents_after scenario_A_world
      (Scan <$> [demo_env 2000 (unit_files 400 200);
                 stalled_env 3000 (unit_files 500 200)]) = w' ∧
    devices (w_state w') !! "dev1"%string = Some d' ∧
    count d' = 300.
Proof.
  destruct (pending_count_is_frozen scenario_A_world
              [demo_env 2000 (unit_files 400 200);
               stalled_env 3000 (unit_files 500 200)]
              "dev1"
              scenario_A_device)
    as (w' & d' & Hdocs & _ & Hd' & Hcount & _).
  - exists (demo_config (Some false)), scenario_A_events. reflexivity.
  - reflexivity.
  - reflexivity.
  - exists w', d'. split_and!; [exact Hdocs|exact Hd'|exact Hcount].
Defined.

(** ** What a scan records for a device *)

Section recorded.
Implicit Types (c : counter) (env : scan_env) (name n : string)
  (dc : device_config) (fc : file_counts).

Lemma bulk_collect_missing env name :
  biu_exists env name = false → bulk_collect_file_timestamps env name = [].
Proof. unfold bulk_collect_file_timestamps. by intros ->. Qed.

(** The possible results of the scan of an enabled device. *)
Lemma scan_device_optimized_cases c env name dc fc :
  enabled dc = true →
  scan_device_optimized c env name dc = Ok fc →
  let timestamps := bulk_collect_file_timestamps env name in
  fc = all_historical timestamps ∨
  (is_pending_approval (devices (state c) !! name) = false ∧
   ((bootstrap_completed (state c) = false ∧ bootstrap_mode c = false ∧
     fc = binary_search_file_count timestamps
            (get_device_production_start_date c env name)) ∨
    (bootstrap_completed (state c) = true ∧
     ∃ s, last_scan (state c) = Some s ∧
          fc = binary_search_file_count timestamps s))).
Proof.
  intros He. unfold scan_device_optimized. rewrite He. simpl.
  destruct (biu_exists env name) eqn:Hbiu; simpl.
  2:{ intros [= <-]. left. by rewrite bulk_collect_missing. }
  destruct (bulk_collect_file_timestamps env name) as [|e l] eqn:Hl.
  { intros [= <-]. by left. }
  destruct (is_pending_approval _); [intros [= <-]; by left|].
  destruct (bootstrap_completed (state c)); simpl.
  - destruct (last_scan (state c)) as [s|]; [|done].
    intros [= <-]. right. split; [done|]. right. split; [done|]. by exists s.
  - destruct (bootstrap_mode c); intros [= <-]; [by left|].
    right. split; [done|]. by left.
Qed.

Lemma scan_device_optimized_counts c env name dc fc :
  enabled dc = true →
  scan_device_optimized c env name dc = Ok fc →
  total_files fc = observed env name ∧
  0 ≤ historical_files fc ≤ observed env name ∧
  historical_files fc + new_files fc = total_files fc.
Proof.
  intros He Hscan. unfold observed.
  pose proof (bulk_collect_ascending env name) as Hs.
  destruct (scan_device_optimized_cases c env name dc fc He Hscan)
    as [->|(_ & [(_ & _ & ->)|(_ & s & _ & ->)])]; [simpl; lia| |].
    all: rewrite (binary_search_file_count_eq _ _ Hs); simpl;
    match goal with
    | |- context [count_lt ?x ?l] =>
        pose proof (count_lt_le_length x l) as Hle;
        rewrite length_fmap in Hle
    end; lia.
Qed.

Lemma scan_device_optimized_incremental c env name dc fc s :
  enabled dc = true →
  bootstrap_completed (state c) = true →
  last_scan (state c) = Some s →
  scan_device_optimized c env name dc = Ok fc →
  Z.of_nat (count_lt s ((bulk_collect_file_timestamps env name).*1))
  ≤ historical_files fc.
Proof.
  intros He Hb Hl Hscan.
  pose proof (bulk_collect_ascending env name) as Hs.
  destruct (scan_device_optimized_cases c env name dc fc He Hscan)
    as [->|(_ & [(? & _)|(_ & s' & ? & ->)])]; [|congruence|].
  - simpl. pose proof (count_lt_le_length s
                  ((bulk_collect_file_timestamps env name).*1)) as Hle.
    rewrite length_fmap in Hle. lia.
  - assert (s' = s) as -> by congruence.
    rewrite binary_search_file_count_eq by done. simpl. lia.
Qed.

(** With the bootstrap flag on the first scan nothing is new, whatever
    the device. *)
Lemma scan_device_optimized_bootstrap c env name dc :
  bootstrap_completed (state c) = false →
  bootstrap_mode c = true →
  ∃ fc, scan_device_optimized c env name dc = Ok fc ∧
        new_files fc = 0 ∧ historical_files fc = total_files fc.
Proof.
  intros Hb Hm. unfold scan_device_optimized. rewrite Hb, Hm. simpl.
  destruct (negb (enabled dc)); [by eexists|].
  destruct (negb (biu_exists env name)); [by eexists|].
  destruct (bulk_collect_file_timestamps env name); [by eexists|].
  destruct (is_pending_approval _); by eexists.
Qed.

Lemma update_device_state_recorded c env name fc c' :
  update_device_state c env name fc = Ok c' →
  ∃ d', devices (state c') !! name = Some d' ∧
        dev_total_files d' = total_files fc ∧
        dev_historical_files d' = historical_files fc.
Proof.
  unfold update_device_state.
  destruct (match devices (state c) !! name with
            | Some d => Ok d
            | None => initialize_device_state c env name
            end) as [d0|]; simpl; [|done].
  case_bool_decide; intros [= <-].
  - simpl. rewrite lookup_insert_eq. by eexists.
  - match goal with
    | |- context [check_and_handle_tier_advancement ?c0 env name ?d] =>
        destruct (check_and_handle_cases c0 env name d)
          as [->|(tier & _ & ->)]
    end; simpl; rewrite lookup_insert_eq; by eexists.
Qed.

(** Induction over the devices of one scan: [I] holds throughout, and
    [J] is established whenever device [n] is handled and kept when
    another one is. *)
Lemma scan_devices_loop_post (I J : counter → Prop) names env acc c
    results c' n :
  (∀ c name dc fc c',
     I c → lookup_device (cfg_devices (config c)) name = Some dc →
     scan_device_optimized c env name dc = Ok fc →
     update_device_state c env name fc = Ok c' →
     I c' ∧ (name = n → J c') ∧ (name ≠ n → J c → J c')) →
  I c → (n ∈ names ∨ J c) →
  scan_devices_loop names env acc c = Ok (results, c') →
  I c' ∧ J c'.
Proof.
  intros Hstep. revert acc c.
  induction names as [|name names IH]; intros acc c HI Hn; simpl.
  - intros [= _ <-]. destruct Hn as [?%elem_of_nil|?]; done.
  - destruct (lookup_device _ _) as [dc|] eqn:Hdc; [|done].
    destruct (scan_device_optimized c env name dc) as [fc|] eqn:Hscan;
      simpl; [|done].
    destruct (update_device_state c env name fc) as [c1|] eqn:Hup; simpl;
      [|done].
    destruct (Hstep c name dc fc c1 HI Hdc Hscan Hup) as (HI1 & Heq & Hne).
    apply IH; [done|].
    destruct (decide (name = n)) as [->|Hneq]; [right; by apply Heq|].
    destruct Hn as [[?|?]%elem_of_cons|HJ]; [done|by left|].
    right. by apply Hne.
Qed.
End recorded.

(** ** The first scan in bootstrap mode *)

Section bootstrap.
Implicit Types (c : counter) (env : scan_env) (name n : string)
  (dc : device_config) (fc : file_counts).

Lemma check_and_handle_not_eligible c env name d :
  eligible_tier (cfg_tier_requirements (config c)) (current_tier d) (count d)
  = None →
  check_and_handle_tier_advancement c env name d = c.
Proof.
  intros Hel.
  destruct (check_and_handle_cases c env name d) as [->|(tier & Hs & _)];
    [done|congruence].
Qed.

Lemma update_device_state_nothing_new c env name fc c' :
  new_files fc = 0 →
  positive_thresholds (cfg_tier_requirements (config c)) →
  counts_zero c →
  update_device_state c env name fc = Ok c' →
  pending_approvals c' = pending_approvals c ∧ counts_zero c'.
Proof.
  intros Hnew (? & ? & ? & ?) Hzero. unfold update_device_state.
  destruct (match devices (state c) !! name with
            | Some d => Ok d
            | None => initialize_device_state c env name
            end) as [d0|] eqn:Hd0; simpl; [|done].
  assert (count d0 = 0) as Hc0.
  { destruct (devices (state c) !! name) as [d|] eqn:Hd.
    - injection Hd0 as <-. by eapply Hzero.
    - unfold initialize_device_state in Hd0.
      destruct (lookup_device _ _); [|done]. by injection Hd0 as <-. }
  case_bool_decide; intros [= <-].
  - split; [done|]. intros n d. simpl. rewrite lookup_insert.
    case_decide; [intros [= <-]; done|apply Hzero].
  - rewrite check_and_handle_not_eligible.
    + split; [done|]. intros n d. simpl. rewrite lookup_insert.
      case_decide; [intros [= <-]; simpl; lia|apply Hzero].
    + simpl. apply eligible_tier_below; lia.
Qed.

Lemma bootstrap_completed_ignores_flag c b env name dc :
  bootstrap_completed (state c) = true →
  scan_device_optimized (with_bootstrap_mode b c) env name dc
  = scan_device_optimized c env name dc.
Proof.
  intros Hb. unfold scan_device_optimized. simpl. by rewrite Hb.
Qed.

Lemma process_approval_decision_flags c id decision approver t b c' :
  process_approval_decision c id decision approver t = Ok (b, c') →
  config c' = config c ∧
  last_scan (state c') = last_scan (state c) ∧
  bootstrap_completed (state c') = bootstrap_completed (state c).
Proof.
  unfold process_approval_decision.
  destruct (pending (pending_approvals c) !! id); [|by intros [= _ <-]].
  destruct (devices (state c) !! _); [|done]. by intros [= _ <-].
Qed.

(** The end of a completed scan. *)
Lemma finish_scan_effect c t :
  let c' := set_last_scan t (complete_bootstrap c) in
  devices (state c') = devices (state c) ∧
  pending_approvals c' = pending_approvals c ∧
  bootstrap_completed (state c') = true ∧
  last_scan (state c') = Some t ∧
  (bootstrap_completed (state c) = false →
     config c' = clear_bootstrap_mode (config c)) ∧
  (bootstrap_completed (state c) = true → config c' = config c).
Proof.
  unfold complete_bootstrap.
  destruct (bootstrap_completed (state c)) eqn:Hb; simpl; by rewrite ?Hb.
Qed.

Lemma run_scan_bootstrap_completed c env r c' :
  bootstrap_completed (state c) = true →
  run_scan c env = Ok (r, c') →
  bootstrap_completed (state c') = true.
Proof.
  intros Hb (results & c1 & Hloop & _ & Hrc)%run_scan_returned.
  apply scan_devices_loop_settings in Hloop as (_ & _ & _ & Hb1 & _).
  rewrite Hb in Hb1.
  destruct results; injection Hrc as _ ->; [done|].
  unfold complete_bootstrap. by rewrite Hb1.
Qed.

Lemma run_bootstrap_completed w es w' :
  bootstrap_completed (w_state w) = true →
  run w es = Ok w' →
  bootstrap_completed (w_state w') = true.
Proof.
  revert w. induction es as [|e es IH]; intros w Hb; simpl.
  - by intros [= <-].
  - destruct (apply_event w e) as [w1|] eqn:He; simpl; [|done].
    apply IH. destruct e as [env|id decision approver t|cfg]; simpl in He.
    + destruct (run_scan (load w) env) as [[r c]|] eqn:Hrun; simpl in He;
        [|done].
      injection He as <-. by eapply (run_scan_bootstrap_completed (load w)).
    + destruct (process_approval_decision _ _ _ _ _) as [[b c]|] eqn:Hp;
        simpl in He; [|done].
      injection He as <-.
      apply process_approval_decision_flags in Hp as (_ & _ & Hb').
      simpl. by rewrite Hb'.
    + by injection He as <-.
Qed.
End bootstrap.

(** C9. On the first scan (bootstrap not yet completed) with the bootstrap
    flag set, thresholds all positive and every recorded count at 0, with
    at least one enabled device: when the clock advances the scan
    completes with a report; every device scan returns new = 0 and
    historical = total; every enabled device is recorded with all its
    observed files historical; every count is still 0 and the approval
    store is untouched; afterwards bootstrap is completed, the
    configuration key is cleared, the flag no longer influences any scan,
    and bootstrap stays completed whatever follows. The only exception
    that can end this scan is the [ZeroDivisionError] of a log line on a
    clock that has not advanced, and then too every count is 0 and the
    approval store is untouched. *)
Theorem first_scan_in_bootstrap_mode (c : counter) (env : scan_env) :
  bootstrap_completed (state c) = false →
  bootstrap_mode c = true →
  positive_thresholds (cfg_tier_requirements (config c)) →
  (∀ n d, devices (state c) !! n = Some d → count d = 0) →
  enabled_devices (config c) ≠ [] →
  (∀ f, run_scan c env = Err f →
     exception f = ZeroDivisionError ∧ ¬ clock_advances env ∧
     (∀ n d, devices (state (object f)) !! n = Some d → count d = 0) ∧
     pending_approvals (object f) = pending_approvals c) ∧
  (clock_advances env →
   ∃ rep c',
    run_scan c env = Ok (Some rep, c') ∧
    (∀ name dc, ∃ fc,
       scan_device_optimized c env name dc = Ok fc ∧
       new_files fc = 0 ∧ historical_files fc = total_files fc) ∧
    (∀ name dc,
       lookup_device (cfg_devices (config c)) name = Some dc →
       enabled dc = true →
       ∃ d, devices (state c') !! name = Some d ∧
            dev_total_files d = observed env name ∧
            dev_historical_files d = dev_total_files d) ∧
    (∀ n d, devices (state c') !! n = Some d → count d = 0) ∧
    pending_approvals c' = pending_approvals c ∧
    bootstrap_completed (state c') = true ∧
    cfg_bootstrap_mode (config c') = None ∧
    (∀ b env' name dc,
       scan_device_optimized (with_bootstrap_mode b c') env' name dc
       = scan_device_optimized c' env' name dc) ∧
    (∀ es w', run (persist c') es = Ok w' →
              bootstrap_completed (w_state w') = true)).
Proof.
  intros Hb Hm Hpos Hzero Hen.
  set (I := λ c1 : counter,
         same_settings c c1 ∧ counts_zero c1 ∧
         pending_approvals c1 = pending_approvals c).
  assert (∀ n c1 name dc fc c2,
            I c1 → lookup_device (cfg_devices (config c1)) name = Some dc →
            scan_device_optimized c1 env name dc = Ok fc →
            update_device_state c1 env name fc = Ok c2 →
            I c2 ∧
            (name = n → enabled dc = true →
               ∃ d, devices (state c2) !! n = Some d ∧
                    dev_total_files d = observed env n ∧
                    dev_historical_files d = dev_total_files d))
    as Hstep.
  { intros n c1 name dc fc c2 (Hset & Hz & Hpa) Hdc Hscan Hup.
    destruct Hset as (Hcfg & Hm1 & Hl1 & Hb1 & Hh1).
    destruct (scan_device_optimized_bootstrap c1 env name dc)
      as (fc' & Hscan' & Hnew & Hhist); [congruence..|].
    assert (fc' = fc) as -> by congruence.
    destruct (update_device_state_nothing_new c1 env name fc c2)
      as [Hpa2 Hz2]; [done|by rewrite Hcfg|done..|].
    split.
    - split_and!; [|done|congruence].
      apply (same_settings_trans c c1 c2);
        [by repeat split|by eapply update_device_state_settings].
    - intros -> He.
      destruct (update_device_state_recorded c1 env n fc c2 Hup)
        as (d & Hd & Ht & Hh).
      destruct (scan_device_optimized_counts c1 env n dc fc He Hscan)
        as (Htot & _).
      exists d. split_and!; [done|congruence|congruence]. }
  destruct (scan_devices_loop_total (enabled_devices (config c)) env [] c)
    as (results & c1 & Hloop).
  { by rewrite Hb. }
  { intros name. apply enabled_devices_lookup. }
  assert (I c1) as (Hset1 & Hz1 & Hpa1).
  { eapply (scan_devices_loop_post I (λ _, True) _ env [] c results c1 ""%string);
      [|by repeat split|by right|done].
    intros c2 name dc fc c3 HI Hdc Hscan Hup.
    by destruct (Hstep ""%string c2 name dc fc c3 HI Hdc Hscan Hup). }
  destruct Hset1 as (Hcfg1 & Hm1 & Hl1 & Hb1 & Hh1).
  assert (results ≠ []) as Hres.
  { apply scan_devices_loop_results in Hloop. intros ->.
    destruct (enabled_devices (config c)); simpl in Hloop; [done|lia]. }
  destruct (finish_scan_effect c1 (start_time env))
    as (Hdev' & Hpa' & Hb' & _ & Hcfg' & _).
  set (c' := set_last_scan (start_time env) (complete_bootstrap c1)) in *.
  split.
  { intros f. unfold run_scan, scan_all_devices, files_per_second.
    rewrite Hloop. simpl.
    destruct (decide (scan_end env = scan_start env)); simpl.
    { intros [= <-]. simpl. split_and!; [done|by intros [? _]|done..]. }
    destruct results; [done|].
    destruct (decide (end_time env = start_time env)); simpl; [|done].
    intros [= <-]. cbn [exception object]. fold c'. rewrite Hdev', Hpa'.
    split_and!; [done|by intros [_ ?]|done..]. }
  intros Hclock.
  exists (generate_report c'), c'. split.
  { rewrite (run_scan_returns c env results c1 Hclock Hloop).
    by destruct results. }
  split_and!.
  - intros name dc. by apply scan_device_optimized_bootstrap.
  - intros name dc Hdc He. rewrite Hdev'.
    set (J := λ c2 : counter,
           ∃ d, devices (state c2) !! name = Some d ∧
                dev_total_files d = observed env name ∧
                dev_historical_files d = dev_total_files d).
    eapply (scan_devices_loop_post I J _ env [] c _ c1 name);
      [|by repeat split| |done].
    + intros c2 nm dc2 fc c3 HI Hdc2 Hscan Hup.
      destruct (Hstep name c2 nm dc2 fc c3 HI Hdc2 Hscan Hup) as [HI3 HJ].
      split; [done|]. split.
      * intros ->. apply HJ; [done|].
        destruct HI as ((Hcfg2 & _) & _). congruence.
      * intros Hne (d & Hd & ?). exists d. split; [|done].
        by erewrite update_device_state_other.
    + left. by eapply lookup_device_enabled.
  - rewrite Hdev'. exact Hz1.
  - by rewrite Hpa'.
  - done.
  - rewrite Hcfg', Hcfg1 by congruence. unfold clear_bootstrap_mode.
    by destruct (cfg_bootstrap_mode (config c)) eqn:Hkey.
  - intros b env' name dc. apply bootstrap_completed_ignores_flag, Hb'.
  - intros es w'. apply run_bootstrap_completed, Hb'.
Qed.

Lemma first_scan_in_bootstrap_mode_witness :
  ∃ rep c' d,
    run_scan (load (initial_world (demo_config (Some true))))
      (demo_env 1000 (unit_files 300 200)) = Ok (Some rep, c') ∧
    pending_approvals c' = no_approvals ∧
    devices (state c') !! "dev1"%string = Some d ∧
    dev_historical_files d = 300 ∧ count d = 0.
Proof.
  destruct (first_scan_in_bootstrap_mode
              (load (initial_world (demo_config (Some true))))
              (demo_env 1000 (unit_files 300 200)))
    as [_ Hreturns].
  - reflexivity.
  - reflexivity.
  - unfold positive_thresholds. simpl. lia.
  - intros n d Hd. simpl in Hd. rewrite lookup_empty in Hd. discriminate Hd.
  - discriminate.
  - destruct Hreturns as (rep & c' & Hrun & _ & Hrec & Hzero & Hpa & _).
    { split; simpl; lia. }
    destruct (Hrec "dev1"%string (DeviceConfig true None (Some 100)))
      as (d & Hd & Htotal & Hhist); [reflexivity|reflexivity|].
    exists rep, c', d. split_and!;
      [exact Hrun|exact Hpa|exact Hd| |exact (Hzero _ _ Hd)].
    rewrite Hhist, Htotal. reflexivity.
Defined.

(** ** Incremental scans *)

Section incremental.
Implicit Types (c : counter) (env : scan_env) (name n : string)
  (dc : device_config) (fc : file_counts).

Lemma run_scan_completed c env r c' :
  enabled_devices (config c) ≠ [] →
  run_scan c env = Ok (r, c') →
  last_scan (state c') = Some (start_time env) ∧
  bootstrap_completed (state c') = true.
Proof.
  intros Hen (results & c1 & Hloop & _ & Hrc)%run_scan_returned.
  apply scan_devices_loop_results in Hloop.
  destruct results as [|res0 results].
  { destruct (enabled_devices (config c)); simpl in Hloop; [done|lia]. }
  injection Hrc as _ ->.
  by destruct (finish_scan_effect c1 (start_time env)) as (_ & _ & ? & ? & _).
Qed.

Lemma count_lt_ge_length cutoff (ts : list Z) :
  (count_lt cutoff ts + count_ge cutoff ts)%nat = length ts.
Proof.
  unfold count_lt, count_ge.
  induction ts as [|t ts IH]; [done|].
  rewrite !filter_cons.
  destruct (decide (t < cutoff)), (decide (cutoff ≤ t)); simpl; lia.
Qed.

Lemma incremental_classification timestamps s i ts file :
  ascending timestamps →
  timestamps !! i = Some (ts, file) →
  classified_new (binary_search_file_count timestamps s) i ↔ s ≤ ts.
Proof.
  intros Hs Hi. rewrite binary_search_file_count_eq by done.
  unfold classified_new; simpl.
  destruct (count_lt_separates timestamps s Hs) as [Hbelow Habove].
  assert (timestamps.*1 !! i = Some ts) as Hts.
  { by rewrite list_lookup_fmap, Hi. }
  pose proof (lookup_lt_Some _ _ _ Hi) as Hlen.
  split.
  - intros [Hge _]. apply (Habove i ts); [lia|done].
  - intros Hle. split; [|lia].
    destruct (decide (i < count_lt s (timestamps.*1))%nat) as [Hlt|]; [|lia].
    pose proof (Hbelow i ts Hlt Hts). lia.
Qed.

Lemma update_device_state_count c env name fc c' :
  update_device_state c env name fc = Ok c' →
  ∃ d', devices (state c') !! name = Some d' ∧
        count d' =
          recorded_count (devices (state c) !! name)
          + (if is_pending_approval (devices (state c) !! name)
             then 0 else new_files fc).
Proof.
  unfold update_device_state, is_pending_approval, recorded_count.
  destruct (devices (state c) !! name) as [d|] eqn:Hd; simpl.
  - case_bool_decide as Hst; intros [= <-].
    + rewrite bool_decide_eq_true_2 by (by rewrite Hst).
      simpl. rewrite lookup_insert_eq. eexists. split; [done|]. simpl. lia.
    + rewrite bool_decide_eq_false_2 by (intros [= ?]; done).
      match goal with
      | |- context [check_and_handle_tier_advancement ?c0 env name ?d0] =>
          destruct (check_and_handle_cases c0 env name d0)
            as [->|(tier & _ & ->)]
      end; simpl; rewrite lookup_insert_eq; by eexists.
  - unfold initialize_device_state.
    destruct (lookup_device _ _); simpl; [|done]. intros [= <-].
    match goal with
    | |- context [check_and_handle_tier_advancement ?c0 env name ?d0] =>
        destruct (check_and_handle_cases c0 env name d0)
          as [->|(tier & _ & ->)]
    end; simpl; rewrite lookup_insert_eq; by eexists.
Qed.
End incremental.

(** C2, as the code has it. After a scan cycle that handled at least one
    device, the next scan takes that cycle's start instant as cutoff: a
    file is new only if its timestamp is at or after that instant (and,
    unless the device is pending approval, exactly then), and the count
    of the device grows by at most the number of files stamped at or
    after it. A file stamped strictly before the recorded instant is
    therefore never counted by the following cycle. *)
Theorem new_only_from_last_scan
    (w w1 : world) (env1 env2 : scan_env) (name : string) (dc : device_config) :
  apply_event w (Scan env1) = Ok w1 →
  enabled_devices (w_config w) ≠ [] →
  enabled dc = true →
  last_scan (w_state w1) = Some (start_time env1) ∧
  ∃ fc,
    scan_device_optimized (load w1) env2 name dc = Ok fc ∧
    (∀ i ts file,
       bulk_collect_file_timestamps env2 name !! i = Some (ts, file) →
       classified_new fc i → start_time env1 ≤ ts) ∧
    (is_pending_approval (devices (w_state w1) !! name) = false →
     ∀ i ts file,
       bulk_collect_file_timestamps env2 name !! i = Some (ts, file) →
       start_time env1 ≤ ts → classified_new fc i) ∧
    (∀ c2, update_device_state (load w1) env2 name fc = Ok c2 →
       ∃ d2, devices (state c2) !! name = Some d2 ∧
             count d2 ≤ recorded_count (devices (w_state w1) !! name)
                        + Z.of_nat (count_ge (start_time env1)
                             ((bulk_collect_file_timestamps env2 name).*1))).
Proof.
  intros Hev Hen He. simpl in Hev.
  destruct (run_scan (load w) env1) as [[r c1]|] eqn:Hrun; simpl in Hev; [|done].
  injection Hev as <-.
  destruct (run_scan_completed (load w) env1 r c1 Hen Hrun) as [Hls Hb].
  split; [done|].
  destruct (scan_device_optimized_total (load (persist c1)) env2 name dc)
    as [fc Hscan]; [simpl; rewrite Hls; eauto|].
  exists fc. split; [done|].
  pose proof (bulk_collect_ascending env2 name) as Hs.
  pose proof (count_lt_ge_length (start_time env1)
                ((bulk_collect_file_timestamps env2 name).*1)) as Hsum.
  rewrite length_fmap in Hsum.
  destruct (scan_device_optimized_cases _ env2 name dc fc He Hscan)
    as [->|(Hnp & [(Hnb & _)|(_ & s & Hs1 & ->)])].
  - split_and!.
    + intros i ts file Hi [? ?]. simpl in *. lia.
    + intros Hnp i ts file Hi Hle.
      pose proof (scan_incremental (load (persist c1)) env2 name dc
                    (start_time env1) He Hnp Hb Hls) as Hscan'.
      rewrite Hscan in Hscan'. injection Hscan' as ->.
      by eapply incremental_classification.
    + intros c2 (d2 & Hd2 & Hc2)%update_device_state_count.
      exists d2. split; [done|]. rewrite Hc2. simpl.
      destruct (is_pending_approval _); lia.
  - simpl in Hnb. congruence.
  - assert (s = start_time env1) as -> by (simpl in Hs1; congruence).
    split_and!.
    + intros i ts file Hi Hnew. by eapply incremental_classification.
    + intros _ i ts file Hi Hle. by eapply incremental_classification.
    + intros c2 (d2 & Hd2 & Hc2)%update_device_state_count.
      exists d2. split; [done|]. rewrite Hc2, Hnp.
      rewrite binary_search_file_count_eq by done. simpl. lia.
Qed.

Lemma new_only_from_last_scan_witness :
  last_scan (w_state (demo_world false 1000 (demo_device 1 1 0))) = Some 1000 ∧
  ∃ fc,
    scan_device_optimized (load (demo_world false 1000 (demo_device 1 1 0)))
      (demo_env 2000 [(500, "old.dat"); (1000, "unit.dat")]%string)
      "dev1" (DeviceConfig true None (Some 100)) = Ok fc ∧
    ¬ classified_new fc 0.
Proof.
  destruct (new_only_from_last_scan
              (initial_world (demo_config (Some false)))
              (demo_world false 1000 (demo_device 1 1 0))
              (demo_env 1000 (unit_files 1 1000))
              (demo_env 2000 [(500, "old.dat"); (1000, "unit.dat")]%string)
              "dev1" (DeviceConfig true None (Some 100)))
    as (Hlast & fc & Hscan & Honly & _).
  - reflexivity.
  - discriminate.
  - reflexivity.
  - split; [exact Hlast|]. exists fc. split; [exact Hscan|].
    intros Hnew.
    pose proof (Honly 0%nat 500 "old.dat"%string eq_refl Hnew) as Hle.
    simpl in Hle. lia.
Defined.

(** C2 as stated fails: the inbox holds one and the same file in two
    consecutive cycles, stamped exactly at the start instant recorded by
    the first; it is new in the first cycle (count 0 -> 1) and, its
    timestamp not being strictly after the recorded instant, new again in
    the second (count 1 -> 2). *)
Lemma counted_in_two_cycles_counterexample :
  apply_event (initial_world (demo_config (Some false)))
    (Scan (demo_env 1000 (unit_files 1 1000)))
  = Ok (demo_world false 1000 (demo_device 1 1 0)) ∧
  scan_device_optimized (load (demo_world false 1000 (demo_device 1 1 0)))
    (demo_env 2000 (unit_files 1 1000)) "dev1"
    (DeviceConfig true None (Some 100))
  = Ok (FileCounts 1 0 1) ∧
  apply_event (demo_world false 1000 (demo_device 1 1 0))
    (Scan (demo_env 2000 (unit_files 1 1000)))
  = Ok (demo_world false 2000 (demo_device 2 1 0)).
Proof. split_and!; reflexivity. Qed.

(** ** What the enumeration of a folder collects *)

Section collecting.
Variable suffix : string → string.
Variable lower : string → string.
Variable path_match : string → string → bool.
Implicit Types (f : file_filter) (e : dir_entry) (l : list entry).

Lemma collect_entries_elem f entries mtime name :
  (mtime, name) ∈ collect_entries suffix lower path_match f entries ↔
  ∃ e, e ∈ entries ∧ de_name e = name ∧
       accepted suffix lower path_match f e mtime.
Proof.
  unfold accepted. induction entries as [|e entries IH]; simpl.
  - split; [by intros ?%elem_of_nil|]. by intros (e & ?%elem_of_nil & _).
  - assert ((∃ e', e' ∈ e :: entries ∧ de_name e' = name ∧
               de_is_file e' = true ∧
               ∃ size, de_stat e' = Some (size, mtime) ∧
                 fast_file_filter suffix lower path_match f (de_name e') size
                 = true)
            ↔ (de_name e = name ∧ de_is_file e = true ∧
               ∃ size, de_stat e = Some (size, mtime) ∧
                 fast_file_filter suffix lower path_match f (de_name e) size
                 = true)
              ∨ (mtime, name)
                  ∈ collect_entries suffix lower path_match f entries)
      as ->.
    { rewrite IH. split.
      - intros (e' & [->|Hin]%elem_of_cons & Hrest); [by left|].
        right. by exists e'.
      - intros [Hhere|(e' & Hin & Hrest)].
        + exists e. split; [left|done].
        + exists e'. split; [by right|done]. }
    destruct (de_is_file e).
    2:{ split; [by right|]. by intros [(_ & ? & _)|?]. }
    destruct (de_stat e) as [[size mt]|].
    2:{ split; [by right|]. by intros [(_ & _ & ? & ? & _)|?]. }
    destruct (fast_file_filter _ _ _ _ _ _) eqn:Hf.
    + rewrite elem_of_cons. split.
      * intros [[= -> ->]|?]; [left|by right].
        split_and!; [done..|]. by exists size.
      * intros [(<- & _ & size' & [= <- <-] & _)|?]; [by left|by right].
    + split; [by right|].
      intros [(_ & _ & size' & [= <- <-] & Hf')|?]; [congruence|done].
Qed.

Lemma insert_entry_same_timestamp (e : entry) l t :
  filter (λ x : entry, x.1 = t) (insert_entry e l)
  = filter (λ x : entry, x.1 = t) (e :: l).
Proof.
  induction l as [|e' l IH]; [done|].
  cbn [insert_entry]. case_decide as Hlt; [|done].
  rewrite filter_cons, IH, !filter_cons.
  destruct (decide (e'.1 = t)), (decide (e.1 = t)); try done. lia.
Qed.

Lemma collect_entries_submseteq f entries1 entries2 :
  entries1 ⊆+ entries2 →
  collect_entries suffix lower path_match f entries1
  ⊆+ collect_entries suffix lower path_match f entries2.
Proof.
  set (g := λ e : dir_entry,
         if de_is_file e then
           match de_stat e with
           | Some (size, mtime) =>
               if fast_file_filter suffix lower path_match f (de_name e) size
               then [(mtime, de_name e)] else []
           | None => []
           end
         else []).
  assert (∀ entries,
            collect_entries suffix lower path_match f entries = entries ≫= g)
    as Heq.
  { induction entries as [|e entries IH]; [done|].
    rewrite bind_cons, <- IH. cbn [collect_entries]. unfold g.
    destruct (de_is_file e); [|done].
    destruct (de_stat e) as [[size mtime]|]; [|done].
    by destruct (fast_file_filter _ _ _ _ _ _). }
  intros Hsub. rewrite !Heq. by apply bind_submseteq.
Qed.
End collecting.

(** ** Recorded totals from one scan to the next *)

Section monotone.
Implicit Types (c : counter) (env : scan_env) (name n : string)
  (dc : device_config) (fc : file_counts).

Lemma filter_length_submseteq (P : Z → Prop) `{∀ t, Decision (P t)}
    (l1 l2 : list Z) :
  l1 ⊆+ l2 → (length (filter P l1) ≤ length (filter P l2))%nat.
Proof.
  induction 1 as [|x l1 l2 _ IH|x y l|x l1 l2 _ IH|l1 l2 l3 _ IH1 _ IH2];
    rewrite ?filter_cons; repeat case_decide; simpl; lia.
Qed.

Lemma run_scan_devices_config c env r c' :
  run_scan c env = Ok (r, c') →
  cfg_devices (config c') = cfg_devices (config c).
Proof.
  intros (results & c1 & Hloop & _ & Hrc)%run_scan_returned.
  apply scan_devices_loop_settings in Hloop as (Hcfg & _).
  destruct results; injection Hrc as _ ->; [by rewrite Hcfg|].
  simpl. unfold complete_bootstrap.
  destruct (bootstrap_completed (state c1)); simpl; rewrite ?Hcfg; [done|].
  unfold clear_bootstrap_mode. by destruct (cfg_bootstrap_mode (config c)).
Qed.

(** What a scan records for an enabled device. *)
Lemma run_scan_records c env r c' name dc :
  run_scan c env = Ok (r, c') →
  lookup_device (cfg_devices (config c)) name = Some dc →
  enabled dc = true →
  ∃ d, devices (state c') !! name = Some d ∧
       dev_total_files d = observed env name ∧
       0 ≤ dev_historical_files d ≤ observed env name ∧
       (bootstrap_completed (state c) = true →
        ∀ s, last_scan (state c) = Some s →
             Z.of_nat (count_lt s
                         ((bulk_collect_file_timestamps env name).*1))
             ≤ dev_historical_files d).
Proof.
  intros (results & c1 & Hloop & _ & Hrc)%run_scan_returned Hdc He.
  set (J := λ c2 : counter,
         ∃ d, devices (state c2) !! name = Some d ∧
              dev_total_files d = observed env name ∧
              0 ≤ dev_historical_files d ≤ observed env name ∧
              (bootstrap_completed (state c) = true →
               ∀ s, last_scan (state c) = Some s →
                    Z.of_nat (count_lt s
                                ((bulk_collect_file_timestamps env name).*1))
                    ≤ dev_historical_files d)).
  assert (J c1) as HJ.
  { eapply (scan_devices_loop_post (same_settings c) J _ env [] c _ c1 name);
      [|apply same_settings_refl|left; by eapply lookup_device_enabled|done].
    intros c2 nm dc2 fc c3 Hset Hdc2 Hscan Hup. split_and!.
    - eapply same_settings_trans; [done|].
      by eapply update_device_state_settings.
    - intros ->. destruct Hset as (Hcfg & _ & Hl & Hb & _).
      assert (dc2 = dc) as -> by congruence.
      destruct (update_device_state_recorded c2 env name fc c3 Hup)
        as (d & Hd & Ht & Hh).
      destruct (scan_device_optimized_counts c2 env name dc fc He Hscan)
        as (Htot & Hhist & _).
      exists d. split_and!; [done|congruence|lia|lia|].
      intros Hb0 s Hs. rewrite Hh.
      eapply scan_device_optimized_incremental; [done| | |done]; congruence.
    - intros Hne (d & Hd & ?). exists d. split; [|done].
      by erewrite update_device_state_other. }
  destruct results; injection Hrc as _ ->; [done|].
  by destruct (finish_scan_effect c1 (start_time env)) as (-> & _).
Qed.

Lemma process_approval_decision_files c id decision approver t b c' n :
  process_approval_decision c id decision approver t = Ok (b, c') →
  files_of (devices (state c') !! n) = files_of (devices (state c) !! n).
Proof.
  unfold process_approval_decision.
  destruct (pending (pending_approvals c) !! id) as [r|];
    [|by intros [= _ <-]].
  destruct (devices (state c) !! device_name r) as [d|] eqn:Hd; [|done].
  intros [= _ <-]. simpl.
  destruct (decide (device_name r = n)) as [<-|Hne].
  - rewrite lookup_insert_eq, Hd. simpl. by repeat case_bool_decide.
  - by rewrite lookup_insert_ne.
Qed.

Lemma run_resolutions decisions w w' :
  run w (resolutions decisions) = Ok w' →
  w_config w' = w_config w ∧
  last_scan (w_state w') = last_scan (w_state w) ∧
  bootstrap_completed (w_state w') = bootstrap_completed (w_state w) ∧
  ∀ n, files_of (devices (w_state w') !! n)
       = files_of (devices (w_state w) !! n).
Proof.
  revert w. induction decisions as [|[[[id decision] approver] t] l IH];
    intros w; simpl.
  - by intros [= <-].
  - destruct (process_approval_decision _ _ _ _ _) as [[b c]|] eqn:Hp; simpl;
      [|done].
    intros (Hcfg & Hl & Hb & Hfiles)%IH.
    destruct (process_approval_decision_flags _ _ _ _ _ _ _ Hp)
      as (Hcfg1 & Hl1 & Hb1).
    simpl in *. split_and!; [congruence..|].
    intros n. rewrite Hfiles. simpl.
    by rewrite (process_approval_decision_files _ _ _ _ _ _ _ n Hp).
Qed.
End monotone.

(** Two consecutive scans whose second listing contains the first. *)
Lemma recorded_files_monotone_listing
    (w w1 w1' w2 : world) (env1 env2 : scan_env)
    (decisions : list (string * string * string * Z))
    (name : string) (dc : device_config) :
  apply_event w (Scan env1) = Ok w1 →
  run w1 (resolutions decisions) = Ok w1' →
  apply_event w1' (Scan env2) = Ok w2 →
  lookup_device (cfg_devices (w_config w)) name = Some dc →
  enabled dc = true →
  bulk_collect_file_timestamps env1 name
    ⊆+ bulk_collect_file_timestamps env2 name →
  ∃ d1 d2,
    devices (w_state w1) !! name = Some d1 ∧
    devices (w_state w2) !! name = Some d2 ∧
    dev_total_files d1 ≤ dev_total_files d2 ∧
    ((∀ ts file, (ts, file) ∈ bulk_collect_file_timestamps env1 name →
                 ts < start_time env1) →
     dev_historical_files d1 ≤ dev_historical_files d2).
Proof.
  intros Hev1 Hres Hev2 Hdc He Hsub. simpl in Hev1, Hev2.
  destruct (run_scan (load w) env1) as [[r1 c1]|] eqn:Hrun1; simpl in Hev1;
    [|done].
  injection Hev1 as <-.
  destruct (run_scan (load w1') env2) as [[r2 c2]|] eqn:Hrun2; simpl in Hev2;
    [|done].
  injection Hev2 as <-.
  destruct (run_scan_records _ _ _ _ name dc Hrun1 Hdc He)
    as (d1 & Hd1 & Ht1 & Hh1 & _).
  destruct (run_scan_completed (load w) env1 r1 c1) as [Hls1 Hb1]; [|done|].
  { intros Hnil. apply (lookup_device_enabled (w_config w)) in Hdc; [|done].
    simpl in Hnil. rewrite Hnil in Hdc. by apply elem_of_nil in Hdc. }
  apply run_resolutions in Hres as (Hcfg' & Hls' & Hb' & Hfiles).
  simpl in Hcfg', Hls', Hb', Hfiles.
  destruct (run_scan_records (load w1') env2 r2 c2 name dc Hrun2)
    as (d2 & Hd2 & Ht2 & _ & Hh2); [|done|].
  { simpl. rewrite Hcfg'.
    by rewrite (run_scan_devices_config _ _ _ _ Hrun1). }
  exists d1, d2. split_and!; [done|done| |].
  - rewrite Ht1, Ht2. unfold observed.
    apply submseteq_length in Hsub. lia.
  - intros Hold.
    specialize (Hh2 ltac:(simpl; congruence) (start_time env1)
                  ltac:(simpl; congruence)).
    assert (count_lt (start_time env1)
              ((bulk_collect_file_timestamps env1 name).*1)
            = length (bulk_collect_file_timestamps env1 name)) as Hall.
    { rewrite count_lt_all, length_fmap; [done|].
      intros t ([ts file] & -> & Hin)%list_elem_of_fmap. by eapply Hold. }
    assert (count_lt (start_time env1)
              ((bulk_collect_file_timestamps env1 name).*1)
            ≤ count_lt (start_time env1)
                ((bulk_collect_file_timestamps env2 name).*1))%nat as Hmono.
    { apply filter_length_submseteq. by apply fmap_submseteq. }
    unfold observed in Hh1. lia.
Qed.

Section folders.
Variable suffix : string → string.
Variable lower : string → string.
Variable path_match : string → string → bool.
Implicit Types (f : file_filter) (dirs : string → directory).

Lemma bulk_collect_of_directories f dirs t clock ids name :
  bulk_collect_file_timestamps
    (env_of_directories suffix lower path_match f dirs t clock ids) name
  = bulk_collect_directory suffix lower path_match f (dirs name).
Proof.
  unfold bulk_collect_file_timestamps. simpl. by destruct (dirs name).
Qed.

Lemma bulk_collect_directory_submseteq f dir1 dir2 :
  (∀ entries1, dir1 = Listing entries1 →
     ∃ entries2, dir2 = Listing entries2 ∧ entries1 ⊆+ entries2) →
  bulk_collect_directory suffix lower path_match f dir1
  ⊆+ bulk_collect_directory suffix lower path_match f dir2.
Proof.
  intros Hkept. destruct dir1 as [| |entries1]; simpl;
    [apply submseteq_nil_l..|].
  destruct (Hkept entries1 eq_refl) as (entries2 & -> & Hsub). simpl.
  rewrite !sort_by_timestamp_perm. by apply collect_entries_submseteq.
Qed.
End folders.

(** C7, as the code has it. Take two consecutive scan cycles that return,
    under one file filter and with any batch of approval decisions in
    between, and an enabled device such that, if the first cycle could
    enumerate the inbox, the second can too and is yielded every entry
    that the first was yielded, unchanged. Then the recorded total does
    not decrease; and the recorded historical count does not decrease
    either, provided every file collected by the first cycle is stamped
    strictly before the start instant of that cycle. *)
Theorem recorded_files_monotone
    (suffix lower : string → string) (path_match : string → string → bool)
    (f : file_filter) (dirs1 dirs2 : string → directory)
    (t1 t2 : Z) (clock1 clock2 : string → Z) (ids1 ids2 : string → string)
    (w w1 w1' w2 : world)
    (decisions : list (string * string * string * Z))
    (name : string) (dc : device_config) :
  let env1 :=
    env_of_directories suffix lower path_match f dirs1 t1 clock1 ids1 in
  let env2 :=
    env_of_directories suffix lower path_match f dirs2 t2 clock2 ids2 in
  apply_event w (Scan env1) = Ok w1 →
  run w1 (resolutions decisions) = Ok w1' →
  apply_event w1' (Scan env2) = Ok w2 →
  lookup_device (cfg_devices (w_config w)) name = Some dc →
  enabled dc = true →
  (∀ entries1, dirs1 name = Listing entries1 →
     ∃ entries2, dirs2 name = Listing entries2 ∧ entries1 ⊆+ entries2) →
  ∃ d1 d2,
    devices (w_state w1) !! name = Some d1 ∧
    devices (w_state w2) !! name = Some d2 ∧
    dev_total_files d1 ≤ dev_total_files d2 ∧
    ((∀ entries1 e mtime,
        dirs1 name = Listing entries1 → e ∈ entries1 →
        accepted suffix lower path_match f e mtime → mtime < t1) →
     dev_historical_files d1 ≤ dev_historical_files d2).
Proof.
  intros env1 env2 Hev1 Hres Hev2 Hdc He Hkept.
  destruct (recorded_files_monotone_listing w w1 w1' w2 env1 env2 decisions
              name dc Hev1 Hres Hev2 Hdc He) as (d1 & d2 & Hd1 & Hd2 & Ht & Hh).
  { unfold env1, env2. rewrite !bulk_collect_of_directories.
    by apply bulk_collect_directory_submseteq. }
  exists d1, d2. split_and!; [done..|].
  intros Hold. apply Hh. intros ts file.
  unfold env1. rewrite bulk_collect_of_directories. simpl.
  destruct (dirs1 name) as [| |entries1] eqn:Hdir; simpl;
    [by intros ?%elem_of_nil..|].
  rewrite sort_by_timestamp_perm, collect_entries_elem.
  intros (e & Hin & _ & Hacc). by eapply Hold.
Qed.

Lemma recorded_files_monotone_witness :
  ∃ w1 w1' w2 d1 d1' d2,
    apply_event (initial_world (demo_config (Some false)))
      (Scan (folder_env (λ _, Listing (unit_entries 300 200)) 1000)) = Ok w1 ∧
    run w1 (resolutions [("a1b2c3d4", "APPROVE", "alice", 1200)]%string)
    = Ok w1' ∧
    apply_event w1'
      (Scan (folder_env
               (λ _, Listing (unit_entries 300 200 ++ unit_entries 1 1500))
               2000)) = Ok w2 ∧
    devices (w_state w1) !! "dev1"%string = Some d1 ∧
    devices (w_state w1') !! "dev1"%string = Some d1' ∧
    devices (w_state w2) !! "dev1"%string = Some d2 ∧
    current_tier d1 = "24h"%string ∧ current_tier d1' = "12h"%string ∧
    dev_total_files d1 ≤ dev_total_files d2 ∧
    dev_historical_files d1 ≤ dev_historical_files d2.
Proof.
  destruct (apply_event (initial_world (demo_config (Some false)))
              (Scan (folder_env (λ _, Listing (unit_entries 300 200)) 1000)))
    as [w1|] eqn:Hev1; [|vm_compute in Hev1; discriminate Hev1].
  destruct (run w1 (resolutions [("a1b2c3d4", "APPROVE", "alice", 1200)]%string))
    as [w1'|] eqn:Hres;
    [|vm_compute in Hev1; injection Hev1 as <-;
      vm_compute in Hres; discriminate Hres].
  destruct (apply_event w1'
              (Scan (folder_env
                       (λ _, Listing (unit_entries 300 200
                                      ++ unit_entries 1 1500)) 2000)))
    as [w2|] eqn:Hev2;
    [|vm_compute in Hev1; injection Hev1 as <-;
      vm_compute in Hres; injection Hres as <-;
      vm_compute in Hev2; discriminate Hev2].
  destruct (recorded_files_monotone (λ name, name) (λ ext, ext) String.eqb
              accept_all
              (λ _, Listing (unit_entries 300 200))
              (λ _, Listing (unit_entries 300 200 ++ unit_entries 1 1500))
              1000 2000 (λ _, 1000) (λ _, 2000)
              (λ _, "a1b2c3d4"%string) (λ _, "a1b2c3d4"%string)
              (initial_world (demo_config (Some false))) w1 w1' w2
              [("a1b2c3d4", "APPROVE", "alice", 1200)]%string
              "dev1" (DeviceConfig true None (Some 100)))
    as (d1 & d2 & Hd1 & Hd2 & Htotal & Hhist).
  - exact Hev1.
  - exact Hres.
  - exact Hev2.
  - reflexivity.
  - reflexivity.
  - intros entries1 [= <-]. eexists. split; [reflexivity|].
    apply submseteq_inserts_r. reflexivity.
  - assert (∃ d1', devices (w_state w1') !! "dev1"%string = Some d1' ∧
                   current_tier d1' = "12h"%string) as (d1' & Hd1' & Htier').
    { vm_compute in Hev1. injection Hev1 as <-.
      vm_compute in Hres. injection Hres as <-.
      eexists. split; reflexivity. }
    exists w1, w1', w2, d1, d1', d2.
    split_and!; [reflexivity|exact Hres|exact Hev2|exact Hd1|exact Hd1'
                |exact Hd2| |exact Htier'|exact Htotal|].
    + vm_compute in Hev1. injection Hev1 as <-.
      vm_compute in Hd1. injection Hd1 as <-. reflexivity.
    + apply Hhist. intros entries1 e mtime [= <-] Hin (_ & size & Hstat & _).
      apply elem_of_replicate in Hin as [-> _].
      injection Hstat as _ <-. reflexivity.
Defined.

(** C7 as stated fails in three ways, the inbox losing no file.
    Historical count, inbox untouched: in bootstrap mode the first scan,
    started at 1000, records the only file (stamped 1500) as historical;
    the second scan finds the very same inbox, takes 1000 as cutoff, and
    records 0 historical files. Total, folder not enumerable: the first
    scan records 3 files; at the second the enumeration of the folder
    raises, nothing is collected, and the recorded total is 0.
    Historical count, file rewritten: the first scan records the only
    file (stamped 50, before the production start) as historical; the
    file is rewritten at 1500, and the second scan records 0 historical
    files. *)
Lemma recorded_files_decrease_counterexample :
  (∃ w1 w2 d1 d2,
     apply_event (initial_world (demo_config (Some true)))
       (Scan (folder_env (λ _, Listing (unit_entries 1 1500)) 1000)) = Ok w1 ∧
     apply_event w1
       (Scan (folder_env (λ _, Listing (unit_entries 1 1500)) 2000)) = Ok w2 ∧
     devices (w_state w1) !! "dev1"%string = Some d1 ∧
     devices (w_state w2) !! "dev1"%string = Some d2 ∧
     dev_historical_files d1 = 1 ∧ dev_historical_files d2 = 0) ∧
  (∃ w1 w2 d1 d2,
     apply_event (initial_world (demo_config (Some false)))
       (Scan (folder_env (λ _, Listing (unit_entries 3 200)) 1000)) = Ok w1 ∧
     apply_event w1 (Scan (folder_env (λ _, Unreadable) 2000)) = Ok w2 ∧
     devices (w_state w1) !! "dev1"%string = Some d1 ∧
     devices (w_state w2) !! "dev1"%string = Some d2 ∧
     dev_total_files d1 = 3 ∧ dev_total_files d2 = 0) ∧
  (∃ w1 w2 d1 d2,
     apply_event (initial_world (demo_config (Some false)))
       (Scan (folder_env (λ _, Listing (unit_entries 1 50)) 1000)) = Ok w1 ∧
     apply_event w1
       (Scan (folder_env (λ _, Listing (unit_entries 1 1500)) 2000)) = Ok w2 ∧
     devices (w_state w1) !! "dev1"%string = Some d1 ∧
     devices (w_state w2) !! "dev1"%string = Some d2 ∧
     dev_historical_files d1 = 1 ∧ dev_historical_files d2 = 0).
Proof. split_and!; eexists _, _, _, _; split_and!; reflexivity. Qed.

(** * Further properties of the code *)

(** ** Collection of the timestamps *)

(** X1. The listing that a scan works on is the sorted collection of the
    folder: it is ascending by timestamp, and it holds exactly the
    regular files whose [stat()] succeeds and which the filter accepts;
    a missing or unreadable folder gives the empty listing. *)
Theorem collected_listing_is_sorted_selection
    (suffix lower : string → string) (path_match : string → string → bool)
    (f : file_filter) (dirs : string → directory)
    (t : Z) (clock : string → Z) (ids : string → string) (name : string) :
  let env := env_of_directories suffix lower path_match f dirs t clock ids in
  bulk_collect_file_timestamps env name
  = bulk_collect_directory suffix lower path_match f (dirs name) ∧
  ascending (bulk_collect_file_timestamps env name) ∧
  (∀ mtime file,
     (mtime, file) ∈ bulk_collect_file_timestamps env name ↔
     ∃ entries e, dirs name = Listing entries ∧ e ∈ entries ∧
                  de_name e = file ∧
                  accepted suffix lower path_match f e mtime) ∧
  (dirs name = Missing ∨ dirs name = Unreadable →
   bulk_collect_file_timestamps env name = []).
Proof.
  intros env.
  assert (bulk_collect_file_timestamps env name
          = bulk_collect_directory suffix lower path_match f (dirs name))
    as Heq.
  { unfold bulk_collect_file_timestamps, env; simpl.
    by destruct (dirs name). }
  split_and!; [done|apply bulk_collect_ascending| |].
  - intros mtime file. rewrite Heq.
    destruct (dirs name) as [| |entries] eqn:Hdir; simpl.
    + split; [by intros ?%elem_of_nil|]. by intros (? & ? & ? & _).
    + split; [by intros ?%elem_of_nil|]. by intros (? & ? & ? & _).
    + rewrite sort_by_timestamp_perm, collect_entries_elem. split.
      * intros (e & ? & ? & ?). by exists entries, e.
      * intros (entries' & e & [= <-] & ? & ? & ?). by exists e.
  - rewrite Heq. by intros [-> | ->].
Qed.

(** X2. The sort is stable and loses nothing: the sorted listing is a
    rearrangement of the collected files, and the files that carry one
    and the same timestamp keep the order in which the enumeration
    yielded them. *)
Theorem sort_by_timestamp_stable (l : list entry) (t : Z) :
  sort_by_timestamp l ≡ₚ l ∧
  length (sort_by_timestamp l) = length l ∧
  filter (λ x : entry, x.1 = t) (sort_by_timestamp l)
  = filter (λ x : entry, x.1 = t) l.
Proof.
  split_and!.
  - apply sort_by_timestamp_perm.
  - by rewrite sort_by_timestamp_perm.
  - induction l as [|e l IH]; [done|]. simpl.
    rewrite insert_entry_same_timestamp, !filter_cons, IH. done.
Qed.

(** X3. For a file of non-negative size the filter accepts exactly when
    the extension set is empty or holds the lower-cased suffix, no
    exclusion pattern matches the name, and the size reaches the
    configured minimum. *)
Theorem fast_file_filter_accepts
    (suffix lower : string → string) (path_match : string → string → bool)
    (f : file_filter) (entry_name : string) (entry_size : Z) :
  0 ≤ entry_size →
  fast_file_filter suffix lower path_match f entry_name entry_size = true ↔
  (include_extensions f = ∅ ∨ lower (suffix entry_name) ∈ include_extensions f) ∧
  (∀ pattern, pattern ∈ exclude_patterns f →
              path_match entry_name pattern = false) ∧
  min_file_size f ≤ entry_size.
Proof.
  intros Hsize. unfold fast_file_filter.
  assert (existsb (path_match entry_name) (exclude_patterns f) = false ↔
          ∀ pattern, pattern ∈ exclude_patterns f →
                     path_match entry_name pattern = false) as Hex.
  { induction (exclude_patterns f) as [|p ps IH]; simpl.
    - split; [|done]. by intros _ p ?%elem_of_nil.
    - rewrite orb_false_iff, IH. split.
      + intros [Hp Hps] q [->|?]%elem_of_cons; [done|by apply Hps].
      + intros Hall. split; [apply Hall; left|].
        intros q ?. apply Hall. by right. }
  destruct (existsb _ _) eqn:Hexb.
  - repeat case_bool_decide; simpl; split; try done;
      intros (_ & Hall & _); apply Hex in Hall; done.
  - destruct Hex as [Hex _]. specialize (Hex eq_refl).
    repeat case_bool_decide; simpl; split; try done;
      try (intros (Hext & _ & Hmin); first [lia | by destruct Hext]);
      intros _; (split_and!; [|done|lia]); tauto.
Qed.

(** ** The advancement gate *)

Lemma eligible_tier_iff
    (requirements : tier_requirements) (tier tier' : string) (cnt : Z) :
  eligible_tier requirements tier cnt = Some tier' ↔
  next_tier tier = Some tier' ∧
  ∃ thr, threshold requirements tier = Some thr ∧ thr ≤ cnt.
Proof.
  assert (∀ (thr : Z) (a b : string),
            (if bool_decide (thr ≤ cnt) then Some a else None) = Some b ↔
            Some a = Some b ∧ ∃ thr', Some thr = Some thr' ∧ thr' ≤ cnt)
    as Hcase.
  { intros thr a b. case_bool_decide; split.
    - intros ->. split; [done|]. by exists thr.
    - by intros [-> _].
    - done.
    - intros [_ (thr' & [= <-] & ?)]. lia. }
  unfold eligible_tier, threshold, next_tier, tier_sequence.
  destruct (decide (tier = "24h"%string)) as [->|H1]; [apply Hcase|].
  destruct (decide (tier = "12h"%string)) as [->|H2]; [apply Hcase|].
  destruct (decide (tier = "6h"%string)) as [->|H3]; [apply Hcase|].
  destruct (decide (tier = "3h"%string)) as [->|H4]; [apply Hcase|].
  rewrite !(bool_decide_eq_false_2 (tier = _)) by done. simpl.
  split; [done|]. by intros [_ (thr & ? & _)].
Qed.

(** X4. The chain of tests of the advancement check is a table lookup:
    a tier is proposed exactly when the current tier has a threshold, the
    count has reached it, and the proposed tier is the next one of the
    fixed sequence. *)
Theorem eligible_tier_is_threshold_lookup
    (requirements : tier_requirements) (tier tier' : string) (cnt : Z) :
  eligible_tier requirements tier cnt = Some tier' ↔
  next_tier tier = Some tier' ∧
  ∃ thr, threshold requirements tier = Some thr ∧ thr ≤ cnt.
Proof. apply eligible_tier_iff. Qed.

Section gate.
Implicit Types (c : counter) (env : scan_env) (name : string)
  (d : device_state) (fc : file_counts).

(** The record on which the advancement check runs. *)
Lemma update_device_state_not_pending c env name fc d0 :
  starts_from c env name d0 →
  approval_status d0 ≠ pending_status →
  let d2 :=
    set_count (count d0 + new_files fc)
      (set_production_start (get_device_production_start_date c env name)
         (set_files (total_files fc) (historical_files fc) d0)) in
  update_device_state c env name fc
  = Ok (check_and_handle_tier_advancement (store_device name d2 c) env name d2).
Proof.
  intros Hstart Hnp d2. unfold update_device_state.
  assert (match devices (state c) !! name with
          | Some d => Ok d
          | None => initialize_device_state c env name
          end = Ok d0) as ->.
  { destruct Hstart as [-> | [-> ->]]; done. }
  simpl. by rewrite bool_decide_eq_false_2.
Qed.

Lemma advancement_gate_holds c env name fc d0 :
  starts_from c env name d0 →
  approval_status d0 ≠ pending_status →
  ∃ c' d',
    update_device_state c env name fc = Ok c' ∧
    devices (state c') !! name = Some d' ∧
    count d' = count d0 + new_files fc ∧
    current_tier d' = current_tier d0 ∧
    (((current_tier d0 ∉ cfg_excluded_tiers (config c)) ∧
      ∃ thr, threshold (cfg_tier_requirements (config c)) (current_tier d0)
             = Some thr ∧ thr ≤ count d0 + new_files fc) →
     ∃ tier',
       next_tier (current_tier d0) = Some tier' ∧
       approval_status d' = pending_status ∧
       pending_approval_id d' = Some (fresh_id env name) ∧
       pending (pending_approvals c')
       = <[fresh_id env name :=
             request_for c env name (current_tier d0) tier'
               (count d0 + new_files fc)]> (pending (pending_approvals c)) ∧
       history (pending_approvals c') = history (pending_approvals c)) ∧
    (¬ ((current_tier d0 ∉ cfg_excluded_tiers (config c)) ∧
        ∃ thr, threshold (cfg_tier_requirements (config c)) (current_tier d0)
               = Some thr ∧ thr ≤ count d0 + new_files fc) →
     pending_approvals c' = pending_approvals c ∧
     approval_status d' = approval_status d0 ∧
     pending_approval_id d' = pending_approval_id d0).
Proof.
  intros Hstart Hnp.
  rewrite (update_device_state_not_pending c env name fc d0) by done.
  unfold check_and_handle_tier_advancement. simpl.
  case_bool_decide as Hex.
  { eexists _, _. split; [done|]. simpl. rewrite lookup_insert_eq.
    split_and!; [done..| |done].
    by intros [? _]. }
  destruct (eligible_tier _ _ _) as [tier'|] eqn:Hel.
  - apply eligible_tier_iff in Hel as [Hnext Hthr].
    rewrite bool_decide_eq_true_2 by by eapply next_tier_differs.
    eexists _, _. split; [done|]. simpl. rewrite lookup_insert_eq.
    split_and!; [done..| |].
    + intros _. by exists tier'.
    + intros []. done.
  - eexists _, _. split; [done|]. simpl. rewrite lookup_insert_eq.
    split_and!; [done..| |done].
    intros [_ (thr & Hthr & Hle)].
    destruct (next_tier (current_tier d0)) as [tier'|] eqn:Hnext.
    + assert (eligible_tier (cfg_tier_requirements (config c))
                (current_tier d0) (count d0 + new_files fc) = Some tier')
        as Hel'.
      { apply eligible_tier_iff. split; [done|]. by exists thr. }
      congruence.
    + revert Hthr Hnext. unfold threshold, next_tier, tier_sequence. simpl.
      repeat case_decide; done.
Qed.
End gate.

(** X5. The handling of a device that is not pending approval adds the
    new files to its count and keeps its tier; a request is raised
    exactly when the tier is not excluded and the new count reaches the
    threshold of the tier. The request then proposes the next tier,
    records the new count, is stored under the drawn id, and the device
    becomes PENDING_APPROVAL with that id; otherwise the approval store,
    the status and the back-reference are left as they were. *)
Theorem advancement_gate
    (c : counter) (env : scan_env) (name : string) (fc : file_counts)
    (d0 : device_state) :
  starts_from c env name d0 →
  approval_status d0 ≠ pending_status →
  ∃ c' d',
    update_device_state c env name fc = Ok c' ∧
    devices (state c') !! name = Some d' ∧
    count d' = count d0 + new_files fc ∧
    current_tier d' = current_tier d0 ∧
    (((current_tier d0 ∉ cfg_excluded_tiers (config c)) ∧
      ∃ thr, threshold (cfg_tier_requirements (config c)) (current_tier d0)
             = Some thr ∧ thr ≤ count d0 + new_files fc) →
     ∃ tier',
       next_tier (current_tier d0) = Some tier' ∧
       approval_status d' = pending_status ∧
       pending_approval_id d' = Some (fresh_id env name) ∧
       pending (pending_approvals c')
       = <[fresh_id env name :=
             request_for c env name (current_tier d0) tier'
               (count d0 + new_files fc)]> (pending (pending_approvals c)) ∧
       history (pending_approvals c') = history (pending_approvals c)) ∧
    (¬ ((current_tier d0 ∉ cfg_excluded_tiers (config c)) ∧
        ∃ thr, threshold (cfg_tier_requirements (config c)) (current_tier d0)
               = Some thr ∧ thr ≤ count d0 + new_files fc) →
     pending_approvals c' = pending_approvals c ∧
     approval_status d' = approval_status d0 ∧
     pending_approval_id d' = pending_approval_id d0).
Proof. apply advancement_gate_holds. Qed.

(** ** What scans and resolutions keep *)

Section keeping.
Implicit Types (c : counter) (env : scan_env) (name n : string)
  (d : device_state) (fc : file_counts) (w : world).

(** The three ways in which the handling of a device ends. *)
Lemma update_device_state_result c env name fc c' :
  update_device_state c env name fc = Ok c' →
  ∃ d0, starts_from c env name d0 ∧
    ((approval_status d0 = pending_status ∧
      c' = store_device name (refreshed c env name fc d0) c) ∨
     (approval_status d0 ≠ pending_status ∧
      let d2 := set_count (count d0 + new_files fc)
                  (refreshed c env name fc d0) in
      (c' = store_device name d2 c ∨
       ∃ tier, next_tier (current_tier d0) = Some tier ∧
               c' = raised (store_device name d2 c) env name d2 tier))).
Proof.
  unfold update_device_state.
  destruct (match devices (state c) !! name with
            | Some d => Ok d
            | None => initialize_device_state c env name
            end) as [d0|] eqn:Hd0; simpl; [|done].
  assert (starts_from c env name d0) as Hstart.
  { unfold starts_from. destruct (devices (state c) !! name).
    - left. congruence.
    - by right. }
  case_bool_decide as Hst; intros [= <-]; exists d0; (split; [done|]).
  - by left.
  - right. split; [done|]. simpl.
    match goal with
    | |- context [check_and_handle_tier_advancement ?c0 env name ?d2] =>
        destruct (check_and_handle_cases c0 env name d2)
          as [->|(tier & [Hnext _]%eligible_tier_next & ->)]
    end; [by left|right; by exists tier].
Qed.

Lemma starts_from_new c env name d0 :
  devices (state c) !! name = None → starts_from c env name d0 →
  count d0 = 0 ∧ approval_status d0 = "NONE"%string ∧
  pending_approval_id d0 = None.
Proof.
  intros Hnone [Hsome|[_ Hinit]]; [congruence|].
  unfold initialize_device_state in Hinit.
  destruct (lookup_device _ _); [|done]. by injection Hinit as <-.
Qed.

Lemma scan_new_files_nonneg c env name dc fc :
  scan_device_optimized c env name dc = Ok fc → 0 ≤ new_files fc.
Proof.
  intros Hscan. destruct (enabled dc) eqn:He.
  - destruct (scan_device_optimized_counts c env name dc fc He Hscan)
      as (? & ? & ?). lia.
  - revert Hscan. unfold scan_device_optimized. rewrite He. simpl.
    by intros [= <-].
Qed.

Lemma update_device_state_grown c env name fc c' n d :
  0 ≤ new_files fc →
  grown_from d (devices (state c) !! n) →
  update_device_state c env name fc = Ok c' →
  grown_from d (devices (state c') !! n).
Proof.
  intros Hnew (d1 & Hd1 & Hc1 & Ht1 & Hdd1) Hup.
  destruct (decide (n = name)) as [->|Hne].
  2:{ erewrite update_device_state_other; [|done..]. by exists d1. }
  destruct (update_device_state_result c env name fc c' Hup)
    as (d0 & [Hd0|[Hnone _]] & Hcases); [|congruence].
  assert (d0 = d1) as -> by congruence.
  destruct Hcases as [[_ ->]|[_ [->|(tier & _ & ->)]]]; simpl;
    rewrite lookup_insert_eq; eexists; (split; [done|]); simpl;
    split_and!; (done || lia).
Qed.
End keeping.

Section scanning.
Implicit Types (c : counter) (env : scan_env) (name n : string)
  (d : device_state) (fc : file_counts) (w : world).

Lemma scan_devices_loop_grown names env acc c results c' n d :
  grown_from d (devices (state c) !! n) →
  scan_devices_loop names env acc c = Ok (results, c') →
  grown_from d (devices (state c') !! n).
Proof.
  revert acc c. induction names as [|name names IH]; intros acc c Hg; simpl.
  - by intros [= _ <-].
  - destruct (lookup_device _ _) as [dc|]; [|done].
    destruct (scan_device_optimized c env name dc) as [fc|] eqn:Hscan; simpl;
      [|done].
    destruct (update_device_state c env name fc) as [c1|] eqn:Hup; simpl;
      [|done].
    apply IH. eapply update_device_state_grown; [|done..].
    by eapply scan_new_files_nonneg.
Qed.

Lemma run_scan_devices c env r c' :
  run_scan c env = Ok (r, c') →
  ∃ results c1,
    scan_devices_loop (enabled_devices (config c)) env [] c = Ok (results, c1) ∧
    devices (state c') = devices (state c1) ∧
    pending_approvals c' = pending_approvals c1.
Proof.
  intros (results & c1 & Hloop & _ & Hrc)%run_scan_returned.
  exists results, c1. split; [done|].
  destruct results; injection Hrc as _ ->; [done|].
  by destruct (finish_scan_effect c1 (start_time env)) as (-> & -> & _).
Qed.

(** The pending set after the handling of a device: an id keeps its
    request unless it is the id drawn for this device. *)
Lemma update_device_state_pending c env name fc c' id :
  update_device_state c env name fc = Ok c' →
  pending (pending_approvals c') !! id = pending (pending_approvals c) !! id ∨
  (id = fresh_id env name ∧
   ∃ r, pending (pending_approvals c') !! id = Some r ∧
        device_name r = name ∧ status r = "PENDING"%string).
Proof.
  intros (d0 & _ & [[_ ->]|[_ [->|(tier & _ & ->)]]])%update_device_state_result;
    simpl; [by left..|].
  rewrite lookup_insert. case_decide as Hid; [|by left].
  right. split; [done|]. by eexists.
Qed.

Lemma scan_devices_loop_pending names env acc c results c' id :
  scan_devices_loop names env acc c = Ok (results, c') →
  pending (pending_approvals c') !! id = pending (pending_approvals c) !! id ∨
  (∃ n r, n ∈ names ∧ id = fresh_id env n ∧
          pending (pending_approvals c') !! id = Some r ∧
          device_name r = n ∧ status r = "PENDING"%string).
Proof.
  revert acc c. induction names as [|name names IH]; intros acc c; simpl.
  - intros [= _ <-]. by left.
  - destruct (lookup_device _ _) as [dc|]; [|done].
    destruct (scan_device_optimized c env name dc) as [fc|]; simpl; [|done].
    destruct (update_device_state c env name fc) as [c1|] eqn:Hup; simpl;
      [|done].
    intros [Hsame|(n & r & Hn & ? & ? & ? & ?)]%IH.
    + rewrite Hsame.
      destruct (update_device_state_pending c env name fc c1 id Hup)
        as [?|(-> & r & Hr & ? & ?)]; [by left|].
      right. exists name, r. split_and!; [left|done|congruence|done..].
    + right. exists n, r. split_and!; [by right|done..].
Qed.
End scanning.

(** X6. A scan never takes progress away: every recorded device is still
    recorded afterwards, in the same tier, with a count at least as
    large. *)
Theorem scan_never_lowers_count
    (c c' : counter) (env : scan_env) (r : option report)
    (n : string) (d : device_state) :
  run_scan c env = Ok (r, c') →
  devices (state c) !! n = Some d →
  ∃ d', devices (state c') !! n = Some d' ∧
        count d ≤ count d' ∧ current_tier d' = current_tier d.
Proof.
  intros (results & c1 & Hloop & -> & _)%run_scan_devices Hd.
  destruct (scan_devices_loop_grown (enabled_devices (config c)) env [] c
              results c1 n d) as (d' & ? & ? & ? & _); [|done|by exists d'].
  exists d. split_and!; [done|lia|done..].
Qed.

(** X7. A device that is not enabled in the configuration is skipped by
    the scan: its record, if there is one, is left exactly as it was. *)
Theorem disabled_device_is_skipped
    (c c' : counter) (env : scan_env) (r : option report) (n : string) :
  run_scan c env = Ok (r, c') →
  n ∉ enabled_devices (config c) →
  devices (state c') !! n = devices (state c) !! n.
Proof.
  intros (results & c1 & Hloop & -> & _)%run_scan_devices Hn.
  by eapply scan_devices_loop_other.
Qed.

(** X8. A scan leaves the history alone and removes no open request: an
    id of the pending set keeps its request, unless it is the id drawn
    for a request that this scan raises for an enabled device, in which
    case it now holds that new request. *)
Theorem scan_keeps_open_requests
    (c c' : counter) (env : scan_env) (r : option report) (id : string) :
  run_scan c env = Ok (r, c') →
  history (pending_approvals c') = history (pending_approvals c) ∧
  (pending (pending_approvals c') !! id = pending (pending_approvals c) !! id ∨
   ∃ n req, n ∈ enabled_devices (config c) ∧ id = fresh_id env n ∧
            pending (pending_approvals c') !! id = Some req ∧
            device_name req = n ∧ status req = "PENDING"%string).
Proof.
  intros (results & c1 & Hloop & _ & ->)%run_scan_devices. split.
  - by apply scan_devices_loop_settings in Hloop as (_ & _ & _ & _ & ?).
  - by eapply scan_devices_loop_pending.
Qed.

Lemma scan_never_lowers_count_witness :
  ∃ r c' d',
    run_scan (load (demo_world false 1000 (demo_device 1 1 0)))
      (demo_env 2000 (unit_files 1 1000)) = Ok (r, c') ∧
    devices (state c') !! "dev1"%string = Some d' ∧ 1 ≤ count d'.
Proof.
  destruct (run_scan (load (demo_world false 1000 (demo_device 1 1 0)))
              (demo_env 2000 (unit_files 1 1000))) as [[r c']|] eqn:Hrun;
    [|vm_compute in Hrun; discriminate Hrun].
  destruct (scan_never_lowers_count _ _ _ _ "dev1" (demo_device 1 1 0) Hrun)
    as (d' & Hd' & Hle & _); [reflexivity|].
  exists r, c', d'. split_and!; [reflexivity|exact Hd'|exact Hle].
Defined.

Lemma disabled_device_is_skipped_witness :
  ∃ r c',
    run_scan (load (demo_world false 1000 (demo_device 1 1 0)))
      (demo_env 2000 (unit_files 1 1000)) = Ok (r, c') ∧
    devices (state c') !! "dev2"%string = None.
Proof.
  destruct (run_scan (load (demo_world false 1000 (demo_device 1 1 0)))
              (demo_env 2000 (unit_files 1 1000))) as [[r c']|] eqn:Hrun;
    [|vm_compute in Hrun; discriminate Hrun].
  exists r, c'. split; [reflexivity|].
  rewrite (disabled_device_is_skipped _ _ _ _ "dev2" Hrun); [reflexivity|].
  vm_compute. intros Hin. apply elem_of_cons in Hin as [Heq|Hin];
    [discriminate Heq|by apply elem_of_nil in Hin].
Defined.

Lemma scan_keeps_open_requests_witness :
  ∃ r c',
    run_scan (load scenario_A_world) (demo_env 2000 (unit_files 400 200))
    = Ok (r, c') ∧
    history (pending_approvals c') = [].
Proof.
  destruct (run_scan (load scenario_A_world)
              (demo_env 2000 (unit_files 400 200))) as [[r c']|] eqn:Hrun;
    [|vm_compute in Hrun; discriminate Hrun].
  exists r, c'. split; [reflexivity|].
  destruct (scan_keeps_open_requests _ _ _ _ "a1b2c3d4" Hrun) as [Hhist _].
  rewrite Hhist. reflexivity.
Defined.

(** X25. What a scan leaves when it raises. The history is as it was,
    and no open request is lost: an id keeps its request unless it is
    the id drawn for a request that this scan raised for an enabled
    device before the exception, and that request is on disk. Either the
    state and the configuration are as they were -- the records of the
    devices handled, the one of a device that has just become
    PENDING_APPROVAL included, are lost -- or the exception is the
    [ZeroDivisionError] of the last log line and the scan is recorded
    as finished. *)
Theorem raising_scan_keeps_requests_not_state
    (w w' : world) (env : scan_env) (e : exn) (id : string) :
  apply_event w (Scan env) = Err (e, w') →
  history (w_approvals w') = history (w_approvals w) ∧
  (pending (w_approvals w') !! id = pending (w_approvals w) !! id ∨
   ∃ n req, n ∈ enabled_devices (w_config w) ∧ id = fresh_id env n ∧
            pending (w_approvals w') !! id = Some req ∧
            device_name req = n ∧ status req = "PENDING"%string) ∧
  ((w_state w' = w_state w ∧ w_config w' = w_config w) ∨
   (e = ZeroDivisionError ∧ end_time env = start_time env ∧
    last_scan (w_state w') = Some (start_time env) ∧
    bootstrap_completed (w_state w') = true)).
Proof.
  simpl. destruct (run_scan (load w) env) as [[r c]|f] eqn:Hrun; [done|].
  intros [= <- <-]. unfold left_on_disk.
  destruct (run_scan_raised _ _ _ Hrun)
    as [(-> & names' & results & [rest Hpre] & Hloop & _)
       |(-> & -> & _ & Hend & results & c1 & Hloop & _ & ->)]; simpl.
  - split_and!; [| |by left].
    + by apply scan_devices_loop_settings in Hloop as (_ & _ & _ & _ & ?).
    + destruct (scan_devices_loop_pending _ _ _ _ _ _ id Hloop)
        as [?|(n & req & Hn & ?)]; [by left|right].
      exists n, req. split; [|done]. simpl in Hpre. rewrite Hpre.
      apply elem_of_app. by left.
  - destruct (finish_scan_effect c1 (start_time env))
      as (_ & Hpa & Hb & Hl & _). simpl in Hpa, Hb, Hl.
    split_and!; [| |right; split_and!; done].
    + rewrite Hpa.
      by apply scan_devices_loop_settings in Hloop as (_ & _ & _ & _ & ?).
    + rewrite Hpa. by apply (scan_devices_loop_pending _ _ _ _ _ _ id Hloop).
Qed.

Lemma raising_scan_keeps_requests_not_state_witness :
  w_state interrupted_world = create_initial_state ∧
  pending (w_approvals interrupted_world) !! "a1b2c3d4"%string
  = Some scenario_A_request.
Proof.
  destruct (raising_scan_keeps_requests_not_state
              (initial_world (demo_config (Some false))) interrupted_world
              (stalled_env 1000 (unit_files 300 200)) ZeroDivisionError
              "a1b2c3d4") as (_ & Hreq & Hstate).
  - reflexivity.
  - split; [reflexivity|].
    destruct Hreq as [Hsame|(n & req & _ & _ & Hreq & _)]; reflexivity.
Defined.

(** ** Properties of every history of invocations *)

Section histories.
Implicit Types (c : counter) (w : world) (e : event) (es : list event).

Lemma reachable_invariant (P : world → Prop) w :
  (∀ cfg, P (initial_world cfg)) →
  (∀ w e w', consistent_world w → P w → apply_event w e = Ok w' → P w') →
  reachable w → P w.
Proof.
  intros Hinit Hstep (cfg & es & Hrun).
  assert (∀ w0, consistent_world w0 → P w0 → run w0 es = Ok w → P w) as Hgen.
  { clear Hrun. induction es as [|e es IH]; intros w0 Hc0 HP0; simpl.
    - by intros [= <-].
    - destruct (apply_event w0 e) as [w1|] eqn:He; simpl; [|done].
      apply IH; [by eapply apply_event_consistent|by eapply Hstep]. }
  eapply Hgen; [apply initial_world_consistent|apply Hinit|done].
Qed.

Lemma apply_event_history w e w' :
  apply_event w e = Ok w' →
  history (w_approvals w) `prefix_of` history (w_approvals w').
Proof.
  destruct e as [env|id decision approver t|cfg]; simpl.
  - destruct (run_scan (load w) env) as [[r c]|] eqn:Hrun; simpl; [|done].
    intros [= <-]. simpl.
    apply run_scan_devices in Hrun as (results & c1 & Hloop & _ & ->).
    apply scan_devices_loop_settings in Hloop as (_ & _ & _ & _ & ->).
    done.
  - unfold process_approval_decision. simpl.
    destruct (pending (w_approvals w) !! id) as [r|]; simpl;
      [|by intros [= <-]].
    destruct (devices (w_state w) !! device_name r); simpl; [|done].
    intros [= <-]. simpl. by apply prefix_app_r.
  - by intros [= <-].
Qed.

Lemma leaves_history w e :
  history (w_approvals w) `prefix_of` history (w_approvals (leaves w e)).
Proof.
  unfold leaves.
  destruct (apply_event w e) as [w'|[exc w']] eqn:He;
    [by eapply apply_event_history|].
  destruct e as [env|id decision approver t|cfg]; simpl in He; [| |done].
  - destruct (run_scan (load w) env) as [[r c]|f] eqn:Hrun; [done|].
    injection He as _ <-.
    assert (history (pending_approvals (object f)) = history (w_approvals w))
      as Hsame.
    { destruct (run_scan_raised _ _ _ Hrun)
        as [(_ & names' & results & _ & Hloop & _)
           |(_ & _ & _ & _ & results & c1 & Hloop & _ & ->)];
        apply scan_devices_loop_settings in Hloop as (_ & _ & _ & _ & Hh);
        [done|].
      by destruct (finish_scan_effect c1 (start_time env)) as (_ & -> & _). }
    unfold left_on_disk. destruct (state_saved f); simpl; by rewrite Hsame.
  - destruct (process_approval_decision _ _ _ _ _) as [[b c]|]; [done|].
    by injection He as _ <-.
Qed.

Lemma attainable_invariant (P : world → Prop) w :
  (∀ cfg, P (initial_world cfg)) →
  (∀ w e, P w → P (leaves w e)) →
  attainable w → P w.
Proof.
  intros Hinit Hstep (cfg & es & <-). unfold documents_after.
  generalize (Hinit cfg). generalize (initial_world cfg). clear Hinit.
  induction es as [|e es IH]; intros w0 HP; simpl; [done|].
  apply IH. by apply Hstep.
Qed.

(** Whatever an invocation leaves, the two flags of the state are either
    as they were or those of a finished scan. *)
Lemma leaves_flags w e :
  (last_scan (w_state (leaves w e)) = last_scan (w_state w) ∧
   bootstrap_completed (w_state (leaves w e))
   = bootstrap_completed (w_state w)) ∨
  (is_Some (last_scan (w_state (leaves w e))) ∧
   bootstrap_completed (w_state (leaves w e)) = true).
Proof.
  unfold leaves. destruct e as [env|id decision approver t|cfg]; simpl.
  - destruct (run_scan (load w) env) as [[r c]|f] eqn:Hrun; simpl.
    + apply run_scan_returned in Hrun as (results & c1 & Hloop & _ & Hrc).
      apply scan_devices_loop_settings in Hloop as (_ & _ & Hl & Hb & _).
      destruct results; injection Hrc as _ ->; [by left|right].
      destruct (finish_scan_effect c1 (start_time env))
        as (_ & _ & Hb' & _).
      split; [by eexists|exact Hb'].
    + unfold left_on_disk.
      destruct (run_scan_raised _ _ _ Hrun)
        as [[-> _]|(-> & _ & _ & _ & results & c1 & _ & _ & ->)];
        [by left|right].
      destruct (finish_scan_effect c1 (start_time env))
        as (_ & _ & Hb' & _).
      split; [by eexists|exact Hb'].
  - destruct (process_approval_decision _ _ _ _ _) as [[b c]|] eqn:Hp; simpl;
      [|by left].
    apply process_approval_decision_flags in Hp as (_ & -> & ->). by left.
  - by left.
Qed.

Lemma leaves_last_scan w e :
  (is_Some (last_scan (w_state w)) ↔ bootstrap_completed (w_state w) = true) →
  is_Some (last_scan (w_state (leaves w e))) ↔
  bootstrap_completed (w_state (leaves w e)) = true.
Proof.
  intros Hw. by destruct (leaves_flags w e) as [[-> ->]|[? ->]].
Qed.

Lemma attainable_last_scan w :
  attainable w →
  is_Some (last_scan (w_state w)) ↔ bootstrap_completed (w_state w) = true.
Proof.
  apply (attainable_invariant
    (λ w, is_Some (last_scan (w_state w)) ↔
          bootstrap_completed (w_state w) = true)).
  - intros cfg. simpl. split; [by intros [? ?]|done].
  - intros w0 e. apply leaves_last_scan.
Qed.

Lemma reachable_last_scan_completed w :
  reachable w → is_Some (last_scan (w_state w)) →
  bootstrap_completed (w_state w) = true.
Proof. intros Hreach%reachable_attainable. by apply attainable_last_scan. Qed.
End histories.

(** X9. The history of decisions is append-only: whatever sequence of
    scans, resolutions and configuration edits is invoked, and whichever
    of them raise, the history it started from is a prefix of the
    history on disk afterwards. *)
Theorem history_is_append_only (w : world) (es : list event) :
  history (w_approvals w)
    `prefix_of` history (w_approvals (documents_after w es)) ∧
  ∀ w', run w es = Ok w' →
        history (w_approvals w) `prefix_of` history (w_approvals w').
Proof.
  assert (history (w_approvals w)
            `prefix_of` history (w_approvals (documents_after w es))) as Hpre.
  { unfold documents_after. revert w.
    induction es as [|e es IH]; intros w; simpl; [done|].
    etrans; [apply (leaves_history w e)|apply IH]. }
  split; [done|]. intros w' Hrun. by rewrite <- (run_documents _ _ _ Hrun).
Qed.



(** X11. Whatever invocations have run, and whichever of them raised,
    the instant of the last scan is recorded exactly when bootstrap is
    completed; an incremental scan therefore always finds its cutoff. *)
Theorem last_scan_recorded_iff_bootstrap_completed (w : world) :
  attainable w →
  is_Some (last_scan (w_state w)) ↔ bootstrap_completed (w_state w) = true.
Proof. apply attainable_last_scan. Qed.

Lemma last_scan_recorded_iff_bootstrap_completed_witness :
  is_Some (last_scan (w_state scenario_A_world)).
Proof.
  apply last_scan_recorded_iff_bootstrap_completed.
  - exists (demo_config (Some false)), scenario_A_events. reflexivity.
  - reflexivity.
Defined.

(** ** The back-references *)

Section links.
Implicit Types (c : counter) (env : scan_env) (name n : string)
  (d : device_state) (fc : file_counts) (w : world).

(** Storing a record that carries the status and back-reference of the
    one it starts from. *)
Lemma store_device_linked c env name d0 d' :
  linked_counter c →
  starts_from c env name d0 →
  approval_status d' = approval_status d0 →
  pending_approval_id d' = pending_approval_id d0 →
  linked_counter (store_device name d' c).
Proof.
  intros [Hreq Hdev] Hstart Hst Hid. split; simpl.
  - intros id r Hr. destruct (Hreq id r Hr) as (d & Hd & Hpid).
    destruct (decide (name = device_name r)) as [Heq|Hne].
    + rewrite <- Heq in *. rewrite lookup_insert_eq. exists d'. split; [done|].
      destruct Hstart as [Hd0|[Hnone _]]; [|congruence].
      assert (d0 = d) as -> by congruence. congruence.
    + rewrite lookup_insert_ne by done. by exists d.
  - intros n d id. rewrite lookup_insert. case_decide as Hn.
    + intros [= <-] Hpid. rewrite Hst.
      destruct Hstart as [Hd0|[Hnone Hinit]].
      * eapply Hdev; [done|]. by rewrite <- Hid.
      * destruct (starts_from_new c env name d0 Hnone) as (_ & _ & Hnil);
          [by right|]. congruence.
    + apply Hdev.
Qed.

Lemma raised_linked c env name d tier :
  linked_counter c →
  devices (state c) !! name = Some d →
  approval_status d ≠ pending_status →
  linked_counter (raised c env name d tier).
Proof.
  intros [Hreq Hdev] Hd Hnp.
  assert (∀ id r, pending (pending_approvals c) !! id = Some r →
                  device_name r ≠ name) as Hother.
  { intros id r Hr <-. destruct (Hreq id r Hr) as (d' & Hd' & Hpid).
    assert (d' = d) as -> by congruence.
    by pose proof (Hdev _ _ _ Hd' Hpid). }
  split; simpl.
  - intros id r. rewrite lookup_insert. case_decide as Hid.
    + intros [= <-]. simpl. rewrite lookup_insert_eq. eexists. split; [done|].
      simpl. by rewrite Hid.
    + intros Hr. destruct (Hreq id r Hr) as (d' & Hd' & Hpid).
      rewrite lookup_insert_ne by (symmetry; by eapply Hother). by exists d'.
  - intros n d' id. rewrite lookup_insert. case_decide.
    + by intros [= <-].
    + apply Hdev.
Qed.

Lemma update_device_state_linked c env name fc c' :
  linked_counter c →
  update_device_state c env name fc = Ok c' →
  linked_counter c'.
Proof.
  intros Hl (d0 & Hstart & Hcases)%update_device_state_result.
  destruct Hcases as [[_ ->]|[Hnp [->|(tier & _ & ->)]]].
  - by eapply store_device_linked.
  - by eapply store_device_linked.
  - apply raised_linked; [by eapply store_device_linked| |done].
    simpl. by rewrite lookup_insert_eq.
Qed.

Lemma scan_devices_loop_linked names env acc c results c' :
  linked_counter c →
  scan_devices_loop names env acc c = Ok (results, c') →
  linked_counter c'.
Proof.
  revert acc c. induction names as [|name names IH]; intros acc c Hl; simpl.
  - by intros [= _ <-].
  - destruct (lookup_device _ _) as [dc|]; [|done].
    destruct (scan_device_optimized c env name dc) as [fc|]; simpl; [|done].
    destruct (update_device_state c env name fc) as [c1|] eqn:Hup; simpl;
      [|done].
    apply IH. by eapply update_device_state_linked.
Qed.

Lemma process_approval_decision_linked c id decision approver t b c' :
  linked_counter c →
  process_approval_decision c id decision approver t = Ok (b, c') →
  linked_counter c'.
Proof.
  intros [Hreq Hdev]. unfold process_approval_decision.
  destruct (pending (pending_approvals c) !! id) as [r|] eqn:Hr;
    [|by intros [= _ <-]].
  destruct (devices (state c) !! device_name r) as [d|] eqn:Hd; [|done].
  intros [= _ <-]. split; simpl.
  - intros id' r'. rewrite lookup_delete. case_decide as Hid; [done|].
    intros Hr'. destruct (Hreq id' r' Hr') as (d' & Hd' & Hpid').
    rewrite lookup_insert_ne; [by exists d'|].
    intros Heq. rewrite <- Heq in Hd'.
    destruct (Hreq id r Hr) as (d'' & Hd'' & Hpid''). congruence.
  - intros n d' id'. rewrite lookup_insert. case_decide.
    + by intros [= <-].
    + apply Hdev.
Qed.

Lemma apply_event_linked w e w' :
  linked (w_state w) (w_approvals w) →
  apply_event w e = Ok w' →
  linked (w_state w') (w_approvals w').
Proof.
  intros Hl. destruct e as [env|id decision approver t|cfg]; simpl.
  - destruct (run_scan (load w) env) as [[r c]|] eqn:Hrun; simpl; [|done].
    intros [= <-]. simpl.
    apply run_scan_devices in Hrun as (results & c1 & Hloop & Hdevs & Hpa).
    unfold linked. rewrite Hdevs, Hpa.
    by eapply (scan_devices_loop_linked _ env [] (load w)).
  - destruct (process_approval_decision _ _ _ _ _) as [[b c]|] eqn:Hp; simpl;
      [|done].
    intros [= <-]. by eapply (process_approval_decision_linked (load w)).
  - by intros [= <-].
Qed.

(** The half of the links that survives a scan that raises. *)
Lemma update_device_state_back_referenced c env name fc c' :
  back_referenced (state c) →
  update_device_state c env name fc = Ok c' →
  back_referenced (state c').
Proof.
  intros Hq (d0 & Hstart & Hcases)%update_device_state_result.
  assert (pending_approval_id d0 ≠ None → approval_status d0 = pending_status)
    as Hd0.
  { destruct Hstart as [Hd0|[Hnone Hinit]].
    - destruct (pending_approval_id d0) as [id|] eqn:Hid; [|done].
      intros _. by eapply Hq.
    - destruct (starts_from_new c env name d0 Hnone) as (_ & _ & ->);
        [by right|done]. }
  intros n d id.
  destruct Hcases as [[_ ->]|[_ [->|(tier & _ & ->)]]]; simpl;
    (destruct (decide (name = n)) as [->|Hne];
     [rewrite lookup_insert_eq; intros [= <-]; simpl; try done;
      intros Hid; apply Hd0; by rewrite Hid
     |rewrite !lookup_insert_ne by done; apply Hq]).
Qed.

Lemma scan_devices_loop_back_referenced names env acc c results c' :
  back_referenced (state c) →
  scan_devices_loop names env acc c = Ok (results, c') →
  back_referenced (state c').
Proof.
  revert acc c. induction names as [|name names IH]; intros acc c Hq; simpl.
  - by intros [= _ <-].
  - destruct (lookup_device _ _) as [dc|]; [|done].
    destruct (scan_device_optimized c env name dc) as [fc|]; simpl; [|done].
    destruct (update_device_state c env name fc) as [c1|] eqn:Hup; simpl;
      [|done].
    apply IH. by eapply update_device_state_back_referenced.
Qed.

Lemma process_approval_decision_back_referenced
    c id decision approver t b c' :
  back_referenced (state c) →
  process_approval_decision c id decision approver t = Ok (b, c') →
  back_referenced (state c').
Proof.
  intros Hq. unfold process_approval_decision.
  destruct (pending (pending_approvals c) !! id) as [r|];
    [|by intros [= _ <-]].
  destruct (devices (state c) !! device_name r) as [d|]; [|done].
  intros [= _ <-] n d' id'. simpl. rewrite lookup_insert.
  case_decide; [by intros [= <-]|apply Hq].
Qed.

Lemma leaves_back_referenced w e :
  back_referenced (w_state w) → back_referenced (w_state (leaves w e)).
Proof.
  intros Hq. unfold leaves.
  destruct e as [env|id decision approver t|cfg]; simpl; [| |done].
  - assert (∀ results c1,
              scan_devices_loop (enabled_devices (w_config w)) env [] (load w)
              = Ok (results, c1) →
              back_referenced
                (state (set_last_scan (start_time env)
                          (complete_bootstrap c1)))) as Hfinished.
    { intros results c1 Hloop%scan_devices_loop_back_referenced; [|done].
      unfold complete_bootstrap.
      by destruct (bootstrap_completed (state c1)). }
    destruct (run_scan (load w) env) as [[r c]|f] eqn:Hrun; simpl.
    + apply run_scan_returned in Hrun as (results & c1 & Hloop & _ & Hrc).
      destruct results; injection Hrc as _ ->; [|by eapply Hfinished].
      exact (scan_devices_loop_back_referenced _ _ _ (load w) _ _ Hq Hloop).
    + unfold left_on_disk.
      destruct (run_scan_raised _ _ _ Hrun)
        as [[-> _]|(-> & _ & _ & _ & results & c1 & Hloop & _ & ->)];
        [done|by eapply Hfinished].
  - destruct (process_approval_decision _ _ _ _ _) as [[b c]|] eqn:Hp; simpl;
      [|done].
    by eapply (process_approval_decision_back_referenced (load w)).
Qed.
End links.

(** X12. The back-references between the two documents. Whatever has
    happened before -- invocations that raised included -- a device that
    carries a [pending_approval_id] is PENDING_APPROVAL. As long as every
    invocation has returned, the device named by an open request exists,
    is PENDING_APPROVAL and carries the id of that request; on the
    documents that a scan leaves when it raises this need not hold (the
    request saved by the interrupted scan of C6 names a device that is
    not recorded). *)
Theorem requests_and_devices_are_linked (w : world) :
  attainable w →
  (∀ n d id, devices (w_state w) !! n = Some d →
     pending_approval_id d = Some id → approval_status d = pending_status) ∧
  (reachable w →
   ∀ id r, pending (w_approvals w) !! id = Some r →
     ∃ d, devices (w_state w) !! device_name r = Some d ∧
          pending_approval_id d = Some id ∧
          approval_status d = pending_status).
Proof.
  intros Hatt. split.
  - revert Hatt.
    apply (attainable_invariant (λ w, back_referenced (w_state w))).
    + intros cfg n d id. simpl. by rewrite lookup_empty.
    + intros w0 e. apply leaves_back_referenced.
  - intros Hreach.
    assert (linked (w_state w) (w_approvals w)) as [Hreq Hdev].
    { revert Hreach.
      apply (reachable_invariant (λ w, linked (w_state w) (w_approvals w))).
      - intros cfg. split; simpl.
        + intros id r. by rewrite lookup_empty.
        + intros n d id. by rewrite lookup_empty.
      - intros w0 e w1 _. apply apply_event_linked. }
    intros id r Hr. destruct (Hreq id r Hr) as (d & Hd & Hpid).
    exists d. split_and!; [done..|]. by eapply Hdev.
Qed.

Lemma requests_and_devices_are_linked_witness :
  ∃ d, devices (w_state twice_requested_world) !! "dev1"%string = Some d ∧
       approval_status d = pending_status.
Proof.
  destruct (requests_and_devices_are_linked twice_requested_world)
    as [Hdev _].
  - exists (demo_config (Some false)),
      [Scan (stalled_env 1000 (unit_files 300 200));
       Scan (second_env 2000 (unit_files 300 200))].
    reflexivity.
  - eexists. split; [reflexivity|].
    apply (Hdev "dev1"%string _ "e5f6a7b8"%string); reflexivity.
Defined.

(** X23. As long as every invocation has returned, a device has at most
    one open request; every open request is pending and proposes the
    tier that follows the current tier of its device, every request in
    the history proposes the tier that follows the one it was raised
    from, and the advancement check either leaves the counter alone or
    raises a request for the tier following the device's current one,
    never from the terminal tier 2h. (After a scan that raised, a device
    can have two open requests: see C6.) *)
Theorem one_open_request_for_next_tier (w : world) :
  reachable w →
  (∀ id1 id2 r1 r2,
     pending (w_approvals w) !! id1 = Some r1 →
     pending (w_approvals w) !! id2 = Some r2 →
     device_name r1 = device_name r2 → id1 = id2) ∧
  (∀ id r, pending (w_approvals w) !! id = Some r →
     status r = "PENDING"%string ∧
     ∃ d, devices (w_state w) !! device_name r = Some d ∧
          next_tier (current_tier d) = Some (proposed_tier r) ∧
          current_tier d ≠ "2h"%string) ∧
  (∀ r, r ∈ history (w_approvals w) →
     next_tier (req_current_tier r) = Some (proposed_tier r)) ∧
  (∀ env name d,
     check_and_handle_tier_advancement (load w) env name d = load w ∨
     ∃ tier, next_tier (current_tier d) = Some tier ∧
             current_tier d ≠ "2h"%string ∧
             check_and_handle_tier_advancement (load w) env name d
             = raised (load w) env name d tier).
Proof.
  intros [Hls Hp Hu Hh]%reachable_consistent. split_and!.
  - exact Hu.
  - intros id r Hr. destruct (Hp id r Hr) as (_ & Hst & Hnext & d & Hd & _ & Ht).
    split; [done|]. exists d. unfold proposes_next in Hnext.
    rewrite Ht. split_and!; [done..|].
    intros H2h. by rewrite H2h in Hnext.
  - exact Hh.
  - intros env name d.
    destruct (check_and_handle_cases (load w) env name d)
      as [->|(tier & [Hnext _]%eligible_tier_next & ->)]; [by left|].
    right. exists tier. split_and!; [done| |done].
    intros H2h. by rewrite H2h in Hnext.
Qed.

Lemma one_open_request_for_next_tier_witness :
  reachable scenario_A_world ∧
  ∃ d, devices (w_state scenario_A_world) !! "dev1"%string = Some d ∧
       next_tier (current_tier d) = Some "12h"%string.
Proof.
  assert (reachable scenario_A_world) as Hreach.
  { exists (demo_config (Some false)), scenario_A_events. reflexivity. }
  split; [exact Hreach|].
  destruct (one_open_request_for_next_tier scenario_A_world Hreach)
    as (_ & Hopen & _).
  destruct (Hopen "a1b2c3d4"%string scenario_A_request)
    as (_ & d & Hd & Hnext & _); [reflexivity|].
  exists d. split; [exact Hd|exact Hnext].
Defined.

(** ** What one scan adds to the count *)

Lemma starts_from_not_pending c env name d0 :
  starts_from c env name d0 → approval_status d0 ≠ pending_status →
  is_pending_approval (devices (state c) !! name) = false.
Proof.
  intros [Hd0|[Hnone _]] Hnp; unfold is_pending_approval.
  - rewrite Hd0. simpl. apply bool_decide_eq_false_2. by intros [= ?].
  - by rewrite Hnone.
Qed.

Lemma scan_step_counts
    (c : counter) (env : scan_env) (name : string) (dc : device_config)
    (d0 : device_state) (cutoff : Z) :
  enabled dc = true →
  starts_from c env name d0 →
  approval_status d0 ≠ pending_status →
  (bootstrap_completed (state c) = true ∧ last_scan (state c) = Some cutoff) ∨
  (bootstrap_completed (state c) = false ∧ bootstrap_mode c = false ∧
   cutoff = get_device_production_start_date c env name) →
  let stamps := (bulk_collect_file_timestamps env name).*1 in
  ∃ fc c' d',
    scan_device_optimized c env name dc = Ok fc ∧
    update_device_state c env name fc = Ok c' ∧
    devices (state c') !! name = Some d' ∧
    new_files fc = Z.of_nat (count_ge cutoff stamps) ∧
    count d' = count d0 + Z.of_nat (count_ge cutoff stamps) ∧
    dev_total_files d' = Z.of_nat (length stamps) ∧
    dev_historical_files d' = Z.of_nat (count_lt cutoff stamps).
Proof.
  intros He Hstart Hnp Hmode stamps.
  pose proof (starts_from_not_pending c env name d0 Hstart Hnp) as Hnpb.
  pose proof (bulk_collect_ascending env name) as Hs.
  assert (scan_device_optimized c env name dc
          = Ok (binary_search_file_count
                  (bulk_collect_file_timestamps env name) cutoff)) as Hscan.
  { destruct Hmode as [[Hb Hl]|(Hb & Hm & ->)].
    - by apply scan_incremental.
    - by apply scan_first_run. }
  rewrite binary_search_file_count_eq in Hscan by done.
  pose proof (count_lt_ge_length cutoff stamps) as Hsum.
  eexists. 
  destruct (advancement_gate_holds c env name
              (FileCounts (Z.of_nat (length (bulk_collect_file_timestamps env name)))
                 (Z.of_nat (count_lt cutoff stamps))
                 (Z.of_nat (length (bulk_collect_file_timestamps env name))
                  - Z.of_nat (count_lt cutoff stamps))) d0 Hstart Hnp)
    as (c' & d' & Hup & Hd' & Hcount & _).
  destruct (update_device_state_recorded _ _ _ _ _ Hup)
    as (d'' & Hd'' & Htotal & Hhist).
  assert (d'' = d') as -> by congruence.
  exists c', d'. split; [exact Hscan|]. simpl in *.
  subst stamps. rewrite length_fmap in *.
  split_and!; [done|done|lia|lia|lia|lia].
Qed.

(** X13. For an enabled device that is not pending approval, a scan adds
    to the count exactly the number of collected files stamped at or
    after the cutoff, where the cutoff is the instant of the previous
    scan or, on the first scan without bootstrap mode, the production
    start date of the device; the recorded total is the size of the
    listing and the recorded historical count the number of files
    stamped before the cutoff. *)
Theorem scan_adds_files_since_cutoff
    (c : counter) (env : scan_env) (name : string) (dc : device_config)
    (d0 : device_state) (cutoff : Z) :
  enabled dc = true →
  starts_from c env name d0 →
  approval_status d0 ≠ pending_status →
  (bootstrap_completed (state c) = true ∧ last_scan (state c) = Some cutoff) ∨
  (bootstrap_completed (state c) = false ∧ bootstrap_mode c = false ∧
   cutoff = get_device_production_start_date c env name) →
  let stamps := (bulk_collect_file_timestamps env name).*1 in
  ∃ fc c' d',
    scan_device_optimized c env name dc = Ok fc ∧
    update_device_state c env name fc = Ok c' ∧
    devices (state c') !! name = Some d' ∧
    new_files fc = Z.of_nat (count_ge cutoff stamps) ∧
    count d' = count d0 + Z.of_nat (count_ge cutoff stamps) ∧
    dev_total_files d' = Z.of_nat (length stamps) ∧
    dev_historical_files d' = Z.of_nat (count_lt cutoff stamps).
Proof. apply scan_step_counts. Qed.

Lemma scan_adds_files_since_cutoff_witness :
  ∃ fc c' d',
    scan_device_optimized (load (demo_world false 1000 (demo_device 7 3 3)))
      (demo_env 2000 (unit_files 3 500 ++ unit_files 5 1500)) "dev1"
      (DeviceConfig true None (Some 100)) = Ok fc ∧
    update_device_state (load (demo_world false 1000 (demo_device 7 3 3)))
      (demo_env 2000 (unit_files 3 500 ++ unit_files 5 1500)) "dev1" fc
    = Ok c' ∧
    devices (state c') !! "dev1"%string = Some d' ∧
    new_files fc = 5 ∧ count d' = 12.
Proof.
  destruct (scan_adds_files_since_cutoff
              (load (demo_world false 1000 (demo_device 7 3 3)))
              (demo_env 2000 (unit_files 3 500 ++ unit_files 5 1500)) "dev1"
              (DeviceConfig true None (Some 100)) (demo_device 7 3 3) 1000)
    as (fc & c' & d' & Hscan & Hup & Hd' & Hnew & Hcount & _).
  - reflexivity.
  - left. reflexivity.
  - discriminate.
  - left. split; reflexivity.
  - exists fc, c', d'.
    split_and!; [exact Hscan|exact Hup|exact Hd'|exact Hnew|exact Hcount].
Defined.

(** ** The approval surface *)

Section surface.
Implicit Types (c : counter) (w : world) (id decision approver : string).

(** The three outcomes of a resolution. *)
Lemma process_approval_decision_cases c id decision approver t :
  (pending (pending_approvals c) !! id = None ∧
   process_approval_decision c id decision approver t = Ok (false, c)) ∨
  (∃ r, pending (pending_approvals c) !! id = Some r ∧
        devices (state c) !! device_name r = None ∧
        process_approval_decision c id decision approver t = Err KeyError) ∨
  (∃ r d c', pending (pending_approvals c) !! id = Some r ∧
           devices (state c) !! device_name r = Some d ∧
           process_approval_decision c id decision approver t = Ok (true, c') ∧
           pending (pending_approvals c')
           = delete id (pending (pending_approvals c)) ∧
           history (pending_approvals c')
           = history (pending_approvals c)
             ++ [decide_request decision approver t r] ∧
           (∀ n, is_Some (devices (state c') !! n) ↔
                 is_Some (devices (state c) !! n))).
Proof.
  unfold process_approval_decision.
  destruct (pending (pending_approvals c) !! id) as [r|] eqn:Hr; [|by left].
  right. destruct (devices (state c) !! device_name r) as [d|] eqn:Hd.
  - right. eexists r, d, _. split_and!; [done..|].
    intros n. simpl. rewrite lookup_insert. case_decide as Hn; [|done].
    rewrite <- Hn, Hd. split; by eexists.
  - left. by exists r.
Qed.

Lemma is_decision_spec decision :
  is_decision decision = true ↔
  decision = "APPROVE"%string ∨ decision = "REJECT"%string.
Proof.
  unfold is_decision. rewrite bool_decide_eq_true, !elem_of_cons.
  split; [intros [?|[?|?%elem_of_nil]]; by eauto|].
  intros [?|?]; eauto.
Qed.

(** Resolutions do not read the attribute [bootstrap_mode]. *)
Lemma process_approval_decision_reload c id decision approver t :
  match process_approval_decision c id decision approver t with
  | Ok (b, c') =>
      ∃ c'', process_approval_decision (load (persist c)) id decision approver t
             = Ok (b, c'') ∧ persist c'' = persist c'
  | Err e =>
      process_approval_decision (load (persist c)) id decision approver t = Err e
  end.
Proof.
  unfold process_approval_decision. simpl.
  destruct (pending (pending_approvals c) !! id) as [r|]; [|by eexists].
  destruct (devices (state c) !! device_name r); [|done]. by eexists.
Qed.

(** What a resolution leaves on disk, whatever its outcome. *)
Lemma leaves_resolve c id decision approver t :
  leaves (persist c) (Resolve id decision approver t)
  = match process_approval_decision c id decision approver t with
    | Ok (_, c') => persist c'
    | Err _ => persist c
    end.
Proof.
  unfold leaves. simpl.
  pose proof (process_approval_decision_reload c id decision approver t)
    as Hreload.
  destruct (process_approval_decision c id decision approver t) as [[b c']|e].
  - by destruct Hreload as (c'' & -> & ->).
  - by rewrite Hreload.
Qed.

(** The batch loop on any counter: the requests that leave the pending
    set are those of the listed ids whose device is recorded, each one
    enters the history once, and the loop leaves what the single
    resolutions leave one after the other. *)
Lemma bulk_loop_accounts ids decision approver t n0 c :
  let result := bulk_loop ids decision approver t n0 c in
  (∀ id, pending (pending_approvals result.2) !! id
         = r ← pending (pending_approvals c) !! id;
           if bool_decide (id ∈ ids ∧
                           is_Some (devices (state c) !! device_name r))
           then None else Some r) ∧
  (∀ n, is_Some (devices (state result.2) !! n) ↔
        is_Some (devices (state c) !! n)) ∧
  documents_after (persist c) (bulk_events ids decision approver t)
  = persist result.2 ∧
  ∃ moved,
    history (pending_approvals result.2)
    = history (pending_approvals c) ++ moved ∧
    (n0 + length moved)%nat = result.1 ∧
    (length moved + size (pending (pending_approvals result.2))
     = size (pending (pending_approvals c)))%nat ∧
    (∀ r', r' ∈ moved ↔
       ∃ id r, id ∈ ids ∧
               resolvable (state c) (pending_approvals c) id r ∧
               r' = decide_request decision approver (t id) r).
Proof.
  revert n0 c. induction ids as [|id ids IH]; intros n0 c; simpl.
  { split_and!; [|done|done|].
    - intros id. by destruct (pending (pending_approvals c) !! id).
    - exists []. rewrite app_nil_r. split_and!; [done|simpl; lia|done|].
      intros r'. split; [by intros ?%elem_of_nil|].
      by intros (id & r & ?%elem_of_nil & _). }
  rewrite leaves_resolve.
  destruct (process_approval_decision_cases c id decision approver (t id))
    as [[Hnone ->]|[(r & Hr & Hd & ->)
                   |(r & d & c' & Hr & Hd & -> & Hpend & Hhist & Hdom)]].
  - destruct (IH n0 c) as (Hpending & Hdevs & Hdocs & moved & Hh & Hn & Hs & Hin).
    split_and!; [|done|done|].
    + intros id'. rewrite Hpending.
      destruct (pending (pending_approvals c) !! id') as [r|] eqn:Hr'; simpl;
        [|done].
      apply (f_equal (λ b : bool, if b then None else Some r)).
      apply bool_decide_ext. rewrite elem_of_cons.
      split; [intros [? ?]; by eauto|].
      intros [[->|?] ?]; [congruence|done].
    + exists moved. split_and!; [done..|].
      intros r'. rewrite Hin. split.
      * intros (id' & r & ? & ? & ->). exists id', r.
        split_and!; [by right|done..].
      * intros (id' & r & [->|?]%elem_of_cons & [Hr' ?] & ->);
          [congruence|by exists id', r].
  - destruct (IH n0 c) as (Hpending & Hdevs & Hdocs & moved & Hh & Hn & Hs & Hin).
    split_and!; [|done|done|].
    + intros id'. rewrite Hpending.
      destruct (pending (pending_approvals c) !! id') as [r'|] eqn:Hr'; simpl;
        [|done].
      apply (f_equal (λ b : bool, if b then None else Some r')).
      apply bool_decide_ext. rewrite elem_of_cons.
      split; [intros [? ?]; by eauto|].
      intros [[->|?] Hsome]; [|done].
      assert (r' = r) as -> by congruence. rewrite Hd in Hsome.
      by destruct Hsome.
    + exists moved. split_and!; [done..|].
      intros r'. rewrite Hin. split.
      * intros (id' & r0 & ? & ? & ->). exists id', r0.
        split_and!; [by right|done..].
      * intros (id' & r0 & [->|?]%elem_of_cons & [Hr' Hsome] & ->);
          [|by exists id', r0].
        assert (r0 = r) as -> by congruence. rewrite Hd in Hsome.
        by destruct Hsome.
  - destruct (IH (S n0) c')
      as (Hpending & Hdevs & Hdocs & moved & Hh & Hn & Hs & Hin).
    split_and!; [| |done|].
    + intros id'. rewrite Hpending, Hpend.
      destruct (decide (id' = id)) as [->|Hne].
      * rewrite lookup_delete_eq, Hr. simpl.
        rewrite bool_decide_eq_true_2; [done|].
        split; [left|by rewrite Hd].
      * rewrite lookup_delete_ne by done.
        destruct (pending (pending_approvals c) !! id') as [r'|] eqn:Hr'; simpl;
          [|done].
        apply (f_equal (λ b : bool, if b then None else Some r')).
        apply bool_decide_ext. rewrite elem_of_cons, Hdom.
        split; [intros [? ?]; by eauto|]. by intros [[?|?] ?].
    + intros n. by rewrite Hdevs, Hdom.
    + exists (decide_request decision approver (t id) r :: moved).
      assert (size (pending (pending_approvals c))
              = S (size (delete id (pending (pending_approvals c))))) as Hdel.
      { rewrite <- (insert_delete_id _ _ _ Hr) at 1.
        apply map_size_insert_None, lookup_delete_eq. }
      rewrite Hpend in Hs. split_and!.
      * by rewrite Hh, Hhist, <- app_assoc.
      * simpl. lia.
      * simpl. lia.
      * intros r'. rewrite elem_of_cons, Hin. unfold resolvable.
        rewrite Hpend. split.
        -- intros [->|(id' & r0 & ? & [Hr0 Hsome] & ->)].
           ++ exists id, r. split_and!; [left|done|by rewrite Hd|done].
           ++ apply lookup_delete_Some in Hr0 as [? Hr0].
              exists id', r0. split_and!; [by right|done|by apply Hdom|done].
        -- intros (id' & r0 & Hid' & [Hr0 Hsome] & ->).
           destruct (decide (id' = id)) as [->|Hne].
           ++ left. congruence.
           ++ right. exists id', r0. split_and!; [|  |by apply Hdom|done].
              ** apply elem_of_cons in Hid' as [?|?]; done.
              ** by rewrite lookup_delete_ne.
Qed.

Lemma bulk_loop_bound ids decision approver t n0 c :
  ((bulk_loop ids decision approver t n0 c).1 ≤ n0 + length ids)%nat.
Proof.
  revert n0 c. induction ids as [|id ids IH]; intros n0 c; simpl; [lia|].
  destruct (process_approval_decision c id decision approver (t id))
    as [[[] c']|].
  - specialize (IH (S n0) c'). lia.
  - specialize (IH n0 c'). lia.
  - specialize (IH n0 c). lia.
Qed.

(** The single route on a filled form with a valid decision leaves what
    the resolution leaves. *)
Lemma process_approval_leaves w id decision approver u t :
  id ≠ ""%string → approver ≠ ""%string →
  decision = "APPROVE"%string ∨ decision = "REJECT"%string →
  (process_approval w (Some id) (Some decision) (Some approver) (Some u) t).2
  = leaves w (Resolve id decision (full_approver approver u) t).
Proof.
  intros Hid Hap Hvalid. unfold process_approval, require_auth, leaves.
  assert (decision ≠ ""%string) as Hdec by by destruct Hvalid as [-> | ->].
  apply is_decision_spec in Hvalid. simpl.
  rewrite !bool_decide_eq_true_2 by done. simpl. rewrite Hvalid. simpl.
  destruct (process_approval_decision_cases (load w) id decision
              (full_approver approver u) t)
    as [[_ ->]|[(r & _ & _ & ->)|(r & d & c' & _ & _ & -> & _)]];
    [by destruct w|done..].
Qed.
End surface.

(** X14. The single-resolution route. Without a user in the session it
    redirects to the login page and changes nothing. With a user, it
    changes the documents only when it flashes success, and it does so
    only for a form with the three fields filled, a decision that is
    APPROVE or REJECT and an id that is pending with its device
    recorded: that request then leaves the pending set and enters the
    history with the decision as status, the instant of the decision and
    "name (user)" as approver, its other fields as they were, and the
    count of the device is reset. No other decision string reaches the
    history through this route. *)
Theorem surface_changes_only_on_valid_request
    (w : world) (approval_id decision approver user : option string) (t : Z) :
  let out := process_approval w approval_id decision approver user t in
  (user = None → out = (to_login, w)) ∧
  (out.1 = to_index flash_success ∨ out.2 = w) ∧
  (out.1 = to_index flash_success →
   ∃ id dec ap u r d d',
     approval_id = Some id ∧ decision = Some dec ∧ approver = Some ap ∧
     user = Some u ∧
     id ≠ ""%string ∧ ap ≠ ""%string ∧
     (dec = "APPROVE"%string ∨ dec = "REJECT"%string) ∧
     pending (w_approvals w) !! id = Some r ∧
     devices (w_state w) !! device_name r = Some d ∧
     pending (w_approvals out.2) = delete id (pending (w_approvals w)) ∧
     history (w_approvals out.2)
     = history (w_approvals w) ++ [history_entry r dec ap u t] ∧
     devices (w_state out.2) !! device_name r = Some d' ∧
     count d' = 0 ∧
     approval_status d' =
       (if bool_decide (dec = "APPROVE"%string)
        then "APPROVED" else "REJECTED")%string).
Proof.
  intros out. subst out. unfold process_approval, require_auth.
  destruct user as [u|]; simpl; [|split_and!; [done|by right|done]].
  split; [done|].
  destruct approval_id as [id|], decision as [dec|], approver as [ap|];
    simpl; try (split; [by right|done]).
  case_bool_decide as Hid; simpl; [|split; [by right|done]].
  case_bool_decide as Hdec; simpl; [|split; [by right|done]].
  case_bool_decide as Hap; simpl; [|split; [by right|done]].
  destruct (is_decision dec) eqn:Hvalid; simpl; [|split; [by right|done]].
  apply is_decision_spec in Hvalid.
  unfold process_approval_decision. simpl.
  destruct (pending (w_approvals w) !! id) as [r|] eqn:Hr; simpl;
    [|split; [by right|done]].
  destruct (devices (w_state w) !! device_name r) as [d|] eqn:Hd; simpl;
    [|split; [by right|done]].
  split; [by left|]. intros _.
  eexists id, dec, ap, u, r, d, _.
  split_and!; [done..|by rewrite lookup_insert_eq| |];
    destruct Hvalid as [-> | ->]; done.
Qed.

(** X15. The batch route. Without a user in the session it redirects to
    the login page and changes nothing. With a user, a non-empty list
    of ids, a name and a decision APPROVE or REJECT: the requests that
    leave the pending set are exactly those of the listed ids whose
    device is recorded, every other request is untouched; each of them
    enters the history once, with the decision as status, the instant at
    which it was handled and "name (user)" as approver; and the route
    flashes success exactly when as many requests were moved as ids
    were listed, error exactly when none was, a warning in between. An
    unknown or repeated id, or one whose device is not recorded, fails
    without stopping the others. *)
Theorem bulk_resolution_accounts
    (w : world) (approval_ids : list string) (decision approver u : string)
    (t : string → Z) :
  approval_ids ≠ [] → approver ≠ ""%string →
  decision = "APPROVE"%string ∨ decision = "REJECT"%string →
  let result :=
    bulk_process_approval w approval_ids (Some decision) (Some approver)
      (Some u) t in
  bulk_process_approval w approval_ids (Some decision) (Some approver) None t
  = (to_login, w) ∧
  (∀ id, pending (w_approvals result.2) !! id
         = r ← pending (w_approvals w) !! id;
           if bool_decide (id ∈ approval_ids ∧
                           is_Some (devices (w_state w) !! device_name r))
           then None else Some r) ∧
  ∃ moved,
    history (w_approvals result.2) = history (w_approvals w) ++ moved ∧
    (length moved + size (pending (w_approvals result.2))
     = size (pending (w_approvals w)))%nat ∧
    (∀ r', r' ∈ moved ↔
       ∃ id r, id ∈ approval_ids ∧
               resolvable (w_state w) (w_approvals w) id r ∧
               r' = history_entry r decision approver u (t id)) ∧
    (result.1 = to_index flash_success ↔
     length moved = length approval_ids) ∧
    (result.1 = to_index flash_error ↔ moved = []) ∧
    (result.1 = to_index flash_warning ↔
     (0 < length moved < length approval_ids)%nat).
Proof.
  intros Hids Hap Hvalid result. split; [done|].
  assert (decision ≠ ""%string) as Hdec by by destruct Hvalid as [-> | ->].
  apply is_decision_spec in Hvalid.
  subst result. unfold bulk_process_approval, require_auth. simpl.
  rewrite !bool_decide_eq_true_2 by done. simpl. rewrite Hvalid. simpl.
  destruct (bulk_loop_accounts approval_ids decision
              (full_approver approver u) t 0 (load w))
    as (Hpending & _ & _ & moved & Hhist & Hn & Hsize & Hin).
  pose proof (bulk_loop_bound approval_ids decision
                (full_approver approver u) t 0 (load w)) as Hbound.
  destruct (bulk_loop _ _ _ _ _ _) as [n c]. simpl in *. subst n.
  assert (length approval_ids ≠ 0)%nat by by destruct approval_ids.
  assert (moved = [] ↔ length moved = 0%nat) as Hnil.
  { split; [by intros ->|by destruct moved]. }
  split.
  { repeat case_bool_decide; exact Hpending. }
  exists moved.
  repeat case_bool_decide; simpl; (split_and!; [done|done|done|..]);
    rewrite ?Hnil; split; (done || lia).
Qed.

Lemma bulk_resolution_accounts_witness :
  (bulk_process_approval scenario_A_world ["a1b2c3d4"; "b"]%string
     (Some "REJECT"%string) (Some "bob"%string) (Some "quality"%string)
     (λ _, 1500)).1
  = to_index flash_warning ∧
  pending (w_approvals
             (bulk_process_approval scenario_A_world ["a1b2c3d4"; "b"]%string
                (Some "REJECT"%string) (Some "bob"%string)
                (Some "quality"%string) (λ _, 1500)).2)
    !! "a1b2c3d4"%string = None.
Proof.
  destruct (bulk_resolution_accounts scenario_A_world
              ["a1b2c3d4"; "b"]%string "REJECT" "bob" "quality" (λ _, 1500))
    as (_ & Hpending & _).
  - discriminate.
  - discriminate.
  - right. reflexivity.
  - split; [reflexivity|]. rewrite Hpending. reflexivity.
Defined.

(** X16. A batch is the sequence of its single resolutions: for a user
    in the session, a non-empty list of ids, a name and a decision
    APPROVE or REJECT, what the batch route leaves on disk is what
    separate resolutions, one per listed id in order, leave -- those
    that raise included -- and, when no listed id is the empty string,
    what the single route leaves when it is called for each id in
    turn. *)
Theorem bulk_resolution_is_sequence
    (w : world) (approval_ids : list string) (decision approver u : string)
    (t : string → Z) :
  approval_ids ≠ [] → approver ≠ ""%string →
  decision = "APPROVE"%string ∨ decision = "REJECT"%string →
  let result :=
    bulk_process_approval w approval_ids (Some decision) (Some approver)
      (Some u) t in
  result.2
  = documents_after w
      (bulk_events approval_ids decision (approver +:+ " (" +:+ u +:+ ")") t) ∧
  (Forall (λ id, id ≠ ""%string) approval_ids →
   result.2
   = foldl (λ w' id,
              (process_approval w' (Some id) (Some decision) (Some approver)
                 (Some u) (t id)).2) w approval_ids).
Proof.
  intros Hids Hap Hvalid result.
  assert (result.2
          = documents_after w
              (bulk_events approval_ids decision (full_approver approver u) t))
    as Hdocs.
  { assert (decision ≠ ""%string) as Hdec by by destruct Hvalid as [-> | ->].
    apply is_decision_spec in Hvalid.
    subst result. unfold bulk_process_approval, require_auth. simpl.
    rewrite !bool_decide_eq_true_2 by done. simpl. rewrite Hvalid. simpl.
    destruct (bulk_loop_accounts approval_ids decision
                (full_approver approver u) t 0 (load w))
      as (_ & _ & Hrun & _).
    assert (persist (load w) = w) as Hw by by destruct w.
    rewrite Hw in Hrun. rewrite Hrun.
    destruct (bulk_loop _ _ _ _ _ _) as [n c]. simpl.
    by repeat case_bool_decide. }
  split; [exact Hdocs|].
  intros Hfilled. rewrite Hdocs. clear Hdocs result Hids.
  unfold documents_after, bulk_events. revert w.
  induction Hfilled as [|id ids Hid _ IH]; intros w; [done|].
  cbn [fmap list_fmap foldl]. rewrite process_approval_leaves by done.
  apply IH.
Qed.

Lemma bulk_resolution_is_sequence_witness :
  (bulk_process_approval scenario_A_world ["a1b2c3d4"; "b"]%string
     (Some "REJECT"%string) (Some "bob"%string) (Some "quality"%string)
     (λ _, 1500)).2
  = documents_after scenario_A_world
      [Resolve "a1b2c3d4" "REJECT" "bob (quality)" 1500;
       Resolve "b" "REJECT" "bob (quality)" 1500].
Proof.
  destruct (bulk_resolution_is_sequence scenario_A_world
              ["a1b2c3d4"; "b"]%string "REJECT" "bob" "quality" (λ _, 1500))
    as [Hdocs _].
  - discriminate.
  - discriminate.
  - right. reflexivity.
  - exact Hdocs.
Defined.

(** ** The report *)

Section report.
Implicit Types (c : counter) (tier : string) (s : gmap string Z).

Lemma summary_total_insert s tier v :
  summary_total (<[tier := v]> s)
  = summary_total s - default 0 (s !! tier) + v.
Proof.
  unfold summary_total.
  assert (∀ m : gmap string Z, ∀ j1 j2 z1 z2 y,
            j1 ≠ j2 → m !! j1 = Some z1 → m !! j2 = Some z2 →
            z1 + (z2 + y) = z2 + (z1 + y)) as Hcomm by (intros; lia).
  destruct (s !! tier) as [old|] eqn:Hold; simpl.
  - rewrite <- insert_delete_eq.
    rewrite map_fold_insert_L; [|apply Hcomm|apply lookup_delete_eq].
    rewrite (map_fold_delete_L _ _ tier old s); [lia|apply Hcomm|done].
  - rewrite map_fold_insert_L; [lia|apply Hcomm|done].
Qed.

Lemma tier_summary_invariant (m : gmap string device_state) :
  let summary :=
    map_fold (λ _ d tier_summary, count_tier d tier_summary)
      initial_tier_summary m in
  (∀ tier, default 0 (summary !! tier)
           = Z.of_nat (size (filter (λ kv, current_tier kv.2 = tier) m))) ∧
  summary_total summary = Z.of_nat (size m) ∧
  (∀ tier, tier ∈ tier_sequence → is_Some (summary !! tier)).
Proof.
  apply (map_fold_weak_ind
    (λ summary m,
       (∀ tier, default 0 (summary !! tier)
                = Z.of_nat (size (filter (λ kv : string * device_state,
                                            current_tier kv.2 = tier) m))) ∧
       summary_total summary = Z.of_nat (size m) ∧
       (∀ tier, tier ∈ tier_sequence → is_Some (summary !! tier)))).
  - split_and!.
    + intros tier. rewrite map_filter_empty, map_size_empty.
      unfold initial_tier_summary.
      repeat (rewrite lookup_insert; case_decide; [done|]).
      rewrite lookup_singleton. by case_decide.
    + reflexivity.
    + intros tier Hin. unfold tier_sequence in Hin.
      repeat (apply elem_of_cons in Hin as [->|Hin]; [by eexists|]).
      by apply elem_of_nil in Hin.
  - intros i d m' summary Hi (Hcount & Htotal & Hkeys). split_and!.
    + intros tier. unfold count_tier. rewrite lookup_insert.
      rewrite map_filter_insert. simpl.
      case_decide as Htier.
      * simpl. rewrite map_size_insert_None.
        -- rewrite <- Htier, Hcount. lia.
        -- apply map_lookup_filter_None_2. by left.
      * rewrite delete_id by done. apply Hcount.
    + unfold count_tier. rewrite summary_total_insert, Htotal.
      rewrite map_size_insert_None by done. lia.
    + intros tier Hin. unfold count_tier. rewrite lookup_insert.
      case_decide; [by eexists|by apply Hkeys].
Qed.
End report.

(** X17. The tier histogram of the report counts the recorded devices:
    the entry of a tier is the number of devices recorded in that tier
    (an absent entry counting as 0), the five tiers of the sequence
    always have an entry, and the entries add up to the number of devices
    that the report gives as scanned. *)
Theorem tier_summary_counts_devices (c : counter) :
  (∀ tier, default 0 (calculate_tier_summary c !! tier)
           = Z.of_nat (size (devices_in_tier c tier))) ∧
  (∀ tier, tier ∈ tier_sequence → is_Some (calculate_tier_summary c !! tier)) ∧
  summary_total (calculate_tier_summary c)
  = Z.of_nat (rep_devices_scanned (generate_report c)).
Proof.
  destruct (tier_summary_invariant (devices (state c)))
    as (Hcount & Htotal & Hkeys).
  split_and!; [exact Hcount|exact Hkeys|exact Htotal].
Qed.

(** ** The dashboard and the scanner *)

(** The progress computed for a record against the chain of tests of
    the advancement check. *)
Lemma device_progress_agrees
    (d : device_state) (requirements : tier_requirements) (tier' : string) :
  0 ≤ count d →
  eligible_tier requirements (current_tier d) (count d) = Some tier' ↔
  shown_next_tier (calculate_device_progress d requirements) = Some tier' ∧
  shown_remaining (calculate_device_progress d requirements) = 0.
Proof.
  intros Hcount. rewrite eligible_tier_iff.
  assert (∀ (a : string) (r : Z),
            (Some a = Some tier' ∧
             ∃ thr, Some r = Some thr ∧ thr ≤ count d) ↔
            shown_next_tier
              (if bool_decide (r ≠ 0)
               then DeviceProgress (Some a) (Some r) (Z.max 0 (r - count d))
               else DeviceProgress (Some a) (Some r) 0) = Some tier' ∧
            shown_remaining
              (if bool_decide (r ≠ 0)
               then DeviceProgress (Some a) (Some r) (Z.max 0 (r - count d))
               else DeviceProgress (Some a) (Some r) 0) = 0) as Hcase.
  { intros a r. case_bool_decide; simpl.
    - split.
      + intros [? (thr & [= <-] & ?)]. split; [done|lia].
      + intros [? ?]. split; [done|]. exists r. split; [done|lia].
    - split.
      + by intros [? _].
      + intros [? _]. split; [done|]. exists r. split; [done|lia]. }
  unfold calculate_device_progress, tier_progression, threshold, next_tier,
    tier_sequence.
  destruct (decide (current_tier d = "24h"%string)) as [->|H1];
    [apply Hcase|].
  destruct (decide (current_tier d = "12h"%string)) as [->|H2];
    [apply Hcase|].
  destruct (decide (current_tier d = "6h"%string)) as [->|H3];
    [apply Hcase|].
  destruct (decide (current_tier d = "3h"%string)) as [->|H4];
    [apply Hcase|].
  simpl. split; [by intros [_ (? & ? & _)]|by intros [? _]].
Qed.

Lemma threshold_next_tier requirements tier thr :
  threshold requirements tier = Some thr → is_Some (next_tier tier).
Proof.
  unfold threshold, next_tier, tier_sequence. simpl.
  repeat case_decide; by eauto.
Qed.

Lemma device_progress_complete d requirements :
  0 ≤ count d →
  is_Some (shown_next_tier (calculate_device_progress d requirements)) ∧
  shown_remaining (calculate_device_progress d requirements) = 0 ↔
  ∃ thr, threshold requirements (current_tier d) = Some thr ∧ thr ≤ count d.
Proof.
  intros Hcount. split.
  - intros [[tier' Hnext] Hrem].
    assert (eligible_tier requirements (current_tier d) (count d) = Some tier')
      as Hel by by apply device_progress_agrees.
    by apply eligible_tier_iff in Hel as [_ ?].
  - intros (thr & Hthr & Hle).
    destruct (threshold_next_tier _ _ _ Hthr) as [tier' Hnext].
    assert (eligible_tier requirements (current_tier d) (count d) = Some tier')
      as Hel.
    { apply eligible_tier_iff. split; [done|]. by exists thr. }
    apply device_progress_agrees in Hel as [Hshown ?]; [|done].
    split; [by eexists|done].
Qed.

(** X18. The dashboard against the scanner, gates included. After the
    handling of a device whose count and new files are not negative, the
    device has become PENDING_APPROVAL in this scan exactly when it was
    not pending before, its tier is not an excluded one, and the
    dashboard, computed from the record as stored, shows a next tier
    with 0 units remaining; the request then raised proposes the tier
    that the dashboard shows as next and carries the count of the
    record. A device that was pending, or whose tier is excluded, gets
    no request whatever the dashboard shows. *)
Theorem dashboard_agrees_with_scanner
    (c : counter) (env : scan_env) (name : string) (fc : file_counts)
    (d0 : device_state) :
  starts_from c env name d0 →
  0 ≤ count d0 → 0 ≤ new_files fc →
  ∃ c' d',
    update_device_state c env name fc = Ok c' ∧
    devices (state c') !! name = Some d' ∧
    let p := calculate_device_progress d' (cfg_tier_requirements (config c)) in
    ((approval_status d0 ≠ pending_status ∧
      approval_status d' = pending_status) ↔
     (approval_status d0 ≠ pending_status ∧
      (current_tier d' ∉ cfg_excluded_tiers (config c)) ∧
      is_Some (shown_next_tier p) ∧ shown_remaining p = 0)) ∧
    (approval_status d0 ≠ pending_status →
     approval_status d' = pending_status →
     ∃ r, pending (pending_approvals c') !! fresh_id env name = Some r ∧
          device_name r = name ∧ unit_count r = count d' ∧
          shown_next_tier p = Some (proposed_tier r)) ∧
    (approval_status d0 = pending_status ∨
     current_tier d' ∈ cfg_excluded_tiers (config c) →
     pending_approvals c' = pending_approvals c).
Proof.
  intros Hstart Hcount Hnew.
  destruct (decide (approval_status d0 = pending_status)) as [Hp|Hnp].
  { assert (devices (state c) !! name = Some d0) as Hd0.
    { destruct Hstart as [?|[Hnone Hinit]]; [done|].
      destruct (starts_from_new c env name d0 Hnone) as (_ & Hst & _);
        [by right|]. rewrite Hst in Hp. discriminate Hp. }
    unfold update_device_state. rewrite Hd0. simpl.
    rewrite bool_decide_eq_true_2 by done.
    eexists _, _. split; [done|]. simpl. rewrite lookup_insert_eq.
    split; [done|]. split_and!; [|done..].
    split; by intros [? _]. }
  destruct (advancement_gate_holds c env name fc d0 Hstart Hnp)
    as (c' & d' & Hup & Hd' & Hc' & Ht' & Hraise & Hkeep).
  set (gate := (current_tier d0 ∉ cfg_excluded_tiers (config c)) ∧
               ∃ thr, threshold (cfg_tier_requirements (config c))
                        (current_tier d0) = Some thr ∧
                      thr ≤ count d0 + new_files fc) in *.
  assert (gate ∨ ¬ gate) as Hgate.
  { unfold gate.
    destruct (decide (current_tier d0 ∈ cfg_excluded_tiers (config c)));
      [right; by intros [? _]|].
    destruct (threshold (cfg_tier_requirements (config c)) (current_tier d0))
      as [thr|]; [|right; by intros [_ (? & ? & _)]].
    destruct (decide (thr ≤ count d0 + new_files fc)).
    - left. split; [done|]. by exists thr.
    - right. intros [_ (thr' & [= <-] & ?)]. done. }
  exists c', d'. split; [done|]. split; [done|]. cbv zeta.
  rewrite device_progress_complete by lia. rewrite Ht', Hc'.
  destruct Hgate as [Hgate|Hgate].
  - destruct (Hraise Hgate) as (tier' & Hnext & Hst & _ & Hpend & _).
    destruct Hgate as [Hex (thr & Hthr & Hle)].
    split_and!.
    + split; [intros _; split_and!; by eauto|by intros _].
    + intros _ _. eexists. rewrite Hpend, lookup_insert_eq.
      split_and!; [done..|simpl; lia|]. simpl.
      assert (eligible_tier (cfg_tier_requirements (config c))
                (current_tier d') (count d') = Some tier') as Hel.
      { apply eligible_tier_iff. rewrite Ht', Hc'. split; [done|].
        by exists thr. }
      apply device_progress_agrees in Hel as [? _]; [done|lia].
    + by intros [?|?].
  - destruct (Hkeep Hgate) as (Hpa & Hst & _).
    split_and!.
    + split; [intros [_ ?]; congruence|].
      intros (_ & Hex & Hthr). destruct Hgate. by split.
    + intros _ ?. congruence.
    + done.
Qed.

Lemma dashboard_agrees_with_scanner_witness :
  ∃ c' d',
    update_device_state (load (initial_world (demo_config (Some false))))
      (demo_env 1000 (unit_files 300 200)) "dev1" (FileCounts 300 0 300)
    = Ok c' ∧
    devices (state c') !! "dev1"%string = Some d' ∧
    approval_status d' = pending_status ∧
    shown_remaining (calculate_device_progress d' demo_requirements) = 0.
Proof.
  destruct (dashboard_agrees_with_scanner
              (load (initial_world (demo_config (Some false))))
              (demo_env 1000 (unit_files 300 200)) "dev1"
              (FileCounts 300 0 300) (demo_device 0 0 0))
    as (c' & d' & Hup & Hd' & Hiff & _).
  - right. split; reflexivity.
  - reflexivity.
  - discriminate.
  - assert (approval_status d' = pending_status) as Hst.
    { vm_compute in Hup. injection Hup as <-.
      vm_compute in Hd'. injection Hd' as <-. reflexivity. }
    exists c', d'. split_and!; [exact Hup|exact Hd'|exact Hst|].
    apply Hiff. split; [discriminate|exact Hst].
Defined.

(** ** Empty listings *)

(** X19. When nothing is collected for a device -- the folder is missing
    or unreadable, or no file passes the filter -- the scan of the device
    returns three zeros whatever the state, and the handling of the
    device then overwrites the recorded total and historical counters
    with 0 while the count keeps its value. *)
Theorem empty_listing_is_recorded_as_zero
    (c : counter) (env : scan_env) (name : string) (dc : device_config) :
  bulk_collect_file_timestamps env name = [] →
  scan_device_optimized c env name dc = Ok zero_counts ∧
  ∀ c', update_device_state c env name zero_counts = Ok c' →
    ∃ d', devices (state c') !! name = Some d' ∧
          dev_total_files d' = 0 ∧ dev_historical_files d' = 0 ∧
          count d' = recorded_count (devices (state c) !! name).
Proof.
  intros Hempty. split.
  - unfold scan_device_optimized. rewrite Hempty.
    destruct (negb (enabled dc)); [done|]. by destruct (negb _).
  - intros c' Hup.
    destruct (update_device_state_recorded _ _ _ _ _ Hup)
      as (d' & Hd' & Htotal & Hhist).
    destruct (update_device_state_count _ _ _ _ _ Hup) as (d'' & Hd'' & Hcount).
    assert (d'' = d') as -> by congruence.
    exists d'. split_and!; [done..|].
    rewrite Hcount. simpl. destruct (is_pending_approval _); lia.
Qed.

Lemma empty_listing_is_recorded_as_zero_witness :
  ∃ c' d',
    update_device_state (load (demo_world false 1000 (demo_device 7 3 3)))
      (demo_env 2000 []) "dev1" zero_counts = Ok c' ∧
    devices (state c') !! "dev1"%string = Some d' ∧
    dev_total_files d' = 0 ∧ count d' = 7.
Proof.
  destruct (empty_listing_is_recorded_as_zero
              (load (demo_world false 1000 (demo_device 7 3 3)))
              (demo_env 2000 []) "dev1" (DeviceConfig true None (Some 100)))
    as [_ Hrec]; [reflexivity|].
  destruct (update_device_state
              (load (demo_world false 1000 (demo_device 7 3 3)))
              (demo_env 2000 []) "dev1" zero_counts) as [c'|] eqn:Hup;
    [|vm_compute in Hup; discriminate Hup].
  destruct (Hrec c' eq_refl) as (d' & Hd' & Htotal & _ & Hcount).
  exists c', d'. split_and!; [reflexivity|exact Hd'|exact Htotal|exact Hcount].
Defined.

(** ** Counting resumes after a decision *)

Lemma resolved_device_state c id decision approver t r d :
  pending (pending_approvals c) !! id = Some r →
  devices (state c) !! device_name r = Some d →
  decision = "APPROVE"%string ∨ decision = "REJECT"%string →
  ∃ c' d',
    process_approval_decision c id decision approver t = Ok (true, c') ∧
    devices (state c') !! device_name r = Some d' ∧
    count d' = 0 ∧ approval_status d' ≠ pending_status ∧
    current_tier d' = (if bool_decide (decision = "APPROVE"%string)
                       then proposed_tier r else current_tier d) ∧
    config c' = config c ∧ bootstrap_mode c' = bootstrap_mode c ∧
    last_scan (state c') = last_scan (state c) ∧
    bootstrap_completed (state c') = bootstrap_completed (state c).
Proof.
  intros Hr Hd Hdec. unfold process_approval_decision. rewrite Hr, Hd.
  destruct Hdec as [-> | ->]; simpl; eexists _, _; (split; [done|]); simpl;
    rewrite lookup_insert_eq; (split; [done|]); simpl; split_and!; done.
Qed.

(** X20. Counting resumes from zero after a decision. In a reachable
    state where the last scan was at instant [s], resolve a pending
    request with APPROVE or REJECT and then scan its (enabled) device:
    the device is handled as not pending, in the proposed tier on APPROVE
    and in its old tier on REJECT, and its count is exactly the number of
    collected files stamped at or after [s] -- files that arrived while
    the request was pending and are stamped before [s] are in no
    count. *)
Theorem counting_resumes_after_decision
    (w : world) (id decision approver : string) (t s : Z)
    (r : approval_request) (env : scan_env) (dc : device_config) :
  reachable w →
  pending (w_approvals w) !! id = Some r →
  last_scan (w_state w) = Some s →
  decision = "APPROVE"%string ∨ decision = "REJECT"%string →
  enabled dc = true →
  ∃ w1 fc c2 d2,
    apply_event w (Resolve id decision approver t) = Ok w1 ∧
    scan_device_optimized (load w1) env (device_name r) dc = Ok fc ∧
    update_device_state (load w1) env (device_name r) fc = Ok c2 ∧
    devices (state c2) !! device_name r = Some d2 ∧
    count d2
    = Z.of_nat (count_ge s
                  ((bulk_collect_file_timestamps env (device_name r)).*1)) ∧
    current_tier d2 = (if bool_decide (decision = "APPROVE"%string)
                       then proposed_tier r else req_current_tier r).
Proof.
  intros Hreach Hr Hs Hdec He.
  pose proof (reachable_consistent w Hreach) as [Hls Hp _ _].
  destruct (Hp id r Hr) as (_ & _ & _ & d & Hd & _ & Htier).
  assert (bootstrap_completed (w_state w) = true) as Hb.
  { apply reachable_last_scan_completed; [done|by rewrite Hs]. }
  destruct (resolved_device_state (load w) id decision approver t r d Hr Hd Hdec)
    as (c1 & d1 & Hres & Hd1 & Hc1 & Hnp1 & Ht1 & Hcfg1 & Hm1 & Hl1 & Hb1).
  simpl. rewrite Hres. simpl.
  destruct (scan_step_counts (load (persist c1)) env (device_name r) dc d1 s)
    as (fc & c2 & d2 & Hscan & Hup & Hd2 & _ & Hcount & _); [done| |done| |].
  { by left. }
  { left. simpl. split; [by rewrite Hb1|by rewrite Hl1]. }
  destruct (advancement_gate_holds (load (persist c1)) env (device_name r) fc d1)
    as (c2' & d2' & Hup' & Hd2' & _ & Ht2 & _); [by left|done|].
  assert (c2' = c2) as -> by congruence.
  assert (d2' = d2) as -> by congruence.
  exists (persist c1), fc, c2, d2. split_and!; [done..| |].
  - rewrite Hcount, Hc1. lia.
  - rewrite Ht2, Ht1, Htier. done.
Qed.

Lemma counting_resumes_after_decision_witness :
  ∃ w1 fc c2 d2,
    apply_event scenario_A_world (Resolve "a1b2c3d4" "APPROVE" "alice" 1500)
    = Ok w1 ∧
    scan_device_optimized (load w1)
      (demo_env 2000 (unit_files 300 200 ++ unit_files 4 1200)) "dev1"
      (DeviceConfig true None (Some 100)) = Ok fc ∧
    update_device_state (load w1)
      (demo_env 2000 (unit_files 300 200 ++ unit_files 4 1200)) "dev1" fc
    = Ok c2 ∧
    devices (state c2) !! "dev1"%string = Some d2 ∧
    count d2 = 4 ∧ current_tier d2 = "12h"%string.
Proof.
  destruct (counting_resumes_after_decision scenario_A_world
              "a1b2c3d4" "APPROVE" "alice" 1500 1000 scenario_A_request
              (demo_env 2000 (unit_files 300 200 ++ unit_files 4 1200))
              (DeviceConfig true None (Some 100)))
    as (w1 & fc & c2 & d2 & Hres & Hscan & Hup & Hd2 & Hcount & Htier).
  - exists (demo_config (Some false)), scenario_A_events. reflexivity.
  - reflexivity.
  - reflexivity.
  - left. reflexivity.
  - reflexivity.
  - exists w1, fc, c2, d2.
    split_and!; [exact Hres|exact Hscan|exact Hup|exact Hd2|exact Hcount
                |exact Htier].
Defined.

(** ** Witnesses of the filter and of the gate *)

Lemma fast_file_filter_accepts_witness :
  fast_file_filter (λ name, name) (λ ext, ext) String.eqb
    (FileFilter {[ ".dat"%string ]} ["temp"%string] 10) ".dat" 12 = true.
Proof.
  apply (fast_file_filter_accepts (λ name, name) (λ ext, ext) String.eqb
           (FileFilter {[ ".dat"%string ]} ["temp"%string] 10) ".dat" 12).
  - lia.
  - split_and!.
    + right. simpl. apply elem_of_singleton. reflexivity.
    + intros pattern Hin. simpl in Hin.
      apply list_elem_of_singleton in Hin. rewrite Hin. reflexivity.
    + simpl. lia.
Defined.

Lemma advancement_gate_witness :
  ∃ c' d',
    update_device_state (load (initial_world (demo_config (Some false))))
      (demo_env 1000 (unit_files 300 200)) "dev1" (FileCounts 300 0 300)
    = Ok c' ∧
    devices (state c') !! "dev1"%string = Some d' ∧
    count d' = 300 ∧ approval_status d' = pending_status.
Proof.
  destruct (advancement_gate
              (load (initial_world (demo_config (Some false))))
              (demo_env 1000 (unit_files 300 200)) "dev1"
              (FileCounts 300 0 300) (demo_device 0 0 0))
    as (c' & d' & Hup & Hd' & Hcount & _ & Hraise & _).
  - right. split; reflexivity.
  - discriminate.
  - destruct Hraise as (tier' & _ & Hst & _).
    + split.
      * simpl. intros Hin. apply elem_of_nil in Hin. destruct Hin.
      * exists 250. split; [reflexivity|]. simpl. lia.
    + exists c', d'. split_and!; [exact Hup|exact Hd'|exact Hcount|exact Hst].
Defined.

(** ** Frames *)

(** X24. Wherever the device of a pending request is recorded, resolving
    the request with APPROVE or REJECT succeeds; afterwards the device
    has count 0, the status of the decision (APPROVED or REJECTED), no
    back-reference and the instant of the decision as start of its tier;
    its tier is the proposed tier on APPROVE and unchanged on REJECT, so
    that it changes exactly on an APPROVE whose proposed tier differs
    from the tier of the device -- which is every APPROVE as long as
    every invocation has returned. *)
Theorem resolution_resets_recorded_device
    (c : counter) (id decision approver : string) (t : Z)
    (r : approval_request) (d : device_state) :
  pending (pending_approvals c) !! id = Some r →
  devices (state c) !! device_name r = Some d →
  decision = "APPROVE"%string ∨ decision = "REJECT"%string →
  ∃ c' d',
    process_approval_decision c id decision approver t = Ok (true, c') ∧
    devices (state c') !! device_name r = Some d' ∧
    count d' = 0 ∧
    approval_status d' =
      (if bool_decide (decision = "APPROVE"%string)
       then "APPROVED" else "REJECTED")%string ∧
    pending_approval_id d' = None ∧
    tier_start_date d' = t ∧
    (decision = "APPROVE"%string → current_tier d' = proposed_tier r) ∧
    (decision = "REJECT"%string → current_tier d' = current_tier d) ∧
    (current_tier d' ≠ current_tier d ↔
     decision = "APPROVE"%string ∧ proposed_tier r ≠ current_tier d) ∧
    (∀ w, reachable w → load w = c → proposed_tier r ≠ current_tier d).
Proof.
  intros Hr Hd Hdec. unfold process_approval_decision. rewrite Hr, Hd.
  assert (∀ w, reachable w → load w = c → proposed_tier r ≠ current_tier d)
    as Hreach.
  { intros w [_ Hp _ _]%reachable_consistent <-.
    destruct (Hp id r Hr) as (_ & _ & Hnext & d0 & Hd0 & _ & Ht).
    simpl in Hd. assert (d0 = d) as -> by congruence.
    rewrite Ht. by apply next_tier_differs. }
  destruct Hdec as [-> | ->]; simpl;
    eexists _, _; (split; [reflexivity|]); simpl;
    rewrite lookup_insert_eq; (split; [reflexivity|]); simpl;
    split_and!; try done.
  - split; [by intros ?|by intros [_ ?]].
  - split; [done|by intros [? _]].
Qed.

Lemma resolution_resets_recorded_device_witness :
  ∃ c' d',
    process_approval_decision (load scenario_A_world)
      "a1b2c3d4" "REJECT" "bob" 2000 = Ok (true, c') ∧
    devices (state c') !! "dev1"%string = Some d' ∧
    count d' = 0 ∧ current_tier d' = "24h"%string.
Proof.
  destruct (resolution_resets_recorded_device (load scenario_A_world)
              "a1b2c3d4" "REJECT" "bob" 2000 scenario_A_request
              scenario_A_device)
    as (c' & d' & Hrun & Hd' & Hcount & _ & _ & _ & _ & Htier & _).
  - reflexivity.
  - reflexivity.
  - right. reflexivity.
  - exists c', d'. split_and!; [exact Hrun|exact Hd'|exact Hcount|].
    rewrite Htier; reflexivity.
Defined.

(** X21. A resolution touches one request and one device: every other
    id keeps its request, every other device keeps its record, the
    configuration and the scan instant are untouched, and no device --
    the resolved one included -- has its recorded total or historical
    counter changed. *)
Theorem resolution_touches_one_request_and_device
    (c c' : counter) (id decision approver : string) (t : Z)
    (r : approval_request) (b : bool) :
  pending (pending_approvals c) !! id = Some r →
  process_approval_decision c id decision approver t = Ok (b, c') →
  (∀ id', id' ≠ id →
     pending (pending_approvals c') !! id'
     = pending (pending_approvals c) !! id') ∧
  (∀ n, n ≠ device_name r →
     devices (state c') !! n = devices (state c) !! n) ∧
  (∀ n, files_of (devices (state c') !! n)
        = files_of (devices (state c) !! n)) ∧
  config c' = config c ∧
  last_scan (state c') = last_scan (state c) ∧
  bootstrap_completed (state c') = bootstrap_completed (state c).
Proof.
  intros Hr Hp.
  destruct (process_approval_decision_flags _ _ _ _ _ _ _ Hp)
    as (Hcfg & Hl & Hb).
  split_and!; [| |intros n; by eapply process_approval_decision_files|done..].
  - intros id' Hne. revert Hp. unfold process_approval_decision. rewrite Hr.
    destruct (devices (state c) !! device_name r); [|done].
    intros [= _ <-]. simpl. by rewrite lookup_delete_ne.
  - intros n Hne. revert Hp. unfold process_approval_decision. rewrite Hr.
    destruct (devices (state c) !! device_name r); [|done].
    intros [= _ <-]. simpl. by rewrite lookup_insert_ne.
Qed.

Lemma resolution_touches_one_request_and_device_witness :
  ∃ b c',
    process_approval_decision (load scenario_A_world)
      "a1b2c3d4" "APPROVE" "alice" 1500 = Ok (b, c') ∧
    files_of (devices (state c') !! "dev1"%string) = Some (300, 0).
Proof.
  destruct (process_approval_decision (load scenario_A_world)
              "a1b2c3d4" "APPROVE" "alice" 1500) as [[b c']|] eqn:Hp;
    [|vm_compute in Hp; discriminate Hp].
  destruct (resolution_touches_one_request_and_device
              (load scenario_A_world) c' "a1b2c3d4" "APPROVE" "alice" 1500
              scenario_A_request b eq_refl Hp) as (_ & _ & Hfiles & _).
  exists b, c'. split; [reflexivity|].
  rewrite Hfiles. reflexivity.
Defined.

(** X22. The scan of an enabled device that is pending approval is
    bookkeeping only: all collected files are reported historical, the
    recorded total and historical counters become the size of the
    listing, and the count, tier, status, back-reference and the whole
    approval store stay as they were. *)
Theorem pending_device_is_only_refreshed
    (c : counter) (env : scan_env) (name : string) (dc : device_config)
    (d : device_state) :
  enabled dc = true →
  devices (state c) !! name = Some d →
  approval_status d = pending_status →
  ∃ fc c' d',
    scan_device_optimized c env name dc = Ok fc ∧
    new_files fc = 0 ∧
    update_device_state c env name fc = Ok c' ∧
    devices (state c') !! name = Some d' ∧
    dev_total_files d' = observed env name ∧
    dev_historical_files d' = observed env name ∧
    count d' = count d ∧ current_tier d' = current_tier d ∧
    approval_status d' = pending_status ∧
    pending_approval_id d' = pending_approval_id d ∧
    pending_approvals c' = pending_approvals c.
Proof.
  intros He Hd Hst.
  assert (is_pending_approval (devices (state c) !! name) = true) as Hp.
  { unfold is_pending_approval. rewrite Hd. simpl.
    by rewrite Hst, bool_decide_eq_true_2. }
  assert (∃ fc, scan_device_optimized c env name dc = Ok fc ∧
                new_files fc = 0 ∧ total_files fc = observed env name ∧
                historical_files fc = observed env name)
    as (fc & Hscan & Hnew & Htotal & Hhist).
  { unfold scan_device_optimized, observed. rewrite He, Hp. simpl.
    destruct (biu_exists env name) eqn:Hbiu; simpl.
    - destruct (bulk_collect_file_timestamps env name); by eexists.
    - rewrite bulk_collect_missing by done. by eexists. }
  exists fc. unfold update_device_state. rewrite Hd. simpl.
  rewrite bool_decide_eq_true_2 by done.
  eexists _, _. split_and!; [done|done|done|..]; simpl;
    rewrite ?lookup_insert_eq; done.
Qed.

Lemma pending_device_is_only_refreshed_witness :
  ∃ fc c' d',
    scan_device_optimized (load scenario_A_world)
      (demo_env 2000 (unit_files 400 200)) "dev1"
      (DeviceConfig true None (Some 100)) = Ok fc ∧
    update_device_state (load scenario_A_world)
      (demo_env 2000 (unit_files 400 200)) "dev1" fc = Ok c' ∧
    devices (state c') !! "dev1"%string = Some d' ∧
    dev_historical_files d' = 400 ∧ count d' = 300.
Proof.
  destruct (pending_device_is_only_refreshed (load scenario_A_world)
              (demo_env 2000 (unit_files 400 200)) "dev1"
              (DeviceConfig true None (Some 100)) scenario_A_device)
    as (fc & c' & d' & Hscan & _ & Hup & Hd' & _ & Hhist & Hcount & _).
  - reflexivity.
  - reflexivity.
  - reflexivity.
  - exists fc, c', d'.
    split_and!; [exact Hscan|exact Hup|exact Hd'|exact Hhist|exact Hcount].
Defined.
